(** * Reticulum: node records, ring keys, image paths and the HTTP views

    A shallow embedding of the [node] package (NodeData, HashKeys,
    RetrieveImage, postFile, Stash) and of the [views] package
    (hashToPath, hashStringToPath, retrieveImage, ServeImageHandler,
    extmimes, mimeexts, AddHandler), followed by the properties the
    specification states about them.

    Go strings and byte slices are sequences of bytes: both are embedded as
    [string] (a list of 8-bit [ascii]).  Go's [int] is embedded as [Z], slice
    lengths as [nat].  The file system and the memcached client are finite
    maps from path (key) to contents.  A call that can panic returns an
    [outcome]; the handlers run in a state monad over the files, the
    memcached items and the response writer.  The network, the clock, the
    image codec, the resize worker and package cluster are parameters. *)

From Stdlib Require Import ZArith Lia Ascii String List DecimalString.
From stdpp Require Import base option list gmap strings.

Open Scope string_scope.
Open Scope Z_scope.
Open Scope list_scope.

(** ** Go's string and slice primitives *)

Module GoString.

(** [len(s)]. *)
Definition len (s : string) : nat := String.length s.

Definition to_bytes (s : string) : list Z :=
  map (fun c => Z.of_N (N_of_ascii c)) (list_ascii_of_string s).

Definition of_bytes (l : list Z) : string :=
  string_of_list_ascii (map (fun b => ascii_of_N (Z.to_N b)) l).

(** [s[lo:hi]]; [None] is the run-time panic "slice bounds out of range"
    that Go raises unless [lo <= hi <= len(s)]. *)
Definition slice (s : string) (lo hi : nat) : option string :=
  if decide (lo ≤ hi ∧ hi ≤ len s)%nat
  then Some (String.substring lo (hi - lo) s)
  else None.

(** [s[lo:]]. *)
Definition slice_from (s : string) (lo : nat) : option string :=
  slice s lo (len s).

(** [strings.Join(parts, sep)]. *)
Fixpoint Join (parts : list string) (sep : string) : string :=
  match parts with
  | [] => ""
  | [p] => p
  | p :: rest => p +:+ sep +:+ Join rest sep
  end.

(** The part of [s] before the first occurrence of the byte [c], and the
    rest after that occurrence when there is one. *)
Fixpoint cut (c : ascii) (s : string) : string * option string :=
  match s with
  | EmptyString => ("", None)
  | String a s' =>
      if decide (a = c) then ("", Some s')
      else let '(hd, tl) := cut c s' in (String a hd, tl)
  end.

(** [strings.Split(s, sep)] for a one-byte separator: the fields between
    the separators, empty fields included. *)
Fixpoint Split_fuel (fuel : nat) (s : string) (c : ascii) : list string :=
  match fuel with
  | O => [s]
  | S fuel' =>
      match cut c s with
      | (hd, None) => [hd]
      | (hd, Some tl) => hd :: Split_fuel fuel' tl c
      end
  end.

Definition Split (s : string) (c : ascii) : list string :=
  Split_fuel (len s) s c.

(** [fmt.Sprintf("%d", i)]. *)
Definition dec (i : Z) : string := NilZero.string_of_int (Z.to_int i).

Definition hexdigit (d : Z) : ascii :=
  ascii_of_N (Z.to_N (if d <? 10 then 48 + d else 87 + d)).

(** [fmt.Sprintf("%02x", b)] for one byte. *)
Definition hex02 (b : Z) : string :=
  String (hexdigit (b / 16)) (String (hexdigit (b mod 16)) "").

(** [fmt.Sprintf("%x", h)] for a byte slice: two lowercase digits a byte. *)
Definition hex (h : string) : string :=
  foldr (fun b acc => hex02 b +:+ acc) "" (to_bytes h).

(** Lowercase hexadecimal digit. *)
Definition is_hex (c : ascii) : bool :=
  let n := Z.of_N (N_of_ascii c) in
  ((48 <=? n) && (n <=? 57)) || ((97 <=? n) && (n <=? 102)).

End GoString.

(** ** crypto/sha1 *)

Module Sha1.

Definition mask32 (x : Z) : Z := x mod 2 ^ 32.

Definition rotl (n x : Z) : Z :=
  mask32 (Z.lor (Z.shiftl x n) (Z.shiftr x (32 - n))).

Definition not32 (x : Z) : Z := Z.lxor x 4294967295.

(** Big-endian bytes of an [n]-byte unsigned integer. *)
Fixpoint be_bytes (n : nat) (x : Z) : list Z :=
  match n with
  | O => []
  | S n' => (Z.shiftr x (8 * Z.of_nat n')) mod 256 :: be_bytes n' x
  end.

Definition be_word (bs : list Z) : Z :=
  foldl (fun acc b => acc * 256 + b) 0 bs.

(** The message followed by 0x80, zeros up to 56 modulo 64, and the bit
    length on 8 bytes. *)
Definition pad (msg : list Z) : list Z :=
  let l := Z.of_nat (length msg) in
  let zeros := Z.to_nat ((55 - l) mod 64) in
  msg ++ 128 :: replicate zeros 0 ++ be_bytes 8 (8 * l).

Fixpoint chunks (fuel n : nat) (l : list Z) : list (list Z) :=
  match fuel with
  | O => []
  | S fuel' =>
      match l with
      | [] => []
      | _ => take n l :: chunks fuel' n (drop n l)
      end
  end.

(** The 80-word message schedule, most recent word first. *)
Fixpoint schedule (n : nat) (rev_w : list Z) : list Z :=
  match n with
  | O => rev_w
  | S n' =>
      let w := rotl 1 (Z.lxor (Z.lxor (nth 2 rev_w 0) (nth 7 rev_w 0))
                              (Z.lxor (nth 13 rev_w 0) (nth 15 rev_w 0))) in
      schedule n' (w :: rev_w)
  end.

Definition state : Type := Z * Z * Z * Z * Z.

Definition round (st : state) (tw : nat * Z) : state :=
  let '(a, b, c, d, e) := st in
  let '(t, w) := tw in
  let '(f, k) :=
    if (t <? 20)%nat then
      (Z.lor (Z.land b c) (Z.land (not32 b) d), 1518500249)
    else if (t <? 40)%nat then
      (Z.lxor (Z.lxor b c) d, 1859775393)
    else if (t <? 60)%nat then
      (Z.lor (Z.lor (Z.land b c) (Z.land b d)) (Z.land c d), 2400959708)
    else
      (Z.lxor (Z.lxor b c) d, 3395469782) in
  (mask32 (rotl 5 a + f + e + k + w), a, rotl 30 b, c, d).

Definition block (st : state) (blk : list Z) : state :=
  let w16 := map be_word (chunks 16 4 blk) in
  let w80 := rev (schedule 64 (rev w16)) in
  let '(a, b, c, d, e) := foldl round st (zip (seq 0 80) w80) in
  let '(h0, h1, h2, h3, h4) := st in
  (mask32 (h0 + a), mask32 (h1 + b), mask32 (h2 + c), mask32 (h3 + d),
   mask32 (h4 + e)).

Definition init : state :=
  (1732584193, 4023233417, 2562383102, 271733878, 3285377520).

Definition digest (msg : list Z) : list Z :=
  let p := pad msg in
  let '(h0, h1, h2, h3, h4) :=
    foldl block init (chunks (length p) 64 p) in
  be_bytes 4 h0 ++ be_bytes 4 h1 ++ be_bytes 4 h2 ++ be_bytes 4 h3
    ++ be_bytes 4 h4.

(** [h := sha1.New(); io.WriteString(h, s); h.Sum(nil)]. *)
Definition Sum (s : string) : string :=
  GoString.of_bytes (digest (GoString.to_bytes s)).

End Sha1.

(** ** UTF-8 decoding, as [for i := range s] performs it *)

Module Utf8.

Definition between (lo hi b : Z) : bool := (lo <=? b) && (b <=? hi).

(** Number of bytes of the encoding at the head of [bs], as
    [utf8.DecodeRuneInString] reports it: an invalid or truncated encoding
    is one byte wide. *)
Definition width (bs : list Z) : nat :=
  match bs with
  | [] => 0
  | b0 :: rest =>
      if b0 <? 128 then 1
      else if b0 <? 194 then 1
      else if b0 <? 224 then
        match rest with
        | b1 :: _ => if between 128 191 b1 then 2 else 1
        | _ => 1
        end
      else if b0 <? 240 then
        let '(lo, hi) :=
          if b0 =? 224 then (160, 191)
          else if b0 =? 237 then (128, 159) else (128, 191) in
        match rest with
        | b1 :: b2 :: _ =>
            if between lo hi b1 && between 128 191 b2 then 3 else 1
        | _ => 1
        end
      else if b0 <? 245 then
        let '(lo, hi) :=
          if b0 =? 240 then (144, 191)
          else if b0 =? 244 then (128, 143) else (128, 191) in
        match rest with
        | b1 :: b2 :: b3 :: _ =>
            if between lo hi b1 && between 128 191 b2 && between 128 191 b3
            then 4 else 1
        | _ => 1
        end
      else 1
  end.

(** The indices [for i := range s] visits from byte offset [i] on, [skip]
    being the continuation bytes of the current rune still to pass. *)
Fixpoint range_from (i skip : nat) (bs : list Z) : list nat :=
  match bs with
  | [] => []
  | _ :: rest =>
      match skip with
      | O => i :: range_from (S i) (width bs - 1) rest
      | S k => range_from (S i) k rest
      end
  end.

(** The values of [i] in [for i := range s]: the byte offset of each rune. *)
Definition range_indices (s : string) : list nat :=
  range_from 0 0 (GoString.to_bytes s).

End Utf8.

(** ** Outcomes of Go calls *)

(** A call either returns or panics. *)
Inductive outcome (A : Type) : Type :=
| Returned (a : A)
| Panicked (msg : string).
Arguments Returned {A} a.
Arguments Panicked {A} msg.

(** A Go [error] value; [errors.New(msg)]. *)
Inductive error : Type :=
| errors_New (msg : string).

(** A result pair [(value, err)] of which exactly one side is set. *)
Definition result (A : Type) : Type := A + error.

(** ** net/http client side and the clock *)

(** [*http.Response], as far as the program reads it. *)
Record Response : Type := mkResponse {
  Status : string;
  Body : string
}.

(** What the program asks of its surroundings. *)
Record Env : Type := mkEnv {
  (** [time.Now()] *)
  time_Now : Z;
  (** [http.Get(url)] *)
  http_Get : string → result Response;
  (** [http.Post(url, contentType, body)] *)
  http_Post : string → string → string → result Response;
  (** The multipart form with the one file field [image]: from the file
      name and the file's bytes, [FormDataContentType()] and the body. *)
  multipart_image : string → string → string * string;
  (** [os.OpenFile(path, os.O_CREATE|os.O_RDWR, 0644)] succeeds. *)
  can_create : string → bool
}.

(** ** Package node *)

(** what we know about a single node (ourself or another) *)
Record NodeData : Type := mkNodeData {
  Nickname : string;
  UUID : string;
  BaseUrl : string;
  Location : string;
  Writeable : bool;
  LastSeen : Z;
  LastFailed : Z
}.

Definition set_LastSeen (t : Z) (n : NodeData) : NodeData :=
  mkNodeData (Nickname n) (UUID n) (BaseUrl n) (Location n) (Writeable n)
             t (LastFailed n).

Definition set_LastFailed (t : Z) (n : NodeData) : NodeData :=
  mkNodeData (Nickname n) (UUID n) (BaseUrl n) (Location n) (Writeable n)
             (LastSeen n) t.

Definition set_Writeable (b : bool) (n : NodeData) : NodeData :=
  mkNodeData (Nickname n) (UUID n) (BaseUrl n) (Location n) b
             (LastSeen n) (LastFailed n).

Definition REPLICAS : nat := 16.

(** [keys := make([]string, REPLICAS)], then [keys[i]] is assigned for each
    [i] of [range keys]. *)
Definition HashKeys (n : NodeData) : list string :=
  let keys := replicate REPLICAS "" in
  foldl
    (fun keys i =>
       <[i := GoString.hex
                (Sha1.Sum (UUID n +:+ GoString.dec (Z.of_nat i)))]> keys)
    keys (seq 0 (length keys)).

Definition IsCurrent (n : NodeData) : bool := LastFailed n <? LastSeen n.

Definition retrieveUrl (n : NodeData) (hash size extension : string) : string :=
  "http://" +:+ BaseUrl n +:+ "/retrieve/" +:+ hash +:+ "/" +:+ size +:+ "/"
    +:+ extension +:+ "/".

Definition stashUrl (n : NodeData) : string :=
  "http://" +:+ BaseUrl n +:+ "/stash/".

(** The receiver is a pointer: the node after the call is returned beside
    the result. *)
Definition RetrieveImage (env : Env) (n : NodeData)
    (hash size extension : string) : NodeData * result string :=
  match http_Get env (retrieveUrl n hash size extension) with
  | inr err => (set_LastFailed (time_Now env) n, inr err)
  | inl resp =>
      let n := set_LastSeen (time_Now env) n in
      if decide (Status resp ≠ "200 OK")
      then (n, inr (errors_New "404, probably"))
      else (n, inl (Body resp))
  end.

(** [os.Open] fails on a path that holds no file, and [postFile] panics with
    the error's text.  [CreateFormFile] writes to a buffer in memory and does
    not fail. *)
Definition postFile (env : Env) (fs : gmap string string)
    (filename target_url : string) : outcome (result Response) :=
  match fs !! filename with
  | None => Panicked ("open " +:+ filename +:+ ": no such file or directory")
  | Some contents =>
      let '(content_type, body) := multipart_image env filename contents in
      Returned (http_Post env target_url content_type body)
  end.

Definition Stash (env : Env) (fs : gmap string string) (n : NodeData)
    (filename : string) : outcome (NodeData * bool) :=
  match postFile env fs filename (stashUrl n) with
  | Panicked msg => Panicked msg
  | Returned (inr err) =>
      (* this node failed us, so take them out of the write ring *)
      Returned (set_Writeable false (set_LastFailed (time_Now env) n), false)
  | Returned (inl _) =>
      Returned (set_LastSeen (time_Now env) n, true)
  end.

(** ** path/filepath and os *)

(** [filepath.Ext]'s scan from the end of the path: [Some e] once the scan has
    met the last dot ([e] is the suffix from it on) or a separator before
    any dot ([e] is empty), [None] while neither was met. *)
Fixpoint Ext_scan (path : string) : option string :=
  match path with
  | EmptyString => None
  | String a rest =>
      match Ext_scan rest with
      | Some e => Some e
      | None =>
          if decide (a = "."%char) then Some path
          else if decide (a = "/"%char) then Some ""
          else None
      end
  end.

(** [filepath.Ext(path)]: the suffix beginning at the final dot in the final
    element of [path]; empty if there is no dot. *)
Definition filepath_Ext (path : string) : string :=
  default "" (Ext_scan path).

(** A file opened without [O_TRUNC] and written from offset 0: the bytes
    written replace a prefix of the old contents. *)
Definition write_at_start (old data : string) : string :=
  data +:+ String.substring (GoString.len data)
                            (GoString.len old - GoString.len data) old.

(** ** Package views *)

Record Page : Type := mkPage {
  Title : string;
  RequireKey : bool
}.

Record ImageData : Type := mkImageData {
  Hash : string;
  Length : Z;
  Extension : string;
  FullUrl : string;
  Satisfied : bool;
  Nodes : list string
}.

Definition hashToPath (h : string) : string :=
  foldl (fun buffer b => buffer +:+ GoString.hex02 b +:+ "/") ""
        (GoString.to_bytes h).

(** [h[i-1:i+1]] is within bounds for every odd [i] below [len(h)]. *)
Definition hashStringToPath (h : string) : string :=
  let parts :=
    foldl
      (fun parts i =>
         if decide (i mod 2 ≠ 0)%nat
         then parts ++ [String.substring (i - 1) 2 h]
         else parts)
      [] (Utf8.range_indices h) in
  GoString.Join parts "/".

Definition jpeg_options_Quality : Z := 90.

(** A Go map from string to string; a key that is absent reads as the empty
    string. *)
Definition map_index (m : gmap string string) (k : string) : string :=
  default "" (m !! k).

Definition mimeexts : gmap string string :=
  <["image/jpeg" := "jpg"]>
    (<["image/gif" := "gif"]> (<["image/png" := "png"]> ∅)).

Definition extmimes : gmap string string :=
  <["jpg" := "image/jpeg"]>
    (<["gif" := "image/gif"]> (<["png" := "image/png"]> ∅)).

(** Modelled from the spec: the cluster record of package cluster, which owns
    the local node ("myself") and the peers; the views read its field
    [Myself]. *)
Record Cluster : Type := mkCluster {
  Myself : NodeData;
  Neighbors : list NodeData
}.

(** Modelled from the spec: the part of package config the views read, with
    the methods [KeyRequired] and [ValidKey] as fields. *)
Record SiteConfig : Type := mkSiteConfig {
  UploadDirectory : string;
  Replication : Z;
  MinReplication : Z;
  KeyRequired : bool;
  ValidKey : string → bool
}.

(** [http.ResponseWriter]: the status code once written, the header map and
    the bytes of the body. *)
Record ResponseWriter : Type := mkResponseWriter {
  code : option Z;
  header : gmap string string;
  written : string
}.

(** What a handler reads and changes: the files under the upload directory,
    the memcached items and the response in progress. *)
Record State : Type := mkState {
  fs : gmap string string;
  mc : gmap string string;
  w : ResponseWriter
}.

Definition Handler (A : Type) : Type := State → outcome (A * State).

#[global] Instance Handler_ret : MRet Handler :=
  fun A (a : A) st => Returned (a, st).

#[global] Instance Handler_bind : MBind Handler :=
  fun A B (f : A → Handler B) (m : Handler A) st =>
    match m st with
    | Returned (a, st') => f a st'
    | Panicked msg => Panicked msg
    end.

Definition panic {A : Type} (msg : string) : Handler A :=
  fun _ => Panicked msg.

Definition ReadFile (path : string) : Handler (option string) :=
  fun st => Returned (fs st !! path, st).

(** [ctx.MC.Get(key)] and [ctx.MC.Set(item)] of the memcached client.  [mc]
    holds the items memcached returns: a [Get] that fails, for whatever
    reason, is a miss.  The handlers drop the error of [Set]; here [Set]
    stores the item.  A memcached that refuses an item or loses it between
    two requests is met in the properties by taking the items of a request
    as they come: nothing or the item handed over. *)
Definition MC_Get (key : string) : Handler (option string) :=
  fun st => Returned (mc st !! key, st).

Definition MC_Set (key value : string) : Handler unit :=
  fun st => Returned (tt, mkState (fs st) (<[key := value]> (mc st)) (w st)).

Definition Header_Set (k v : string) : Handler unit :=
  fun st =>
    let rw := w st in
    Returned (tt, mkState (fs st) (mc st)
                    (mkResponseWriter (code rw) (<[k := v]> (header rw))
                                      (written rw))).

(** [w.Write(b)]: the first write sends status 200 unless a status was sent. *)
Definition Write (b : string) : Handler unit :=
  fun st =>
    let rw := w st in
    Returned (tt, mkState (fs st) (mc st)
                    (mkResponseWriter
                       (Some (default 200 (code rw))) (header rw)
                       (written rw +:+ b))).

Definition WriteHeader (c : Z) : Handler unit :=
  fun st =>
    let rw := w st in
    Returned (tt, mkState (fs st) (mc st)
                    (mkResponseWriter (Some (default c (code rw))) (header rw)
                                      (written rw))).

Definition newline : string := String (ascii_of_nat 10) "".

(** [http.Error(w, msg, code)]. *)
Definition http_Error (msg : string) (c : Z) : Handler unit :=
  Header_Set "Content-Type" "text/plain; charset=utf-8";;
  WriteHeader c;;
  Write (msg +:+ newline).

(** [s[1:]]. *)
Definition slice1 (s : string) : Handler string :=
  match GoString.slice_from s 1 with
  | Some t => mret t
  | None => panic "slice bounds out of range"
  end.

(** [os.OpenFile(path, os.O_CREATE|os.O_RDWR, 0644)]: whether the file was
    opened; a file that did not exist is created empty. *)
Definition OpenFile (env : Env) (path : string) : Handler bool :=
  fun st =>
    if can_create env path then
      Returned (true,
                mkState (<[path := default "" (fs st !! path)]> (fs st))
                        (mc st) (w st))
    else Returned (false, st).

(** Writing [data] to the file opened by [OpenFile]; a write to the nil file
    of a failed open is an error the handlers ignore. *)
Definition File_Write (opened : bool) (path data : string) : Handler unit :=
  fun st =>
    if opened then
      Returned (tt,
                mkState (<[path := write_at_start (default "" (fs st !! path))
                                                  data]> (fs st))
                        (mc st) (w st))
    else Returned (tt, st).

(** Modelled from the spec: the request of package resize_worker, which the
    handlers build from the source path, the extension and the size, without
    its reply channel. *)
Record ResizeRequest : Type := mkResizeRequest {
  Path : string;
  ReqExtension : string;
  Size : string
}.

(** Modelled from the spec: the response of package resize_worker;
    [OutputImage] is a pointer, nil when the worker sends no image. *)
Record ResizeResponse (Image : Type) : Type := mkResizeResponse {
  OutputImage : option Image;
  Success : bool;
  Magick : bool
}.
Arguments mkResizeResponse {Image} _ _ _.
Arguments OutputImage {Image} _.
Arguments Success {Image} _.
Arguments Magick {Image} _.

(** What [AddHandler] answers: the error sent with [http.Error], the value it
    hands to [json.Marshal], or the page it hands to the template. *)
Inductive AddResponse : Type :=
| AddError (msg : string) (c : Z)
| AddJson (id : ImageData)
| AddPage (template : string) (p : Page).

(** The request of an upload, as [AddHandler] reads it: the method, the form
    value [key], and the form file [image] with the values of its
    Content-Type header ([None] when [r.FormFile] fails). *)
Record AddRequest : Type := mkAddRequest {
  Method : string;
  FormValue_key : string;
  FormFile_image : option (string * list string)
}.

Section Views.

(** Decoded images and the two encoders of the image library. *)
Variable Image : Type.
Variable jpeg_Encode : Image → Z → string.
Variable png_Encode : Image → string.

(** The resize worker behind [ctx.Ch.ResizeQueue]: its answer to a request
    and the files after it ran. *)
Variable resize_worker :
  ResizeRequest → gmap string string →
  ResizeResponse Image * gmap string string.

(** [Cluster.ReadOrder(hash)] and [Cluster.Stash(hash, filename,
    replication, min_replication)] of package cluster. *)
Variable ReadOrder : Cluster → string → list NodeData.
Variable Cluster_Stash :
  Cluster → gmap string string → string → string → Z → Z →
  outcome (list string).

Variable env : Env.

(** The loop of [retrieveImage] over [nodes_to_check]; [n] is the loop's
    copy of the node, so what [RetrieveImage] stores in it is dropped. *)
Fixpoint retrieveImage_loop (myself : NodeData) (nodes_to_check : list NodeData)
    (ahash size extension : string) : result string :=
  match nodes_to_check with
  | [] => inr (errors_New "not found in the cluster")
  | n :: rest =>
      if decide (UUID n = UUID myself) then
        (* checking ourself would be silly *)
        retrieveImage_loop myself rest ahash size extension
      else
        match snd (RetrieveImage env n ahash size extension) with
        | inl img => inl img
        | inr _ => retrieveImage_loop myself rest ahash size extension
        end
  end.

Definition retrieveImage (c : Cluster) (ahash size extension : string)
    : result string :=
  retrieveImage_loop (Myself c) (ReadOrder c ahash) ahash size extension.

Definition run_resize (req : ResizeRequest) : Handler (ResizeResponse Image) :=
  fun st =>
    let '(result, fs') := resize_worker req (fs st) in
    Returned (result, mkState fs' (mc st) (w st)).

(** The tail of [ServeImageHandler] once the resized image is at hand:
    encode it to the file and to the response, then cache the file. *)
Definition encode_and_serve (opened : bool) (sizedPath memcache_key : string)
    (encoded : string) : Handler unit :=
  File_Write opened sizedPath encoded;;
  Write encoded;;
  img_contents ← ReadFile sizedPath;
  MC_Set memcache_key (default "" img_contents).

Definition ServeImageHandler (c : Cluster) (cfg : SiteConfig) (url : string)
    : Handler unit :=
  match GoString.Split url "/" with
  | _ :: p1 :: ahash :: size :: filename :: _ =>
      if decide (p1 ≠ "image") then http_Error "bad request" 404
      else
        let filename :=
          if decide (filename = "") then "image.jpg" else filename in
        let extension := filepath_Ext filename in
        if decide (GoString.len ahash ≠ 40%nat) then http_Error "bad hash" 404
        else
          let memcache_key :=
            ahash +:+ "/" +:+ size +:+ "/image" +:+ extension in
          (* check memcached first *)
          item ← MC_Get memcache_key;
          match item with
          | Some value =>
              ext ← slice1 extension;
              Header_Set "Content-Type" (map_index extmimes ext);;
              Write value
          | None =>
              let baseDir := UploadDirectory cfg +:+ hashStringToPath ahash in
              let path := baseDir +:+ "/full" +:+ extension in
              let sizedPath := baseDir +:+ "/" +:+ size +:+ extension in
              contents ← ReadFile sizedPath;
              match contents with
              | Some contents =>
                  MC_Set memcache_key contents;;
                  (* we've got it, so serve it directly *)
                  ext ← slice1 extension;
                  Header_Set "Content-Type" (map_index extmimes ext);;
                  Write contents
              | None =>
                  full ← ReadFile path;
                  match full with
                  | None =>
                      (* we don't have the full-size on this node either
                         need to check the rest of the cluster *)
                      ext ← slice1 extension;
                      match retrieveImage c ahash size ext with
                      | inr _ => http_Error "not found" 404
                      | inl img_data =>
                          MC_Set memcache_key img_data;;
                          ext ← slice1 extension;
                          Header_Set "Content-Type" (map_index extmimes ext);;
                          Write img_data
                      end
                  | Some _ =>
                      (* we do have the full-size, but not the scaled one
                         so resize it, cache it, and serve it. *)
                      result ← run_resize
                                 (mkResizeRequest path extension size);
                      if negb (Success result) then
                        http_Error "could not resize image" 500
                      else if Magick result then
                        Header_Set "Content-Type"
                                   (map_index extmimes extension);;
                        img_contents ← ReadFile sizedPath;
                        MC_Set memcache_key (default "" img_contents);;
                        Write (default "" img_contents)
                      else
                        match OutputImage result with
                        | None => panic "nil pointer dereference"
                        | Some outputImage =>
                            wFile ← OpenFile env sizedPath;
                            ext ← slice1 extension;
                            Header_Set "Content-Type"
                                       (map_index extmimes ext);;
                            if decide (extension = ".jpg") then
                              encode_and_serve wFile sizedPath memcache_key
                                (jpeg_Encode outputImage jpeg_options_Quality)
                            else if decide (extension = ".gif") then
                              (* image/gif doesn't include an Encode()
                                 so we'll use png for now. *)
                              encode_and_serve wFile sizedPath memcache_key
                                (png_Encode outputImage)
                            else if decide (extension = ".png") then
                              encode_and_serve wFile sizedPath memcache_key
                                (png_Encode outputImage)
                            else mret tt
                        end
                  end
              end
          end
  | _ => http_Error "bad request" 404
  end.

(** [AddHandler], with the response as [AddResponse] and the files after
    the call.  A failed [r.FormFile] leaves a nil file, whose [Close] is
    called; a part without Content-Type leaves an empty slice to index. *)
Definition AddHandler (c : Cluster) (cfg : SiteConfig) (r : AddRequest)
    (files : gmap string string)
    : outcome (AddResponse * gmap string string) :=
  if decide (Method r = "POST") then
    if KeyRequired cfg && negb (ValidKey cfg (FormValue_key r)) then
      Returned (AddError "invalid upload key" 403, files)
    else
      match FormFile_image r with
      | None => Panicked "nil pointer dereference"
      | Some (i, content_types) =>
          let sum := Sha1.Sum i in
          let ahash := GoString.hex sum in
          let path := UploadDirectory cfg +:+ hashToPath sum in
          match content_types with
          | [] => Panicked "index out of range"
          | mimetype :: _ =>
              let ext := map_index mimeexts mimetype in
              let fullpath := path +:+ "full." +:+ ext in
              let files :=
                if can_create env fullpath then
                  <[fullpath :=
                      write_at_start (default "" (files !! fullpath)) i]> files
                else files in
              (* now stash it to other nodes in the cluster too *)
              match Cluster_Stash c files ahash fullpath (Replication cfg)
                                  (MinReplication cfg) with
              | Panicked msg => Panicked msg
              | Returned nodes =>
                  let id :=
                    {| Hash := ahash;
                       Length := 0;
                       Extension := ext;
                       FullUrl := "/image/" +:+ ahash +:+ "/full/image."
                                    +:+ ext;
                       Satisfied :=
                         bool_decide
                           (MinReplication cfg ≤ Z.of_nat (length nodes));
                       Nodes := nodes |} in
                  Returned (AddJson id, files)
              end
          end
      end
  else
    Returned (AddPage "add" {| Title := "upload image";
                                RequireKey := KeyRequired cfg |},
              files).

End Views.

(** ** Package views, earlier version

    The sources hold two versions of package views.  The embedding above
    follows the later one, with memcached, the worker's [Success] and
    [Magick] flags and [MinReplication].  The earlier one shares
    [hashToPath], [hashStringToPath], [retrieveImage] and the two tables;
    its handlers are embedded here. *)

Module Earlier.

Section Views.

Variable Image : Type.
Variable jpeg_Encode : Image → Z → string.
Variable png_Encode : Image → string.
Variable resize_worker :
  ResizeRequest → gmap string string →
  ResizeResponse Image * gmap string string.
Variable ReadOrder : Cluster → string → list NodeData.

(** [Cluster.Stash(hash, filename, replication)]. *)
Variable Cluster_Stash :
  Cluster → gmap string string → string → string → Z →
  outcome (list string).

Variable env : Env.

Definition encode_and_serve (opened : bool) (sizedPath encoded : string)
    : Handler unit :=
  File_Write opened sizedPath encoded;;
  Write encoded.

Definition ServeImageHandler (c : Cluster) (cfg : SiteConfig) (url : string)
    : Handler unit :=
  match GoString.Split url "/" with
  | _ :: p1 :: ahash :: size :: filename :: _ =>
      if decide (p1 ≠ "image") then http_Error "bad request" 404
      else
        let filename :=
          if decide (filename = "") then "image.jpg" else filename in
        let extension := filepath_Ext filename in
        if decide (GoString.len ahash ≠ 40%nat) then http_Error "bad hash" 404
        else
          let baseDir := UploadDirectory cfg +:+ hashStringToPath ahash in
          let path := baseDir +:+ "/full" +:+ extension in
          let sizedPath := baseDir +:+ "/" +:+ size +:+ extension in
          contents ← ReadFile sizedPath;
          match contents with
          | Some contents =>
              (* we've got it, so serve it directly *)
              ext ← slice1 extension;
              Header_Set "Content-Type" (map_index extmimes ext);;
              Write contents
          | None =>
              full ← ReadFile path;
              match full with
              | None =>
                  ext ← slice1 extension;
                  match retrieveImage ReadOrder env c ahash size ext with
                  | inr _ => http_Error "not found" 404
                  | inl img_data =>
                      ext ← slice1 extension;
                      Header_Set "Content-Type" (map_index extmimes ext);;
                      Write img_data
                  end
              | Some _ =>
                  result ← run_resize Image resize_worker
                             (mkResizeRequest path extension size);
                  match OutputImage result with
                  | None => panic "nil pointer dereference"
                  | Some outputImage =>
                      wFile ← OpenFile env sizedPath;
                      ext ← slice1 extension;
                      Header_Set "Content-Type" (map_index extmimes ext);;
                      if decide (extension = ".jpg") then
                        encode_and_serve wFile sizedPath
                          (jpeg_Encode outputImage jpeg_options_Quality)
                      else if decide (extension = ".gif") then
                        encode_and_serve wFile sizedPath
                          (png_Encode outputImage)
                      else if decide (extension = ".png") then
                        encode_and_serve wFile sizedPath
                          (png_Encode outputImage)
                      else mret tt
                  end
              end
          end
  | _ => http_Error "bad request" 404
  end.

(** [ioutil.ReadAll] of the nil file of a failed [r.FormFile] panics;
    [Length] is the number of bytes [f.Write] wrote, none to the nil file of
    a failed open. *)
Definition AddHandler (c : Cluster) (cfg : SiteConfig) (r : AddRequest)
    (files : gmap string string)
    : outcome (AddResponse * gmap string string) :=
  if decide (Method r = "POST") then
    if KeyRequired cfg && negb (ValidKey cfg (FormValue_key r)) then
      Returned (AddError "invalid upload key" 403, files)
    else
      match FormFile_image r with
      | None => Panicked "nil pointer dereference"
      | Some (d, content_types) =>
          let sum := Sha1.Sum d in
          let ahash := GoString.hex sum in
          let path := UploadDirectory cfg +:+ hashToPath sum in
          match content_types with
          | [] => Panicked "index out of range"
          | mimetype :: _ =>
              let ext := map_index mimeexts mimetype in
              let fullpath := path +:+ "full." +:+ ext in
              let opened := can_create env fullpath in
              let files :=
                if opened then
                  <[fullpath :=
                      write_at_start (default "" (files !! fullpath)) d]> files
                else files in
              let n := if opened then Z.of_nat (GoString.len d) else 0 in
              match Cluster_Stash c files ahash fullpath (Replication cfg) with
              | Panicked msg => Panicked msg
              | Returned nodes =>
                  let id :=
                    {| Hash := ahash;
                       Length := n;
                       Extension := ext;
                       FullUrl := "/image/" +:+ ahash +:+ "/full/image."
                                    +:+ ext;
                       Satisfied :=
                         bool_decide
                           (Replication cfg ≤ Z.of_nat (length nodes));
                       Nodes := nodes |} in
                  Returned (AddJson id, files)
              end
          end
      end
  else
    Returned (AddPage "add" {| Title := "upload image";
                                RequireKey := KeyRequired cfg |},
              files).

End Views.

End Earlier.

(** ** Package views: the handlers the peers call

    [StashHandler], [RetrieveInfoHandler], [RetrieveHandler] and
    [AnnounceHandler] of the later version. *)

(** The request of a stash, as [StashHandler] reads it: the method and the
    form file [image], its bytes and the file name of its header ([None]
    when [r.FormFile] fails). *)
Record StashRequest : Type := mkStashRequest {
  StashMethod : string;
  StashFile : option (string * string)
}.

(** Modelled from the spec: [node.ImageInfoResponse], the answer to a probe:
    the hash, the extension and whether the full-size is held. *)
Record ImageInfoResponse : Type := mkImageInfoResponse {
  InfoHash : string;
  InfoExtension : string;
  InfoLocal : bool
}.

(** The form values of an announce; a value that is absent reads as the
    empty string. *)
Record AnnounceRequest : Type := mkAnnounceRequest {
  AnnounceMethod : string;
  Form_uuid : string;
  Form_nickname : string;
  Form_location : string;
  Form_base_url : string;
  Form_writeable : string
}.

(** Modelled from the spec: [node.AnnounceResponse], the local node's record
    and the neighbors. *)
Record AnnounceResponse : Type := mkAnnounceResponse {
  AnnNickname : string;
  AnnUUID : string;
  AnnLocation : string;
  AnnWriteable : bool;
  AnnBaseUrl : string;
  AnnNeighbors : list NodeData
}.

(** The zero [time.Time], in seconds of the Unix epoch. *)
Definition time_zero : Z := -62135596800.

(** The assignments [AnnounceHandler] makes to the record of a neighbor it
    knows. *)
Definition announce_known (r : AnnounceRequest) (now : Z) (neighbor : NodeData)
    : NodeData :=
  let neighbor :=
    if decide (Form_nickname r ≠ "")
    then mkNodeData (Form_nickname r) (UUID neighbor) (BaseUrl neighbor)
                    (Location neighbor) (Writeable neighbor)
                    (LastSeen neighbor) (LastFailed neighbor)
    else neighbor in
  let neighbor :=
    if decide (Form_location r ≠ "")
    then mkNodeData (Nickname neighbor) (UUID neighbor) (BaseUrl neighbor)
                    (Form_location r) (Writeable neighbor)
                    (LastSeen neighbor) (LastFailed neighbor)
    else neighbor in
  let neighbor :=
    if decide (Form_base_url r ≠ "")
    then mkNodeData (Nickname neighbor) (UUID neighbor) (Form_base_url r)
                    (Location neighbor) (Writeable neighbor)
                    (LastSeen neighbor) (LastFailed neighbor)
    else neighbor in
  let neighbor :=
    if decide (Form_writeable r ≠ "")
    then set_Writeable (bool_decide (Form_writeable r = "true")) neighbor
    else neighbor in
  set_LastSeen now neighbor.

(** The record [AnnounceHandler] builds for a neighbor it does not know. *)
Definition announce_new (r : AnnounceRequest) (now : Z) : NodeData :=
  let nd := mkNodeData (Form_nickname r) (Form_uuid r) (Form_base_url r)
                       (Form_location r) false time_zero time_zero in
  let nd :=
    if decide (Form_writeable r = "true")
    then set_Writeable true nd else set_Writeable false nd in
  set_LastSeen now nd.

Section PeerViews.

Variable Image : Type.
Variable jpeg_Encode : Image → Z → string.
Variable png_Encode : Image → string.
Variable resize_worker :
  ResizeRequest → gmap string string →
  ResizeResponse Image * gmap string string.
Variable env : Env.

(** [json.Marshal] of an [ImageInfoResponse]. *)
Variable json_Marshal_info : ImageInfoResponse → string.

(** [FindNeighborByUUID], [UpdateNeighbor], [AddNeighbor] and [GetNeighbors]
    of package cluster. *)
Variable FindNeighborByUUID : Cluster → string → option NodeData.
Variable UpdateNeighbor : Cluster → NodeData → Cluster.
Variable AddNeighbor : Cluster → NodeData → Cluster.
Variable GetNeighbors : Cluster → list NodeData.

Definition StashHandler (c : Cluster) (cfg : SiteConfig) (r : StashRequest)
    : Handler unit :=
  let n := Myself c in
  if decide (StashMethod r ≠ "POST") then http_Error "POST only" 400
  else if negb (Writeable n) then http_Error "non-writeable node" 400
  else
    match StashFile r with
    | None => http_Error "no image uploaded" 400
    | Some (i, filename) =>
        let path := UploadDirectory cfg +:+ hashToPath (Sha1.Sum i) in
        let ext := filepath_Ext filename in
        let fullpath := path +:+ "full" +:+ ext in
        f ← OpenFile env fullpath;
        File_Write f fullpath i;;
        Write "ok"
    end.

(** [os.Open(path)] succeeds when the path holds a file. *)
Definition RetrieveInfoHandler (cfg : SiteConfig) (url : string)
    : Handler unit :=
  (* request will look like /retrieve_info/$hash/$size/$ext/ *)
  match GoString.Split url "/" with
  | [_; p1; ahash; _; extension; _] =>
      if decide (p1 ≠ "retrieve_info") then http_Error "bad request" 404
      else if decide (GoString.len ahash ≠ 40%nat) then
        http_Error "bad hash" 404
      else
        let baseDir := UploadDirectory cfg +:+ hashStringToPath ahash in
        let path := baseDir +:+ "/full" +:+ "." +:+ extension in
        opened ← ReadFile path;
        let local := match opened with Some _ => true | None => false end in
        Header_Set "Content-Type" "application/json";;
        Write (json_Marshal_info (mkImageInfoResponse ahash extension local))
  | _ => http_Error "bad request" 404
  end.

Definition encode_to_both (opened : bool) (sizedPath encoded : string)
    : Handler unit :=
  File_Write opened sizedPath encoded;;
  Write encoded.

Definition RetrieveHandler (cfg : SiteConfig) (url : string) : Handler unit :=
  (* request will look like /retrieve/$hash/$size/$ext/ *)
  match GoString.Split url "/" with
  | [_; p1; ahash; size; extension; _] =>
      if decide (p1 ≠ "retrieve") then http_Error "bad request" 404
      else if decide (GoString.len ahash ≠ 40%nat) then
        http_Error "bad hash" 404
      else
        let baseDir := UploadDirectory cfg +:+ hashStringToPath ahash in
        let path := baseDir +:+ "/full" +:+ "." +:+ extension in
        let sizedPath := baseDir +:+ "/" +:+ size +:+ "." +:+ extension in
        contents ← ReadFile sizedPath;
        match contents with
        | Some contents =>
            (* we've got it, so serve it directly *)
            Header_Set "Content-Type" (map_index extmimes extension);;
            Write contents
        | None =>
            full ← ReadFile path;
            match full with
            | None =>
                (* we don't have the full-size on this node either *)
                http_Error "not found" 404
            | Some _ =>
                result ← run_resize Image resize_worker
                           (mkResizeRequest path ("." +:+ extension) size);
                if negb (Success result) then
                  http_Error "could not resize image" 500
                else if Magick result then
                  Header_Set "Content-Type" (map_index extmimes extension);;
                  img_contents ← ReadFile sizedPath;
                  Write (default "" img_contents)
                else
                  match OutputImage result with
                  | None => panic "nil pointer dereference"
                  | Some outputImage =>
                      wFile ← OpenFile env sizedPath;
                      Header_Set "Content-Type"
                                 (map_index extmimes extension);;
                      if decide (extension = "jpg") then
                        encode_to_both wFile sizedPath
                          (jpeg_Encode outputImage jpeg_options_Quality)
                      else if decide (extension = "gif") then
                        encode_to_both wFile sizedPath (png_Encode outputImage)
                      else if decide (extension = "png") then
                        encode_to_both wFile sizedPath (png_Encode outputImage)
                      else mret tt
                  end
            end
        end
  | _ => http_Error "bad request" 404
  end.

(** [AnnounceHandler], with the cluster after the call and the value it
    hands to [json.Marshal]. *)
Definition AnnounceHandler (c : Cluster) (r : AnnounceRequest)
    : Cluster * AnnounceResponse :=
  let c :=
    if decide (AnnounceMethod r = "POST") then
      match FindNeighborByUUID c (Form_uuid r) with
      | Some neighbor =>
          UpdateNeighbor c (announce_known r (time_Now env) neighbor)
      | None => AddNeighbor c (announce_new r (time_Now env))
      end
    else c in
  (c, mkAnnounceResponse (Nickname (Myself c)) (UUID (Myself c))
                         (Location (Myself c)) (Writeable (Myself c))
                         (BaseUrl (Myself c)) (GetNeighbors c)).

End PeerViews.

(** ** Reading the specification *)

(** A status line of the 2xx class: its code starts with the digit 2. *)
Definition status_2xx (status : string) : bool :=
  match status with
  | String c _ => bool_decide (c = "2"%char)
  | EmptyString => false
  end.

(** The nodes of a read order other than the local node. *)
Definition consulted (myself : NodeData) (read_order : list NodeData)
    : list NodeData :=
  filter (fun n => UUID n ≠ UUID myself) read_order.

(** What a peer answers when it is asked for an image, and that it fails. *)
Definition peer_answer (env : Env) (ahash size extension : string)
    (n : NodeData) : result string :=
  (RetrieveImage env n ahash size extension).2.

Definition peer_fails (env : Env) (ahash size extension : string)
    (n : NodeData) : Prop :=
  ∃ err, peer_answer env ahash size extension n = inr err.

(** The consecutive two-character segments of a string. *)
Fixpoint segments2 (s : string) : list string :=
  match s with
  | String a (String b rest) => String a (String b "") :: segments2 rest
  | _ => []
  end.

(** The segments put back end to end. *)
Definition flatten (segs : list string) : string :=
  foldr String.append "" segs.

(** The digits of the bytes, byte by byte. *)
Definition hex_of_bytes (bs : list Z) : string :=
  foldr (fun b acc => GoString.hex02 b +:+ acc) "" bs.

(** Each byte's two digits followed by a separator: what [hashToPath]
    prints. *)
Definition slashed (bs : list Z) : string :=
  foldr (fun b acc => GoString.hex02 b +:+ "/" +:+ acc) "" bs.

(** Every character is a lowercase hexadecimal digit. *)
Definition all_hex (s : string) : bool :=
  forallb GoString.is_hex (list_ascii_of_string s).

(** The names [ServeImageHandler] computes for a request: the full-size
    file, the file of the rendition and the memcached key. *)
Definition full_path (cfg : SiteConfig) (ahash extension : string) : string :=
  (UploadDirectory cfg +:+ hashStringToPath ahash) +:+ "/full" +:+ extension.

Definition sized_path (cfg : SiteConfig) (ahash size extension : string)
    : string :=
  (UploadDirectory cfg +:+ hashStringToPath ahash) +:+ "/" +:+ size
    +:+ extension.

Definition memcache_key (ahash size extension : string) : string :=
  ahash +:+ "/" +:+ size +:+ "/image" +:+ extension.

(** The file name of a request: [image.jpg] when the URL gives none. *)
Definition request_filename (name : string) : string :=
  if decide (name = "") then "image.jpg" else name.

(** The response writer before the handler wrote anything. *)
Definition fresh : ResponseWriter := mkResponseWriter None ∅ "".

(** No character of the string is a dot. *)
Definition no_dot (s : string) : bool :=
  forallb (fun ch => negb (Ascii.eqb ch "."%char)) (list_ascii_of_string s).

(** The state after an image was served with status 200: the Content-Type
    set, the bytes written. *)
Definition served (ctype body : string) (st : State) : State :=
  mkState (fs st) (mc st)
          (mkResponseWriter (Some (default 200 (code (w st))))
                            (<["Content-Type" := ctype]> (header (w st)))
                            (written (w st) +:+ body)).

(** The state after an item was stored in memcached. *)
Definition cached (key value : string) (st : State) : State :=
  mkState (fs st) (<[key := value]> (mc st)) (w st).

(** The byte [c] does not occur in the string. *)
Definition lacks (c : ascii) (s : string) : bool :=
  forallb (fun ch => negb (Ascii.eqb ch c)) (list_ascii_of_string s).

(** The path with its separators taken out. *)
Fixpoint remove_slashes (path : string) : string :=
  match path with
  | EmptyString => ""
  | String a rest =>
      if decide (a = "/"%char) then remove_slashes rest
      else String a (remove_slashes rest)
  end.

(** The path of the request a peer receives for [retrieveUrl]: the URL
    without scheme and host. *)
Definition retrieve_path (hash size extension : string) : string :=
  "/retrieve/" +:+ hash +:+ "/" +:+ size +:+ "/" +:+ extension +:+ "/".

(** The path of the request for an image. *)
Definition image_path (hash size filename : string) : string :=
  "/image/" +:+ hash +:+ "/" +:+ size +:+ "/" +:+ filename.

(** The state in which [ServeImageHandler] starts to encode a resized
    image: the rendition file opened (created empty when it was not there and
    can be created) among the files the worker left, the Content-Type
    set. *)
Definition opened_state (env : Env) (sizedPath ctype : string)
    (files' : gmap string string) (st : State) : State :=
  mkState (if can_create env sizedPath
           then <[sizedPath := default "" (files' !! sizedPath)]> files'
           else files')
          (mc st)
          (mkResponseWriter (code (w st))
                            (<["Content-Type" := ctype]> (header (w st)))
                            (written (w st))).

(** The path of the request for a probe. *)
Definition retrieve_info_path (hash size extension : string) : string :=
  "/retrieve_info/" +:+ hash +:+ "/" +:+ size +:+ "/" +:+ extension +:+ "/".

(** ** Sample data *)

Definition node_a : NodeData :=
  mkNodeData "a" "uuid-a" "localhost:8081" "rack 1" true 0 0.

Definition node_b : NodeData :=
  mkNodeData "b" "uuid-b" "localhost:8082" "rack 2" true 0 0.

Definition node_c : NodeData :=
  mkNodeData "c" "uuid-c" "localhost:8083" "rack 3" true 0 0.

(** Surroundings in which every GET is answered by [get] and every POST by
    [post], at time 1000. *)
Definition sample_env (get : string → result Response)
    (post : result Response) : Env :=
  mkEnv 1000 get (fun _ _ _ => post)
        (fun _ contents => ("multipart/form-data; boundary=b", contents))
        (fun _ => true).

Definition refused : result Response :=
  inr (errors_New "connection refused").

Definition bad_request : Response :=
  mkResponse "400 Bad Request" "non-writeable node".

Definition no_content : Response :=
  mkResponse "204 No Content" "".

Definition one_file : gmap string string :=
  {[ "/tmp/up/full.png" := "PNG" ]}.

Definition single_node : Cluster := mkCluster node_a [].

Definition cfg_min1 : SiteConfig :=
  mkSiteConfig "/tmp/up/" 1 1 false (fun _ => true).

Definition upload_png : AddRequest :=
  mkAddRequest "POST" "" (Some ("PNG", ["image/png"])).

(** A codec and a worker to run the handlers with: images are strings, the
    encoders tag them, the worker answers every request with the same image
    and writes no file. *)
Definition sample_jpeg (img : string) (quality : Z) : string := "JPEG:" +:+ img.

Definition sample_png (img : string) : string := "PNG:" +:+ img.

Definition sample_worker (req : ResizeRequest) (files : gmap string string)
    : ResizeResponse string * gmap string string :=
  (mkResizeResponse (Some "pixels") true false, files).

Definition abc_hash : string := "a9993e364706816aba3e25717850c26c9cd0d89d".

(** A node that holds the full-size GIF of [abc_hash] and no rendition. *)
Definition gif_on_disk : State :=
  mkState {[ full_path cfg_min1 abc_hash ".gif" := "GIF89a" ]} ∅ fresh.

(** A node with nothing on disk and nothing in memcached. *)
Definition nothing_on_disk : State := mkState ∅ ∅ fresh.

(** [ServeImageHandler] on the sample codec and worker, in a cluster of the
    local node [node_a] and the peer [node_b], which answers every GET with
    [get]. *)
Definition sample_serve (get : string → result Response) (url : string)
    : Handler unit :=
  ServeImageHandler string sample_jpeg sample_png sample_worker
                    (fun _ _ => [node_a; node_b])
                    (sample_env get refused)
                    (mkCluster node_a [node_b]) cfg_min1 url.

Definition gif_url : string :=
  "/image/a9993e364706816aba3e25717850c26c9cd0d89d/100s/image.gif".

Definition png_url : string :=
  "/image/a9993e364706816aba3e25717850c26c9cd0d89d/full/image.png".

(** A request whose file name has no dot. *)
Definition no_dot_url : string :=
  "/image/a9993e364706816aba3e25717850c26c9cd0d89d/full/image".

(** The peer [node_b] holds the full-size PNG of [abc_hash]. *)
Definition peer_has_png (url : string) : result Response :=
  if decide (url = retrieveUrl node_b abc_hash "full" "png")
  then inl (mkResponse "200 OK" "PNGDATA")
  else refused.

(** Surroundings in which no file can be created and no peer answers. *)
Definition readonly_env : Env :=
  mkEnv 1000 (fun _ => refused) (fun _ _ _ => refused)
        (fun _ contents => ("multipart/form-data; boundary=b", contents))
        (fun _ => false).

Definition bmp_url : string :=
  "/image/a9993e364706816aba3e25717850c26c9cd0d89d/100s/image.bmp".

Definition jpg_url : string :=
  "/image/a9993e364706816aba3e25717850c26c9cd0d89d/100s/image.jpg".

(** A node that holds the full-size BMP of [abc_hash] and no rendition. *)
Definition bmp_on_disk : State :=
  mkState {[ full_path cfg_min1 abc_hash ".bmp" := "BM" ]} ∅ fresh.

(** A node that holds the full-size JPEG of [abc_hash] and no rendition. *)
Definition jpg_on_disk : State :=
  mkState {[ full_path cfg_min1 abc_hash ".jpg" := "JFIF" ]} ∅ fresh.

(** A worker that says it wrote the file itself. *)
Definition magick_worker (req : ResizeRequest) (files : gmap string string)
    : ResizeResponse string * gmap string string :=
  (mkResizeResponse None true true, files).

(** A stash of the bytes "PNG" under the file name the sender opened. *)
Definition stash_png : StashRequest :=
  mkStashRequest "POST" (Some ("PNG", "/tmp/up/full.png")).

(** A marshaller to run [RetrieveInfoHandler] with. *)
Definition sample_marshal (info : ImageInfoResponse) : string :=
  InfoHash info +:+ " " +:+ InfoExtension info +:+ " "
    +:+ (if InfoLocal info then "true" else "false").

(** An announce of the peer [node_b], which says it is writeable. *)
Definition announce_b : AnnounceRequest :=
  mkAnnounceRequest "POST" "uuid-b" "" "" "localhost:9000" "true".

(** Cluster operations to run [AnnounceHandler] with, on the list of
    neighbors. *)
Definition sample_find (c : Cluster) (uuid : string) : option NodeData :=
  head (filter (fun n => UUID n = uuid) (Neighbors c)).

Definition sample_update (c : Cluster) (n : NodeData) : Cluster :=
  mkCluster (Myself c)
            (map (fun m => if decide (UUID m = UUID n) then n else m)
                 (Neighbors c)).

Definition sample_add (c : Cluster) (n : NodeData) : Cluster :=
  mkCluster (Myself c) (Neighbors c ++ [n]).

(** * Properties *)

Example sha1_abc :
  GoString.hex (Sha1.Sum "abc") = "a9993e364706816aba3e25717850c26c9cd0d89d".
Proof. vm_compute. reflexivity. Qed.

Example sha1_empty :
  GoString.hex (Sha1.Sum "") = "da39a3ee5e6b4b0d3255bfef95601890afd80709".
Proof. vm_compute. reflexivity. Qed.

Example sha1_two_blocks :
  GoString.hex
    (Sha1.Sum "abcdbcdecdefdefgefghfghighijhijkijkljklmklmnlmnomnopnopq")
  = "84983e441c3bd26ebaae4aa1f95129e5e54670f1".
Proof. vm_compute. reflexivity. Qed.

Example dec_15 : GoString.dec 15 = "15".
Proof. reflexivity. Qed.

Example split_url :
  GoString.Split "/image/ab/full/" "/" = [""; "image"; "ab"; "full"; ""].
Proof. reflexivity. Qed.

(** ** Splitting a URL *)

Lemma cut_shorter (c : ascii) (s hd tl : string) :
  GoString.cut c s = (hd, Some tl) →
  (GoString.len tl < GoString.len s)%nat ∧ s = hd +:+ String c tl.
Proof.
  unfold GoString.len. revert hd tl.
  induction s as [|a s IH]; intros hd tl; [discriminate |].
  cbn [GoString.cut]. destruct (decide (a = c)) as [->|_].
  - intros [= <- <-]. split; [simpl; lia | reflexivity].
  - destruct (GoString.cut c s) as [hd' [tl'|]]; [| discriminate].
    intros [= <- <-]. destruct (IH hd' tl' eq_refl) as [Hlt ->].
    split; [simpl in *; lia | reflexivity].
Qed.

Lemma cut_none (c : ascii) (s hd : string) :
  GoString.cut c s = (hd, None) → s = hd.
Proof.
  revert hd. induction s as [|a s IH]; intros hd; [intros [= <-]; reflexivity |].
  cbn [GoString.cut]. destruct (decide (a = c)); [discriminate |].
  destruct (GoString.cut c s) as [hd' [tl'|]]; [discriminate |].
  intros [= <-]. rewrite (IH hd' eq_refl). reflexivity.
Qed.

(** The fuel of [Split] is enough: more of it gives the same fields. *)
Lemma Split_fuel_enough (c : ascii) (fuel fuel' : nat) (s : string) :
  (GoString.len s ≤ fuel)%nat → (GoString.len s ≤ fuel')%nat →
  GoString.Split_fuel fuel s c = GoString.Split_fuel fuel' s c.
Proof.
  revert fuel' s. induction fuel as [|fuel IH]; intros fuel' s Hf Hf'.
  - destruct s; [| simpl in Hf; lia].
    destruct fuel'; reflexivity.
  - destruct fuel' as [|fuel'].
    + destruct s; [reflexivity | simpl in Hf'; lia].
    + cbn [GoString.Split_fuel].
      destruct (GoString.cut c s) as [hd [tl|]] eqn:Hcut; [| reflexivity].
      apply cut_shorter in Hcut as [Hlt _].
      rewrite (IH fuel' tl) by lia. reflexivity.
Qed.

(** Joining the fields with the separator gives the string back. *)
Lemma Join_Split_fuel (c : ascii) (fuel : nat) (s : string) :
  (GoString.len s ≤ fuel)%nat →
  GoString.Join (GoString.Split_fuel fuel s c) (String c "") = s.
Proof.
  revert s. induction fuel as [|fuel IH]; intros s Hf.
  - reflexivity.
  - cbn [GoString.Split_fuel].
    destruct (GoString.cut c s) as [hd [tl|]] eqn:Hcut.
    + apply cut_shorter in Hcut as [Hlt ->].
      specialize (IH tl ltac:(lia)).
      destruct (GoString.Split_fuel fuel tl c) as [|f fs] eqn:Hsplit.
      * destruct fuel; [discriminate Hsplit |].
        cbn [GoString.Split_fuel] in Hsplit.
        destruct (GoString.cut c tl) as [? [?|]]; discriminate Hsplit.
      * change (GoString.Join (hd :: f :: fs) (String c ""))
          with (hd +:+ String c "" +:+ GoString.Join (f :: fs) (String c "")).
        rewrite IH. reflexivity.
    + apply cut_none in Hcut as ->. reflexivity.
Qed.

Lemma Join_Split (c : ascii) (s : string) :
  GoString.Join (GoString.Split s c) (String c "") = s.
Proof. apply Join_Split_fuel. reflexivity. Qed.

(** ** Ring keys *)

Lemma foldl_insert_seq {A : Type} (f : nat → A) (k : nat) (l : list A) :
  (k ≤ length l)%nat →
  length (foldl (fun keys i => <[i := f i]> keys) l (seq 0 k)) = length l ∧
  ∀ i, (i < k)%nat →
       foldl (fun keys i => <[i := f i]> keys) l (seq 0 k) !! i = Some (f i).
Proof.
  induction k as [|k IH]; intros Hk.
  - split; [reflexivity | intros i Hi; lia].
  - destruct IH as [Hlen Hget]; [lia |].
    rewrite seq_S, foldl_app. simpl. split.
    + rewrite length_insert. exact Hlen.
    + intros i Hi. destruct (decide (i = k)) as [->|Hne].
      * apply list_lookup_insert_eq. lia.
      * rewrite list_lookup_insert_ne by congruence. apply Hget. lia.
Qed.

(** C3: [HashKeys] returns exactly 16 keys, and for every [i] in 0..15 the
    [i]-th key is the lowercase hex of the SHA-1 of the node's uuid followed
    by the decimal representation of [i]. *)
Theorem HashKeys_spec (n : NodeData) (i : nat) :
  (i < 16)%nat →
  length (HashKeys n) = 16%nat ∧
  HashKeys n !! i =
    Some (GoString.hex (Sha1.Sum (UUID n +:+ GoString.dec (Z.of_nat i)))).
Proof.
  intros Hi. unfold HashKeys.
  destruct (foldl_insert_seq
              (fun i => GoString.hex
                          (Sha1.Sum (UUID n +:+ GoString.dec (Z.of_nat i))))
              (length (replicate REPLICAS "")) (replicate REPLICAS ""))
    as [Hlen Hget]; [lia |].
  split.
  - rewrite Hlen. apply length_replicate.
  - apply Hget. rewrite length_replicate. exact Hi.
Qed.

Lemma HashKeys_spec_witness :
  length (HashKeys node_a) = 16%nat ∧
  HashKeys node_a !! 15%nat =
    Some (GoString.hex (Sha1.Sum (UUID node_a +:+ GoString.dec 15))).
Proof. apply (HashKeys_spec node_a 15). lia. Defined.

Example HashKeys_last_key :
  HashKeys node_a !! 15%nat = Some (GoString.hex (Sha1.Sum "uuid-a15")).
Proof. vm_compute. reflexivity. Qed.

(** ** Stashing to a peer *)

Lemma postFile_returns (env : Env) (files : gmap string string)
    (filename target_url contents : string) :
  files !! filename = Some contents →
  postFile env files filename target_url =
    Returned (http_Post env target_url
                (multipart_image env filename contents).1
                (multipart_image env filename contents).2).
Proof.
  intros Hf. unfold postFile. rewrite Hf.
  destruct (multipart_image env filename contents); reflexivity.
Qed.

(** When the file to send cannot be opened, [postFile] panics and [Stash]
    with it: no field of the node is assigned. *)
Lemma Stash_panics_without_file (env : Env) (files : gmap string string)
    (n : NodeData) (filename : string) :
  files !! filename = None →
  Stash env files n filename =
    Panicked ("open " +:+ filename +:+ ": no such file or directory").
Proof. intros Hf. unfold Stash, postFile. rewrite Hf. reflexivity. Qed.

(** C2, as the code has it.  A call of [Stash] whose file cannot be opened
    panics in [postFile]: it returns nothing and assigns no field.  A call
    whose file can be opened returns, and with [posted] the outcome of the
    POST: if the POST gave an error, the node's [LastFailed] is the current
    time and [Writeable] is false; if it gave a response, whatever its
    status, [LastSeen] is the current time and [Writeable] and [LastFailed]
    are as before; and the boolean returned is true exactly when the POST
    gave a response. *)
Theorem Stash_spec (env : Env) (files : gmap string string) (n : NodeData)
    (filename : string) :
  (files !! filename = None →
   Stash env files n filename =
     Panicked ("open " +:+ filename +:+ ": no such file or directory")) ∧
  (∀ contents : string,
     files !! filename = Some contents →
     ∃ (n' : NodeData) (ok : bool),
       Stash env files n filename = Returned (n', ok) ∧
       let posted :=
         http_Post env (stashUrl n) (multipart_image env filename contents).1
                   (multipart_image env filename contents).2 in
       ((∃ err, posted = inr err) →
          LastFailed n' = time_Now env ∧ Writeable n' = false) ∧
       ((∃ resp, posted = inl resp) →
          LastSeen n' = time_Now env ∧
          Writeable n' = Writeable n ∧ LastFailed n' = LastFailed n) ∧
       (ok = true ↔ ∃ resp, posted = inl resp)).
Proof.
  split.
  { intros Hf. unfold Stash, postFile. rewrite Hf. reflexivity. }
  intros contents Hf. unfold Stash. rewrite (postFile_returns _ _ _ _ _ Hf).
  destruct (http_Post env (stashUrl n) _ _) as [resp|err] eqn:Hpost.
  - exists (set_LastSeen (time_Now env) n), true. simpl.
    split; [reflexivity |]. split; [| split].
    + intros [e He]. discriminate.
    + intros _. repeat split.
    + split; eauto.
  - exists (set_Writeable false (set_LastFailed (time_Now env) n)), false.
    simpl. split; [reflexivity |]. split; [| split].
    + auto.
    + intros [r Hr]. discriminate.
    + split; [discriminate | intros [r Hr]; discriminate].
Qed.

Lemma Stash_spec_witness :
  ∃ (n' : NodeData) (ok : bool),
    Stash (sample_env (fun _ => refused) refused) one_file node_b
          "/tmp/up/full.png" = Returned (n', ok) ∧
    ((∃ err, refused = inr err) →
       LastFailed n' = 1000 ∧ Writeable n' = false) ∧
    ((∃ resp, refused = inl resp) →
       LastSeen n' = 1000 ∧
       Writeable n' = Writeable node_b ∧ LastFailed n' = LastFailed node_b) ∧
    (ok = true ↔ ∃ resp, refused = inl resp).
Proof.
  apply (proj2 (Stash_spec (sample_env (fun _ => refused) refused) one_file
                           node_b "/tmp/up/full.png") "PNG").
  reflexivity.
Defined.

(** C2 as stated fails, in two ways.  A call on a file that cannot be opened
    errors, yet it returns no boolean and sets neither [LastFailed] nor
    [Writeable]: it panics.  And a stash the peer refuses with status 400
    has not succeeded, yet [Stash] returns true, leaves [Writeable] true and
    [LastFailed] at its old value, and sets [LastSeen]. *)
Lemma Stash_any_error_counterexample :
  ((∅ : gmap string string) !! "/tmp/up/full.png" = None ∧
   Stash (sample_env (fun _ => refused) refused) ∅ node_b "/tmp/up/full.png"
   = Panicked "open /tmp/up/full.png: no such file or directory" ∧
   ∀ (n' : NodeData) (ok : bool),
     Stash (sample_env (fun _ => refused) refused) ∅ node_b "/tmp/up/full.png"
     ≠ Returned (n', ok)) ∧
  (Status bad_request = "400 Bad Request" ∧
   status_2xx (Status bad_request) = false ∧
   ∃ n' : NodeData,
     Stash (sample_env (fun _ => refused) (inl bad_request)) one_file node_b
           "/tmp/up/full.png" = Returned (n', true) ∧
     LastFailed n' ≠ time_Now (sample_env (fun _ => refused) (inl bad_request)) ∧
     Writeable n' = true ∧
     LastSeen n' = 1000).
Proof.
  split.
  - split; [reflexivity |]. split; [reflexivity |].
    intros n' ok H. discriminate H.
  - split; [reflexivity |]. split; [reflexivity |].
    eexists. split; [reflexivity |]. cbn. repeat split. lia.
Qed.

Example Stash_refused :
  Stash (sample_env (fun _ => refused) refused) one_file node_b
        "/tmp/up/full.png"
  = Returned (mkNodeData "b" "uuid-b" "localhost:8082" "rack 2" false 0 1000,
              false).
Proof. reflexivity. Qed.

(** C9: whenever the POST of [Stash] completes without a transport error,
    whatever the response and its status, [Stash] returns true and sets
    [LastSeen] to the current time. *)
Theorem Stash_ignores_status (env : Env) (files : gmap string string)
    (n : NodeData) (filename contents : string) (resp : Response) :
  files !! filename = Some contents →
  http_Post env (stashUrl n) (multipart_image env filename contents).1
            (multipart_image env filename contents).2 = inl resp →
  ∃ n' : NodeData,
    Stash env files n filename = Returned (n', true) ∧
    LastSeen n' = time_Now env ∧
    Writeable n' = Writeable n ∧ LastFailed n' = LastFailed n.
Proof.
  intros Hf Hpost. unfold Stash.
  rewrite (postFile_returns _ _ _ _ _ Hf), Hpost.
  exists (set_LastSeen (time_Now env) n). repeat split.
Qed.

Lemma Stash_ignores_status_witness :
  Status bad_request = "400 Bad Request" ∧
  ∃ n' : NodeData,
    Stash (sample_env (fun _ => refused) (inl bad_request)) one_file node_b
          "/tmp/up/full.png" = Returned (n', true) ∧
    LastSeen n' = 1000 ∧
    Writeable n' = true ∧ LastFailed n' = 0.
Proof.
  split; [reflexivity |].
  apply (Stash_ignores_status
           (sample_env (fun _ => refused) (inl bad_request)) one_file node_b
           "/tmp/up/full.png" "PNG" bad_request); reflexivity.
Defined.

(** ** Retrieving from a peer *)

(** On every response, whatever its status, [LastSeen] is assigned before the
    status is read. *)
Lemma RetrieveImage_response_seen (env : Env) (n : NodeData)
    (hash size extension : string) (resp : Response) :
  http_Get env (retrieveUrl n hash size extension) = inl resp →
  (RetrieveImage env n hash size extension).1 = set_LastSeen (time_Now env) n.
Proof.
  intros Hget. unfold RetrieveImage. rewrite Hget.
  destruct (decide (Status resp ≠ "200 OK")); reflexivity.
Qed.

(** C5, as the code has it: on a transport error [RetrieveImage] sets
    [LastFailed] to the current time and returns the error; on a response
    whose status line is exactly "200 OK" it sets [LastSeen] to the current
    time and returns the body; on every other response, of the 2xx class or
    not, it returns the not-found error "404, probably". *)
Theorem RetrieveImage_spec (env : Env) (n : NodeData)
    (hash size extension : string) :
  let got := http_Get env (retrieveUrl n hash size extension) in
  let out := RetrieveImage env n hash size extension in
  (∀ err, got = inr err →
     LastFailed out.1 = time_Now env ∧ out.2 = inr err) ∧
  (∀ resp, got = inl resp → Status resp = "200 OK" →
     LastSeen out.1 = time_Now env ∧ out.2 = inl (Body resp)) ∧
  (∀ resp, got = inl resp → Status resp ≠ "200 OK" →
     out.2 = inr (errors_New "404, probably")).
Proof.
  cbv zeta. unfold RetrieveImage.
  destruct (http_Get env (retrieveUrl n hash size extension)) as [resp|err].
  - split; [intros e He; discriminate |].
    split; intros r Hr Hst; injection Hr as <-;
      destruct (decide (Status resp ≠ "200 OK")) as [Hne|Heq];
      try contradiction; auto.
  - split; [intros e He; injection He as <-; auto |].
    split; intros r Hr; discriminate.
Qed.

(** C5 as stated fails: a 204 response is of the 2xx class, and
    [RetrieveImage] answers it with the not-found error, not the body. *)
Lemma RetrieveImage_2xx_counterexample :
  http_Get (sample_env (fun _ => inl no_content) refused)
           (retrieveUrl node_b "h" "full" "jpg") = inl no_content ∧
  status_2xx (Status no_content) = true ∧
  (RetrieveImage (sample_env (fun _ => inl no_content) refused) node_b
                 "h" "full" "jpg").2
  = inr (errors_New "404, probably") ∧
  (RetrieveImage (sample_env (fun _ => inl no_content) refused) node_b
                 "h" "full" "jpg").2
  ≠ inl (Body no_content).
Proof. repeat split. discriminate. Qed.

(** ** Cluster-level retrieve *)

Section Retrieve.

Variable env : Env.
Variables (c : Cluster) (ahash size extension : string).

Local Abbreviation peer_answer := (peer_answer env ahash size extension).
Local Abbreviation peer_fails := (peer_fails env ahash size extension).

Lemma retrieveImage_loop_filter (nodes : list NodeData) :
  retrieveImage_loop env (Myself c) nodes ahash size extension =
  retrieveImage_loop env (Myself c)
    (filter (fun n => UUID n ≠ UUID (Myself c)) nodes) ahash size extension.
Proof.
  induction nodes as [|n rest IH]; [reflexivity |].
  simpl. destruct (decide (UUID n = UUID (Myself c))) as [Heq|Hne].
  - rewrite filter_cons_False by (intros H; contradiction). exact IH.
  - rewrite filter_cons_True by assumption. simpl.
    destruct (decide (UUID n = UUID (Myself c))); [contradiction |].
    destruct (RetrieveImage env n ahash size extension).2; congruence.
Qed.

Lemma retrieveImage_loop_first (pre post : list NodeData) (n : NodeData)
    (img : string) :
  Forall (fun m => UUID m ≠ UUID (Myself c)) (pre ++ n :: post) →
  Forall peer_fails pre →
  peer_answer n = inl img →
  retrieveImage_loop env (Myself c) (pre ++ n :: post) ahash size extension
  = inl img.
Proof.
  unfold peer_fails, peer_answer.
  induction pre as [|m pre IH]; simpl; intros Hne Hfail Hn.
  - apply Forall_cons in Hne as [Hn' _].
    destruct (decide (UUID n = UUID (Myself c))); [contradiction |].
    rewrite Hn. reflexivity.
  - apply Forall_cons in Hne as [Hm Hne].
    apply Forall_cons in Hfail as [[err Herr] Hfail].
    destruct (decide (UUID m = UUID (Myself c))); [contradiction |].
    rewrite Herr. apply IH; assumption.
Qed.

Lemma retrieveImage_loop_found (nodes : list NodeData) (img : string) :
  Forall (fun m => UUID m ≠ UUID (Myself c)) nodes →
  retrieveImage_loop env (Myself c) nodes ahash size extension = inl img →
  ∃ pre n post, nodes = pre ++ n :: post ∧ Forall peer_fails pre ∧
                peer_answer n = inl img.
Proof.
  unfold peer_fails, peer_answer.
  induction nodes as [|m rest IH]; simpl; intros Hne Hr; [discriminate |].
  apply Forall_cons in Hne as [Hm Hne].
  destruct (decide (UUID m = UUID (Myself c))); [contradiction |].
  destruct (RetrieveImage env m ahash size extension).2 as [b|err] eqn:Hm'.
  - injection Hr as <-. exists [], m, rest. repeat split; [constructor | done].
  - destruct (IH Hne Hr) as (pre & n' & post & -> & Hpre & Hn').
    exists (m :: pre), n', post. repeat split; [| done].
    constructor; [eauto | assumption].
Qed.

Lemma retrieveImage_loop_error (nodes : list NodeData) (err : error) :
  retrieveImage_loop env (Myself c) nodes ahash size extension = inr err →
  err = errors_New "not found in the cluster".
Proof.
  induction nodes as [|m rest IH]; simpl; intros Hr; [congruence |].
  destruct (decide (UUID m = UUID (Myself c))); [auto |].
  destruct (RetrieveImage env m ahash size extension).2; [discriminate | auto].
Qed.

Lemma retrieveImage_loop_not_found (nodes : list NodeData) :
  Forall (fun m => UUID m ≠ UUID (Myself c)) nodes →
  retrieveImage_loop env (Myself c) nodes ahash size extension
  = inr (errors_New "not found in the cluster") ↔ Forall peer_fails nodes.
Proof.
  unfold peer_fails, peer_answer.
  induction nodes as [|m rest IH]; simpl; intros Hne.
  - split; [constructor | reflexivity].
  - apply Forall_cons in Hne as [Hm Hne].
    destruct (decide (UUID m = UUID (Myself c))); [contradiction |].
    destruct (RetrieveImage env m ahash size extension).2 as [b|err] eqn:Hm'.
    + split; [intros Hr; discriminate Hr |].
      intros Hall. apply Forall_cons in Hall as [[e He] _]. congruence.
    + rewrite (IH Hne). split.
      * intros Hall. constructor; [eauto | assumption].
      * intros Hall. apply Forall_cons in Hall as [_ Hall]. exact Hall.
Qed.

End Retrieve.

(** C4: [retrieveImage] goes down the read order of the hash, passing over
    every node that has the local node's uuid; it returns the bytes of the
    first of the other nodes whose [RetrieveImage] succeeds, those before it
    having failed; its only error is the not-found error, which it returns
    exactly when every one of the other nodes fails. *)
Theorem retrieveImage_spec (ReadOrder : Cluster → string → list NodeData)
    (env : Env) (c : Cluster) (ahash size extension : string) :
  let peers := consulted (Myself c) (ReadOrder c ahash) in
  let fails := peer_fails env ahash size extension in
  let answer := peer_answer env ahash size extension in
  let got := retrieveImage ReadOrder env c ahash size extension in
  (∀ img, got = inl img ↔
          ∃ pre n post, peers = pre ++ n :: post ∧ Forall fails pre ∧
                        answer n = inl img) ∧
  (∀ err, got = inr err → err = errors_New "not found in the cluster") ∧
  (got = inr (errors_New "not found in the cluster") ↔ Forall fails peers).
Proof.
  cbv zeta. unfold retrieveImage, consulted.
  rewrite retrieveImage_loop_filter.
  assert (Hne : Forall (fun m => UUID m ≠ UUID (Myself c))
                  (filter (fun n => UUID n ≠ UUID (Myself c))
                          (ReadOrder c ahash))).
  { apply Forall_forall. intros m Hm.
    apply list_elem_of_filter in Hm. tauto. }
  split; [| split].
  - intros img. split.
    + apply retrieveImage_loop_found. exact Hne.
    + intros (pre & n & post & Heq & Hpre & Hn).
      rewrite Heq in Hne |- *.
      apply retrieveImage_loop_first; assumption.
  - apply retrieveImage_loop_error.
  - apply retrieveImage_loop_not_found. exact Hne.
Qed.

(** A read order of three nodes, the local node first: the second is down,
    the third answers. *)
Example retrieveImage_third_answers :
  retrieveImage
    (fun _ _ => [node_a; node_b; node_c])
    (sample_env
       (fun url =>
          if decide (url = retrieveUrl node_c "h" "full" "png")
          then inl (mkResponse "200 OK" "PNG") else refused)
       refused)
    (mkCluster node_a [node_b; node_c]) "h" "full" "png"
  = inl "PNG".
Proof. vm_compute. reflexivity. Qed.

Example retrieveImage_alone :
  retrieveImage (fun _ _ => [node_a])
                (sample_env (fun _ => inl (mkResponse "200 OK" "PNG")) refused)
                single_node "h" "full" "png"
  = inr (errors_New "not found in the cluster").
Proof. vm_compute. reflexivity. Qed.

(** ** Uploads *)

(** C1, as the code has it: in the JSON document of an upload, [satisfied] is
    true if and only if the number of nodes [Cluster.Stash] returned is at
    least [min_replication]; the local copy is not counted. *)
Theorem AddHandler_satisfied
    (Cluster_Stash : Cluster → gmap string string → string → string →
                     Z → Z → outcome (list string))
    (env : Env) (c : Cluster) (cfg : SiteConfig) (r : AddRequest)
    (files files' : gmap string string) (id : ImageData) :
  AddHandler Cluster_Stash env c cfg r files = Returned (AddJson id, files') →
  (Satisfied id = true ↔
     MinReplication cfg ≤ Z.of_nat (length (Nodes id))) ∧
  ∃ fullpath,
    Cluster_Stash c files' (Hash id) fullpath (Replication cfg)
                  (MinReplication cfg) = Returned (Nodes id).
Proof.
  unfold AddHandler. intros H.
  destruct (decide (Method r = "POST")); [| discriminate].
  destruct (KeyRequired cfg && negb (ValidKey cfg (FormValue_key r)));
    [discriminate |].
  destruct (FormFile_image r) as [[i content_types]|]; [| discriminate].
  destruct content_types as [|mimetype ?]; [discriminate |].
  match type of H with
  | context [Cluster_Stash c ?fs ?h ?p ?a ?b] =>
      destruct (Cluster_Stash c fs h p a b) as [nodes|msg] eqn:Hstash;
      [| discriminate]
  end.
  injection H as <- <-. simpl. split.
  - apply bool_decide_eq_true.
  - eexists. exact Hstash.
Qed.

Lemma AddHandler_satisfied_witness :
  ∃ id files',
    AddHandler (fun _ _ _ _ _ _ => Returned ["uuid-b"; "uuid-c"])
               (sample_env (fun _ => refused) refused)
               (mkCluster node_a [node_b; node_c])
               (mkSiteConfig "/tmp/up/" 3 2 false (fun _ => true))
               upload_png ∅
    = Returned (AddJson id, files') ∧
    (Satisfied id = true ↔ 2 ≤ Z.of_nat (length (Nodes id))) ∧
    Satisfied id = true.
Proof.
  eexists. eexists.
  split; [reflexivity |].
  split; [| reflexivity].
  refine (proj1 (AddHandler_satisfied
                   (fun _ _ _ _ _ _ => Returned ["uuid-b"; "uuid-c"])
                   (sample_env (fun _ => refused) refused)
                   (mkCluster node_a [node_b; node_c])
                   (mkSiteConfig "/tmp/up/" 3 2 false (fun _ => true))
                   upload_png ∅ _ _ _)).
  reflexivity.
Defined.

(** C1 as stated fails: a single node with [min_replication = 1] whose
    [Cluster.Stash] returns the empty list answers [satisfied = false],
    although the empty list plus the local copy makes one. *)
Lemma AddHandler_satisfied_counterexample :
  ∃ id files',
    AddHandler (fun _ _ _ _ _ _ => Returned [])
               (sample_env (fun _ => refused) refused)
               single_node cfg_min1 upload_png ∅
    = Returned (AddJson id, files') ∧
    Nodes id = [] ∧
    MinReplication cfg_min1 = 1 ∧
    Satisfied id = false ∧
    ¬ (Satisfied id = true ↔
         MinReplication cfg_min1 ≤ Z.of_nat (length (Nodes id)) + 1).
Proof.
  eexists. eexists. split; [reflexivity |]. simpl.
  repeat split. intros [_ H]. discriminate H. lia.
Qed.

(** ** Paths of hashes *)

Lemma string_pair_ind (P : string → Prop) :
  P "" →
  (∀ a, P (String a "")) →
  (∀ a b s, P s → P (String a (String b s))) →
  ∀ s, P s.
Proof.
  intros H0 H1 H2 s.
  enough (P s ∧ ∀ a, P (String a s)) by tauto.
  induction s as [|c s [IHs IHc]]; split; auto.
Qed.

Lemma append_cons (a : ascii) (s t : string) :
  String a s +:+ t = String a (s +:+ t).
Proof. reflexivity. Qed.

Lemma append_assoc (s t u : string) : (s +:+ t) +:+ u = s +:+ (t +:+ u).
Proof.
  induction s as [|a s IH]; [reflexivity |].
  rewrite !append_cons, IH. reflexivity.
Qed.

Lemma len_append (s t : string) :
  GoString.len (s +:+ t) = (GoString.len s + GoString.len t)%nat.
Proof.
  unfold GoString.len. induction s as [|a s IH]; [reflexivity |].
  rewrite append_cons. simpl. rewrite IH. reflexivity.
Qed.

Lemma substring_after (pre : string) (a b : ascii) (rest : string) :
  String.substring (GoString.len pre) 2 (pre +:+ String a (String b rest))
  = String a (String b "").
Proof.
  induction pre as [|c pre IH]; [destruct rest; reflexivity |].
  rewrite append_cons. exact IH.
Qed.

(** On a string of bytes below 128, [range] visits every index. *)
Lemma range_from_ascii (bs : list Z) (i : nat) :
  Forall (fun b => b < 128) bs →
  Utf8.range_from i 0 bs = seq i (length bs).
Proof.
  intros Hbs. revert i.
  induction Hbs as [|b rest Hb Hrest IH]; intros i; [reflexivity |].
  simpl. apply Z.ltb_lt in Hb. rewrite Hb. simpl. rewrite IH. reflexivity.
Qed.

Lemma is_hex_ascii (c : ascii) :
  GoString.is_hex c = true → Z.of_N (N_of_ascii c) < 128.
Proof.
  unfold GoString.is_hex. cbv zeta. intros H.
  apply orb_true_iff in H. rewrite !andb_true_iff, !Z.leb_le in H. lia.
Qed.

Lemma range_indices_hex (h : string) :
  all_hex h = true → Utf8.range_indices h = seq 0 (GoString.len h).
Proof.
  intros Hhex. unfold Utf8.range_indices, GoString.to_bytes.
  rewrite range_from_ascii.
  - rewrite length_map. f_equal.
    unfold GoString.len. clear Hhex.
    induction h as [|a h IH]; simpl; congruence.
  - unfold all_hex in Hhex. rewrite forallb_forall in Hhex.
    apply Forall_forall. intros b Hb.
    apply list_elem_of_In, in_map_iff in Hb as (c & <- & Hc).
    apply is_hex_ascii, Hhex, Hc.
Qed.

(** The loop of [hashStringToPath] over the indices from an even offset on
    appends the segments of the rest of the string. *)
Lemma parts_from_even (s : string) :
  ∀ (pre : string) (parts : list string),
    (GoString.len pre mod 2 = 0)%nat →
    foldl
      (fun parts i =>
         if decide (i mod 2 ≠ 0)%nat
         then parts ++ [String.substring (i - 1) 2 (pre +:+ s)]
         else parts)
      parts (seq (GoString.len pre) (GoString.len s))
    = parts ++ segments2 s.
Proof.
  induction s as [|a|a b s IH] using string_pair_ind; intros pre parts Hpre.
  - simpl. rewrite app_nil_r. reflexivity.
  - change (GoString.len (String a "")) with 1%nat. cbn [seq foldl segments2].
    destruct (decide (GoString.len pre mod 2 ≠ 0)%nat) as [Hodd|_];
      [contradiction |].
    rewrite app_nil_r. reflexivity.
  - change (GoString.len (String a (String b s)))
      with (S (S (GoString.len s))).
    cbn [seq foldl].
    destruct (decide (GoString.len pre mod 2 ≠ 0)%nat) as [Hodd|_];
      [contradiction |].
    assert (Hs : (S (GoString.len pre) mod 2 = 1)%nat).
    { rewrite <- Nat.add_1_r, Nat.Div0.add_mod, Hpre by lia. reflexivity. }
    destruct (decide (S (GoString.len pre) mod 2 ≠ 0)%nat) as [_|Heven];
      [| lia].
    replace (S (GoString.len pre) - 1)%nat with (GoString.len pre) by lia.
    rewrite substring_after.
    specialize (IH (pre +:+ String a (String b "")) (parts ++ [String a (String b "")])).
    rewrite len_append, append_assoc in IH.
    change (GoString.len (String a (String b ""))) with 2%nat in IH.
    replace (GoString.len pre + 2)%nat with (S (S (GoString.len pre))) in IH
      by lia.
    change (String a (String b "") +:+ s) with (String a (String b s)) in IH.
    rewrite IH.
    + rewrite <- app_assoc. reflexivity.
    + replace (S (S (GoString.len pre))) with (GoString.len pre + 1 * 2)%nat
        by lia.
      rewrite Nat.Div0.mod_add. exact Hpre.
Qed.

Lemma segments2_length (s : string) :
  (2 * length (segments2 s) ≤ GoString.len s ∧
   GoString.len s ≤ 2 * length (segments2 s) + 1)%nat.
Proof.
  induction s as [|a|a b s IH] using string_pair_ind;
    cbn [segments2 length]; unfold GoString.len in *; simpl; lia.
Qed.

Lemma segments2_two (s : string) :
  Forall (fun seg => GoString.len seg = 2%nat) (segments2 s).
Proof.
  induction s as [|a|a b s IH] using string_pair_ind;
    cbn [segments2]; constructor; auto.
Qed.

Lemma segments2_flatten (s : string) :
  (GoString.len s mod 2 = 0)%nat → flatten (segments2 s) = s.
Proof.
  induction s as [|a|a b s IH] using string_pair_ind; intros Hlen.
  - reflexivity.
  - discriminate Hlen.
  - cbn [segments2 flatten foldr]. fold (flatten (segments2 s)).
    rewrite IH; [reflexivity |].
    change (GoString.len (String a (String b s)))
      with (S (S (GoString.len s))) in Hlen.
    replace (S (S (GoString.len s))) with (GoString.len s + 1 * 2)%nat in Hlen
      by lia.
    rewrite Nat.Div0.mod_add in Hlen. exact Hlen.
Qed.

(** On a string of hexadecimal digits of any length, the path is the join
    of the two-character segments. *)
Lemma hashStringToPath_segments (h : string) :
  all_hex h = true →
  hashStringToPath h = GoString.Join (segments2 h) "/".
Proof.
  intros Hhex. unfold hashStringToPath.
  rewrite (range_indices_hex h Hhex).
  exact (f_equal (fun parts => GoString.Join parts "/")
                 (parts_from_even h "" [] eq_refl)).
Qed.

(** C7: for every 40-character hex string, the path is made of the 20
    consecutive two-character segments of the string, joined by the path
    separator. *)
Theorem hashStringToPath_spec (h : string) :
  GoString.len h = 40%nat →
  all_hex h = true →
  length (segments2 h) = 20%nat ∧
  Forall (fun seg => GoString.len seg = 2%nat) (segments2 h) ∧
  flatten (segments2 h) = h ∧
  hashStringToPath h = GoString.Join (segments2 h) "/".
Proof.
  intros Hlen Hhex. repeat split.
  - pose proof (segments2_length h). lia.
  - apply segments2_two.
  - apply segments2_flatten. rewrite Hlen. reflexivity.
  - apply hashStringToPath_segments, Hhex.
Qed.

Lemma hashStringToPath_spec_witness :
  length (segments2 "a9993e364706816aba3e25717850c26c9cd0d89d") = 20%nat ∧
  Forall (fun seg => GoString.len seg = 2%nat)
         (segments2 "a9993e364706816aba3e25717850c26c9cd0d89d") ∧
  flatten (segments2 "a9993e364706816aba3e25717850c26c9cd0d89d")
  = "a9993e364706816aba3e25717850c26c9cd0d89d" ∧
  hashStringToPath "a9993e364706816aba3e25717850c26c9cd0d89d"
  = GoString.Join (segments2 "a9993e364706816aba3e25717850c26c9cd0d89d") "/".
Proof.
  apply (hashStringToPath_spec "a9993e364706816aba3e25717850c26c9cd0d89d");
    reflexivity.
Defined.

Example hashStringToPath_abc :
  hashStringToPath "a9993e364706816aba3e25717850c26c9cd0d89d"
  = "a9/99/3e/36/47/06/81/6a/ba/3e/25/71/78/50/c2/6c/9c/d0/d8/9d".
Proof. vm_compute. reflexivity. Qed.

Example hashToPath_abc :
  hashToPath (Sha1.Sum "abc")
  = "a9/99/3e/36/47/06/81/6a/ba/3e/25/71/78/50/c2/6c/9c/d0/d8/9d/".
Proof. vm_compute. reflexivity. Qed.

(** A rune of several bytes is visited once, at its first byte: the path of
    a string that is not ASCII is not made of its byte pairs. *)
Example range_indices_two_byte_rune :
  Utf8.range_indices (String (ascii_of_nat 195) (String (ascii_of_nat 169) "ab"))
  = [0; 2; 3]%nat.
Proof. vm_compute. reflexivity. Qed.

(** *** The path built from the bytes of a hash *)

Lemma append_nil_r (s : string) : s +:+ "" = s.
Proof.
  induction s as [|a s IH]; [reflexivity |]. rewrite append_cons, IH.
  reflexivity.
Qed.

Lemma hexdigit_is_hex (d : Z) :
  0 ≤ d < 16 → GoString.is_hex (GoString.hexdigit d) = true.
Proof.
  intros Hd.
  assert (H : d = 0 ∨ d = 1 ∨ d = 2 ∨ d = 3 ∨ d = 4 ∨ d = 5 ∨ d = 6 ∨ d = 7 ∨
              d = 8 ∨ d = 9 ∨ d = 10 ∨ d = 11 ∨ d = 12 ∨ d = 13 ∨ d = 14 ∨
              d = 15) by lia.
  repeat (destruct H as [-> | H]; [reflexivity |]). subst d. reflexivity.
Qed.

Lemma to_bytes_range (h : string) :
  Forall (fun b => 0 ≤ b < 256) (GoString.to_bytes h).
Proof.
  unfold GoString.to_bytes.
  induction h as [|a h IH]; [constructor |].
  cbn [list_ascii_of_string map]. constructor; [| exact IH].
  pose proof (N_ascii_bounded a). lia.
Qed.

Lemma hex_of_bytes_all_hex (bs : list Z) :
  Forall (fun b => 0 ≤ b < 256) bs → all_hex (hex_of_bytes bs) = true.
Proof.
  unfold all_hex. induction 1 as [|b bs Hb _ IH]; [reflexivity |].
  cbn [hex_of_bytes foldr]. fold (hex_of_bytes bs).
  unfold GoString.hex02. rewrite !append_cons.
  cbn [list_ascii_of_string forallb].
  change ("" +:+ hex_of_bytes bs) with (hex_of_bytes bs).
  rewrite IH, !hexdigit_is_hex; [reflexivity | |].
  - apply Z.mod_pos_bound. lia.
  - split; [apply Z.div_pos; lia | apply Z.div_lt_upper_bound; lia].
Qed.

Lemma segments2_hex_of_bytes (bs : list Z) :
  segments2 (hex_of_bytes bs) = map GoString.hex02 bs.
Proof.
  induction bs as [|b bs IH]; [reflexivity |].
  cbn [hex_of_bytes foldr map]. fold (hex_of_bytes bs).
  unfold GoString.hex02 at 1. rewrite !append_cons.
  change ("" +:+ hex_of_bytes bs) with (hex_of_bytes bs).
  cbn [segments2]. rewrite IH. reflexivity.
Qed.

Lemma Join_slashed (bs : list Z) :
  bs ≠ [] → GoString.Join (map GoString.hex02 bs) "/" +:+ "/" = slashed bs.
Proof.
  induction bs as [|b bs IH]; [congruence |]. intros _.
  destruct bs as [|b' bs].
  - cbn [map GoString.Join slashed foldr]. reflexivity.
  - change (GoString.Join (map GoString.hex02 (b :: b' :: bs)) "/")
      with (GoString.hex02 b +:+ "/"
              +:+ GoString.Join (map GoString.hex02 (b' :: bs)) "/").
    rewrite !append_assoc, IH by discriminate. reflexivity.
Qed.

Lemma hashToPath_slashed (bs : list Z) (buffer : string) :
  foldl (fun buffer b => buffer +:+ GoString.hex02 b +:+ "/") buffer bs
  = buffer +:+ slashed bs.
Proof.
  revert buffer. induction bs as [|b bs IH]; intros buffer.
  - cbn [foldl slashed foldr]. rewrite append_nil_r. reflexivity.
  - cbn [foldl slashed foldr]. fold (slashed bs).
    rewrite IH, !append_assoc. reflexivity.
Qed.

(** [hashToPath] of the bytes of a hash is [hashStringToPath] of its hex
    form followed by one more separator: the two builders name the same
    directory, and the handlers append "full.ext" to the one and
    "/full.ext" to the other. *)
Lemma hashToPath_hashStringToPath (h : string) :
  h ≠ "" →
  hashToPath h = hashStringToPath (GoString.hex h) +:+ "/".
Proof.
  intros Hne. unfold hashToPath. rewrite hashToPath_slashed.
  change ("" +:+ slashed (GoString.to_bytes h))
    with (slashed (GoString.to_bytes h)).
  change (GoString.hex h) with (hex_of_bytes (GoString.to_bytes h)).
  rewrite hashStringToPath_segments
    by (apply hex_of_bytes_all_hex, to_bytes_range).
  rewrite segments2_hex_of_bytes. symmetry. apply Join_slashed.
  destruct h; [congruence | discriminate].
Qed.

(** ** Extensions and slices *)

Lemma substring_all (s : string) : String.substring 0 (String.length s) s = s.
Proof. induction s as [|a s IH]; simpl; congruence. Qed.

Lemma slice_from_empty : GoString.slice_from "" 1 = None.
Proof. reflexivity. Qed.

Lemma slice_from_cons (a : ascii) (s : string) :
  GoString.slice_from (String a s) 1 = Some s.
Proof.
  unfold GoString.slice_from, GoString.slice, GoString.len.
  destruct (decide _) as [_|Hn]; [| simpl in Hn; lia].
  simpl. rewrite Nat.sub_0_r, substring_all. reflexivity.
Qed.

Lemma Ext_scan_no_dot (s : string) :
  no_dot s = true → Ext_scan s = None ∨ Ext_scan s = Some "".
Proof.
  unfold no_dot. induction s as [|a s IH]; [left; reflexivity |].
  cbn [list_ascii_of_string forallb]. intros H.
  apply andb_true_iff in H as [Ha Hs].
  cbn [Ext_scan]. destruct (IH Hs) as [-> | ->]; [| right; reflexivity].
  destruct (decide (a = "."%char)) as [->|_]; [discriminate Ha |].
  destruct (decide (a = "/"%char)); [right | left]; reflexivity.
Qed.

(** A file name without a dot has the empty extension. *)
Lemma filepath_Ext_no_dot (s : string) :
  no_dot s = true → filepath_Ext s = "".
Proof.
  intros H. unfold filepath_Ext.
  destruct (Ext_scan_no_dot s H) as [-> | ->]; reflexivity.
Qed.

(** An extension is empty or starts with its dot. *)
Lemma Ext_scan_shape (s e : string) :
  Ext_scan s = Some e → e = "" ∨ ∃ e', e = String "."%char e'.
Proof.
  revert e. induction s as [|a s IH]; intros e; [discriminate |].
  cbn [Ext_scan]. destruct (Ext_scan s) as [e0|].
  - intros [= <-]. apply IH. reflexivity.
  - destruct (decide (a = "."%char)) as [->|_].
    + intros [= <-]. right. eauto.
    + destruct (decide (a = "/"%char)); [| discriminate].
      intros [= <-]. left. reflexivity.
Qed.

Lemma filepath_Ext_shape (s : string) :
  filepath_Ext s = "" ∨ ∃ e, filepath_Ext s = String "."%char e.
Proof.
  unfold filepath_Ext. destruct (Ext_scan s) as [e|] eqn:He.
  - exact (Ext_scan_shape s e He).
  - left. reflexivity.
Qed.

(** A key with a dot in front is not in [extmimes]. *)
Lemma extmimes_dotted (e : string) :
  map_index extmimes (String "."%char e) = "".
Proof.
  unfold map_index, extmimes.
  rewrite !lookup_insert_ne, lookup_empty by discriminate. reflexivity.
Qed.

Lemma http_Error_state (msg : string) (c : Z) (st : State) :
  ∃ st',
    http_Error msg c st = Returned (tt, st') ∧
    code (w st') = Some (default c (code (w st))) ∧
    fs st' = fs st.
Proof.
  eexists. split; [reflexivity |]. cbn [fs w code].
  destruct (code (w st)); split; reflexivity.
Qed.

(** ** Serving images *)

Section Serve.

Variable Image : Type.
Variable jpeg_Encode : Image → Z → string.
Variable png_Encode : Image → string.
Variable resize_worker :
  ResizeRequest → gmap string string →
  ResizeResponse Image * gmap string string.
Variable ReadOrder : Cluster → string → list NodeData.
Variable env : Env.
Variables (c : Cluster) (cfg : SiteConfig).

Local Abbreviation serve :=
  (ServeImageHandler Image jpeg_Encode png_Encode resize_worker ReadOrder
                     env c cfg).

Variables (url p0 ahash size name : string) (rest : list string).
Hypothesis Hparts :
  GoString.Split url "/" = p0 :: "image" :: ahash :: size :: name :: rest.
Hypothesis Hlen : GoString.len ahash = 40%nat.

Local Abbreviation extension := (filepath_Ext (request_filename name)).

Local Abbreviation key := (memcache_key ahash size extension).
Local Abbreviation path := (full_path cfg ahash extension).
Local Abbreviation sizedPath := (sized_path cfg ahash size extension).

Ltac serve_enter :=
  unfold ServeImageHandler; rewrite Hparts; cbv zeta;
  destruct (decide ("image" ≠ "image")) as [?|_]; [congruence |];
  fold (request_filename name);
  destruct (decide (GoString.len ahash ≠ 40%nat)) as [?|_];
  [contradiction |];
  fold key; fold path; fold sizedPath;
  unfold mbind, Handler_bind, MC_Get, ReadFile.

(** The item is in memcached. *)
Lemma serve_mc_hit (st : State) (value ext : string) :
  mc st !! key = Some value →
  GoString.slice_from extension 1 = Some ext →
  serve url st = Returned (tt, served (map_index extmimes ext) value st).
Proof.
  intros Hmc Hext. serve_enter. rewrite Hmc.
  unfold slice1. rewrite Hext. reflexivity.
Qed.

(** The rendition is on disk. *)
Lemma serve_sized_hit (st : State) (contents ext : string) :
  mc st !! key = None →
  fs st !! sizedPath = Some contents →
  GoString.slice_from extension 1 = Some ext →
  serve url st =
    Returned (tt, served (map_index extmimes ext) contents
                         (cached key contents st)).
Proof.
  intros Hmc Hsized Hext. serve_enter. rewrite Hmc, Hsized.
  unfold slice1, MC_Set. cbv beta iota. rewrite Hext. reflexivity.
Qed.

(** Neither the rendition nor the full-size is on disk, and a peer has the
    image. *)
Lemma serve_peer_hit (st : State) (ext img : string) :
  mc st !! key = None →
  fs st !! sizedPath = None →
  fs st !! path = None →
  GoString.slice_from extension 1 = Some ext →
  retrieveImage ReadOrder env c ahash size ext = inl img →
  serve url st =
    Returned (tt, served (map_index extmimes ext) img (cached key img st)).
Proof.
  intros Hmc Hsized Hfull Hext Himg. serve_enter.
  rewrite Hmc, Hsized, Hfull.
  unfold slice1, MC_Set. rewrite Hext. unfold mret, Handler_ret.
  cbv beta iota. rewrite Himg. cbv beta iota. reflexivity.
Qed.

(** Neither file is on disk, and no peer has the image. *)
Lemma serve_peer_miss (st : State) (ext : string) (err : error) :
  mc st !! key = None →
  fs st !! sizedPath = None →
  fs st !! path = None →
  GoString.slice_from extension 1 = Some ext →
  retrieveImage ReadOrder env c ahash size ext = inr err →
  serve url st = http_Error "not found" 404 st.
Proof.
  intros Hmc Hsized Hfull Hext Himg. serve_enter.
  rewrite Hmc, Hsized, Hfull.
  unfold slice1. rewrite Hext. unfold mret, Handler_ret.
  cbv beta iota. rewrite Himg. reflexivity.
Qed.

(** The extension is empty and the full-size is not on disk: whichever of
    the first three branches is taken slices the empty string. *)
Lemma serve_no_extension_panics (st : State) :
  GoString.slice_from extension 1 = None →
  fs st !! path = None →
  serve url st = Panicked "slice bounds out of range".
Proof.
  intros Hext Hfull. serve_enter. unfold slice1.
  destruct (mc st !! key) as [value|].
  - rewrite Hext. reflexivity.
  - destruct (fs st !! sizedPath) as [contents|].
    + unfold MC_Set. cbv beta iota. rewrite Hext. reflexivity.
    + rewrite Hfull, Hext. reflexivity.
Qed.

(** From here on the full-size is on disk and the rendition is not: the
    resize worker is asked. *)
Section Resize.

Variables (st : State) (full : string).
Variables (result : ResizeResponse Image) (files' : gmap string string).
Hypothesis Hmc : mc st !! key = None.
Hypothesis Hsized : fs st !! sizedPath = None.
Hypothesis Hfull : fs st !! path = Some full.
Hypothesis Hworker :
  resize_worker (mkResizeRequest path extension size) (fs st)
  = (result, files').

Ltac resize_enter :=
  serve_enter; rewrite Hmc, Hsized, Hfull;
  unfold run_resize; rewrite Hworker; cbv beta iota.

Lemma serve_resize_failed :
  Success result = false →
  serve url st =
    http_Error "could not resize image" 500
               (mkState files' (mc st) (w st)).
Proof. intros Hs. resize_enter. rewrite Hs. reflexivity. Qed.

(** The worker wrote the file itself: the Content-Type is read from
    [extmimes] at the extension with its dot. *)
Lemma serve_magick :
  Success result = true →
  Magick result = true →
  serve url st =
    Returned (tt,
              served (map_index extmimes extension)
                     (default "" (files' !! sizedPath))
                     (cached key (default "" (files' !! sizedPath))
                             (mkState files' (mc st) (w st)))).
Proof. intros Hs Hm. resize_enter. rewrite Hs, Hm. reflexivity. Qed.

Lemma serve_nil_image :
  Success result = true →
  Magick result = false →
  OutputImage result = None →
  serve url st = Panicked "nil pointer dereference".
Proof.
  intros Hs Hm Himg. resize_enter. rewrite Hs, Hm, Himg. reflexivity.
Qed.

(** What [encode_and_serve] leaves behind. *)
Lemma encode_and_serve_state (opened : bool) (encoded : string)
    (st0 : State) :
  ∃ st',
    encode_and_serve opened sizedPath key encoded st0 = Returned (tt, st') ∧
    w st' = mkResponseWriter (Some (default 200 (code (w st0))))
                             (header (w st0))
                             (written (w st0) +:+ encoded) ∧
    fs st' =
      (if opened
       then <[sizedPath :=
                write_at_start (default "" (fs st0 !! sizedPath)) encoded]>
              (fs st0)
       else fs st0).
Proof.
  unfold encode_and_serve, mbind, Handler_bind, File_Write, Write,
    ReadFile, MC_Set.
  destruct opened; cbv beta iota; eexists; repeat split.
Qed.

(** The worker sent an image and the extension is one of the three the
    handler encodes: [bytes] is the output of the JPEG encoder for
    [.jpg], of the PNG encoder for [.gif] as for [.png]. *)
Lemma serve_encoded (img : Image) (ext bytes : string) :
  Success result = true →
  Magick result = false →
  OutputImage result = Some img →
  GoString.slice_from extension 1 = Some ext →
  (extension = ".jpg" ∧ bytes = jpeg_Encode img jpeg_options_Quality) ∨
  (extension = ".gif" ∧ bytes = png_Encode img) ∨
  (extension = ".png" ∧ bytes = png_Encode img) →
  ∃ st',
    serve url st = Returned (tt, st') ∧
    w st' = w (served (map_index extmimes ext) bytes st) ∧
    (can_create env sizedPath = true →
       fs st' !! sizedPath =
         Some (write_at_start (default "" (files' !! sizedPath)) bytes)) ∧
    (can_create env sizedPath = false → fs st' = files').
Proof.
  intros Hs Hm Himg Hext Hcase. resize_enter. rewrite Hs, Hm, Himg.
  cbv beta iota. unfold negb.
  unfold OpenFile, slice1, Header_Set.
  cbn [fs mc w code header written]. rewrite Hext.
  unfold mret, Handler_ret.
  assert (Htail :
    (if decide (extension = ".jpg") then
       encode_and_serve (can_create env sizedPath) sizedPath key
                        (jpeg_Encode img jpeg_options_Quality)
     else if decide (extension = ".gif") then
       encode_and_serve (can_create env sizedPath) sizedPath key
                        (png_Encode img)
     else if decide (extension = ".png") then
       encode_and_serve (can_create env sizedPath) sizedPath key
                        (png_Encode img)
     else fun st0 : State => Returned (tt, st0))
    = encode_and_serve (can_create env sizedPath) sizedPath key bytes).
  { destruct Hcase as [[He Hb]|[[He Hb]|[He Hb]]]; subst bytes;
      destruct (decide (extension = ".jpg")) as [H1|H1];
      destruct (decide (extension = ".gif")) as [H2|H2];
      destruct (decide (extension = ".png")) as [H3|H3];
      try reflexivity; exfalso; congruence. }
  destruct (can_create env sizedPath) eqn:Hcreate; cbv beta iota;
    cbn [fs mc w code header written]; rewrite Htail;
    match goal with
    | |- context [encode_and_serve ?o _ _ ?e ?s] =>
        destruct (encode_and_serve_state o e s) as (st' & -> & Hw & Hfs)
    end;
    exists st'; rewrite Hw, Hfs; cbn [fs mc w code header written];
    repeat split; try congruence.
  intros _. rewrite !lookup_insert_eq. reflexivity.
Qed.

(** The worker sent an image and the extension is none of the three: the
    Content-Type is set and nothing is written. *)
Lemma serve_not_encoded (img : Image) (ext : string) :
  Success result = true →
  Magick result = false →
  OutputImage result = Some img →
  GoString.slice_from extension 1 = Some ext →
  extension ≠ ".jpg" → extension ≠ ".gif" → extension ≠ ".png" →
  ∃ st',
    serve url st = Returned (tt, st') ∧
    w st' = mkResponseWriter
              (code (w st))
              (<["Content-Type" := map_index extmimes ext]> (header (w st)))
              (written (w st)).
Proof.
  intros Hs Hm Himg Hext Hjpg Hgif Hpng. resize_enter.
  rewrite Hs, Hm, Himg.
  cbv beta iota. unfold negb.
  unfold OpenFile, slice1, Header_Set.
  cbn [fs mc w code header written]. rewrite Hext.
  unfold mret, Handler_ret.
  destruct (decide (extension = ".jpg")) as [H1|_]; [contradiction |].
  destruct (decide (extension = ".gif")) as [H2|_]; [contradiction |].
  destruct (decide (extension = ".png")) as [H3|_]; [contradiction |].
  destruct (can_create env sizedPath); cbv beta iota;
    eexists; split; reflexivity.
Qed.

End Resize.

(** Without an extension there is no response with status 200, the branch
    where the worker wrote the file itself apart: the handler panics on
    [extension[1:]] or answers 500. *)
Lemma serve_no_extension_no_200 (files mcache : gmap string string)
    (st' : State) :
  GoString.slice_from extension 1 = None →
  (mcache !! key = None →
   files !! sizedPath = None →
   is_Some (files !! path) →
   Success (resize_worker (mkResizeRequest path extension size) files).1
   = true →
   Magick (resize_worker (mkResizeRequest path extension size) files).1
   = false) →
  serve url (mkState files mcache fresh) = Returned (tt, st') →
  code (w st') ≠ Some 200.
Proof.
  intros Hext Hbranch Hrun.
  set (st := mkState files mcache fresh) in *.
  destruct (fs st !! path) as [full|] eqn:Hfull.
  2: { rewrite (serve_no_extension_panics st Hext Hfull) in Hrun.
       discriminate Hrun. }
  revert Hrun. serve_enter. unfold slice1.
  destruct (mc st !! key) as [value|] eqn:Hmc.
  { rewrite Hext. discriminate. }
  destruct (fs st !! sizedPath) as [contents|] eqn:Hsized.
  { unfold MC_Set. cbv beta iota. rewrite Hext. discriminate. }
  rewrite Hfull. unfold run_resize.
  destruct (resize_worker (mkResizeRequest path extension size) (fs st))
    as [result files'] eqn:Hworker.
  change (fs st) with files in Hworker. cbv beta iota.
  destruct (Success result) eqn:Hs; cbn [negb].
  - assert (Hmagick : Magick result = false).
    { specialize (Hbranch Hmc Hsized (mk_is_Some _ _ Hfull)).
      rewrite Hworker in Hbranch. exact (Hbranch Hs). }
    rewrite Hmagick.
    destruct (OutputImage result) as [img|]; [| discriminate].
    unfold OpenFile. destruct (can_create env sizedPath);
      cbv beta iota; rewrite Hext; discriminate.
  - intros Hrun.
    destruct (http_Error_state "could not resize image" 500
                (mkState files' (mc st) (w st))) as (st1 & Hrun1 & Hc & _).
    rewrite Hrun1 in Hrun. injection Hrun as <-.
    rewrite Hc. discriminate.
Qed.

(** Every response with status 200, the one of the branch where the worker
    wrote the file itself apart, has the Content-Type of [extmimes] at the
    extension without its dot.  That branch is the one taken when memcached
    and the rendition file miss, the full-size is on disk and the worker
    answers [Success] and [Magick]; nothing is asked of the worker on the
    other runs. *)
Lemma serve_content_type (files mcache : gmap string string) (st' : State) :
  (mcache !! key = None →
   files !! sizedPath = None →
   is_Some (files !! path) →
   Success (resize_worker (mkResizeRequest path extension size) files).1
   = true →
   Magick (resize_worker (mkResizeRequest path extension size) files).1
   = false) →
  serve url (mkState files mcache fresh) = Returned (tt, st') →
  code (w st') = Some 200 →
  ∃ ext,
    GoString.slice_from extension 1 = Some ext ∧
    header (w st') !! "Content-Type" = Some (map_index extmimes ext).
Proof.
  intros Hbranch Hrun Hcode.
  destruct (GoString.slice_from extension 1) as [ext|] eqn:Hext.
  2: { exfalso.
       exact (serve_no_extension_no_200 files mcache st' Hext Hbranch Hrun
                                        Hcode). }
  exists ext. split; [reflexivity |].
  set (st := mkState files mcache fresh) in *.
  destruct (mc st !! key) as [value|] eqn:Hmc.
  { rewrite (serve_mc_hit st value ext Hmc Hext) in Hrun.
    injection Hrun as <-. apply lookup_insert_eq. }
  destruct (fs st !! sizedPath) as [contents|] eqn:Hsized.
  { rewrite (serve_sized_hit st contents ext Hmc Hsized Hext) in Hrun.
    injection Hrun as <-. apply lookup_insert_eq. }
  destruct (fs st !! path) as [full|] eqn:Hfull.
  - destruct (resize_worker (mkResizeRequest path extension size) (fs st))
      as [result files'] eqn:Hworker.
    change (fs st) with files in Hworker.
    destruct (Success result) eqn:Hs.
    + assert (Hmagick : Magick result = false).
      { specialize (Hbranch Hmc Hsized (mk_is_Some _ _ Hfull)).
        rewrite Hworker in Hbranch. exact (Hbranch Hs). }
      destruct (OutputImage result) as [img|] eqn:Himg.
      * destruct (decide (extension = ".jpg")) as [Hjpg|Hjpg];
          [| destruct (decide (extension = ".gif")) as [Hgif|Hgif];
             [| destruct (decide (extension = ".png")) as [Hpng|Hpng]]].
        -- destruct (serve_encoded st full result files' Hmc Hsized Hfull
                       Hworker img ext _ Hs Hmagick Himg Hext
                       (or_introl (conj Hjpg eq_refl)))
             as (st1 & Hrun1 & Hw & _).
           rewrite Hrun1 in Hrun. injection Hrun as <-.
           rewrite Hw. apply lookup_insert_eq.
        -- destruct (serve_encoded st full result files' Hmc Hsized Hfull
                       Hworker img ext _ Hs Hmagick Himg Hext
                       (or_intror (or_introl (conj Hgif eq_refl))))
             as (st1 & Hrun1 & Hw & _).
           rewrite Hrun1 in Hrun. injection Hrun as <-.
           rewrite Hw. apply lookup_insert_eq.
        -- destruct (serve_encoded st full result files' Hmc Hsized Hfull
                       Hworker img ext _ Hs Hmagick Himg Hext
                       (or_intror (or_intror (conj Hpng eq_refl))))
             as (st1 & Hrun1 & Hw & _).
           rewrite Hrun1 in Hrun. injection Hrun as <-.
           rewrite Hw. apply lookup_insert_eq.
        -- destruct (serve_not_encoded st full result files' Hmc Hsized
                       Hfull Hworker img ext Hs Hmagick Himg Hext
                       Hjpg Hgif Hpng) as (st1 & Hrun1 & Hw).
           rewrite Hrun1 in Hrun. injection Hrun as <-.
           rewrite Hw in Hcode. discriminate Hcode.
      * rewrite (serve_nil_image st full result files' Hmc Hsized Hfull
                   Hworker Hs Hmagick Himg) in Hrun.
        discriminate Hrun.
    + rewrite (serve_resize_failed st full result files' Hmc Hsized Hfull
                 Hworker Hs) in Hrun.
      destruct (http_Error_state "could not resize image" 500
                  (mkState files' (mc st) (w st))) as (st1 & Hrun1 & Hc & _).
      rewrite Hrun1 in Hrun. injection Hrun as <-.
      rewrite Hc in Hcode. discriminate Hcode.
  - destruct (retrieveImage ReadOrder env c ahash size ext) as [img|err]
      eqn:Himg.
    + rewrite (serve_peer_hit st ext img Hmc Hsized Hfull Hext Himg) in Hrun.
      injection Hrun as <-. apply lookup_insert_eq.
    + rewrite (serve_peer_miss st ext err Hmc Hsized Hfull Hext Himg) in Hrun.
      destruct (http_Error_state "not found" 404 st) as (st1 & Hrun1 & Hc & _).
      rewrite Hrun1 in Hrun. injection Hrun as <-.
      rewrite Hc in Hcode. discriminate Hcode.
Qed.

End Serve.

Section ServeClaims.

Variable Image : Type.
Variable jpeg_Encode : Image → Z → string.
Variable png_Encode : Image → string.
Variable resize_worker :
  ResizeRequest → gmap string string →
  ResizeResponse Image * gmap string string.
Variable ReadOrder : Cluster → string → list NodeData.
Variable env : Env.
Variables (c : Cluster) (cfg : SiteConfig).

Local Abbreviation serve :=
  (ServeImageHandler Image jpeg_Encode png_Encode resize_worker ReadOrder
                     env c cfg).

(** C8: when a request finds nothing in memcached, neither the rendition
    nor the full-size on disk, and the cluster retrieve returns the image,
    the handler answers with those bytes and writes no file: the files are
    those of before, and the full-size and rendition paths are still
    absent. *)
Theorem ServeImageHandler_peer_fetch_writes_no_file
    (url p0 ahash size name : string) (rest : list string)
    (st : State) (ext img : string) :
  GoString.Split url "/" = p0 :: "image" :: ahash :: size :: name :: rest →
  GoString.len ahash = 40%nat →
  let extension := filepath_Ext (request_filename name) in
  mc st !! memcache_key ahash size extension = None →
  fs st !! sized_path cfg ahash size extension = None →
  fs st !! full_path cfg ahash extension = None →
  GoString.slice_from extension 1 = Some ext →
  retrieveImage ReadOrder env c ahash size ext = inl img →
  ∃ st',
    serve url st = Returned (tt, st') ∧
    written (w st') = written (w st) +:+ img ∧
    fs st' = fs st ∧
    fs st' !! full_path cfg ahash extension = None ∧
    fs st' !! sized_path cfg ahash size extension = None.
Proof.
  intros Hparts Hlen extension Hmc Hsized Hfull Hext Himg.
  eexists. split.
  - eapply serve_peer_hit; eassumption.
  - cbn [served cached fs w written]. auto.
Qed.

(** C6, as the code has it.  [extmimes] maps jpg to image/jpeg, png to
    image/png and gif to image/gif.  A response with status 200 carries the
    Content-Type of [extmimes] at the extension without its dot, whether it
    comes from memcached, from the rendition file, from a peer or from the
    encoders; the one run left out is that of the branch where the worker,
    asked because memcached and the rendition miss and the full-size is on
    disk, answers that it wrote the file itself.  A GIF rendition is
    encoded with the PNG encoder, to the response and to the file. *)
Theorem ServeImageHandler_content_type
    (url p0 ahash size name : string) (rest : list string) :
  GoString.Split url "/" = p0 :: "image" :: ahash :: size :: name :: rest →
  GoString.len ahash = 40%nat →
  let extension := filepath_Ext (request_filename name) in
  let request :=
    mkResizeRequest (full_path cfg ahash extension) extension size in
  (map_index extmimes "jpg" = "image/jpeg" ∧
   map_index extmimes "png" = "image/png" ∧
   map_index extmimes "gif" = "image/gif") ∧
  (∀ files mcache st',
     (mcache !! memcache_key ahash size extension = None →
      files !! sized_path cfg ahash size extension = None →
      is_Some (files !! full_path cfg ahash extension) →
      Success (resize_worker request files).1 = true →
      Magick (resize_worker request files).1 = false) →
     serve url (mkState files mcache fresh) = Returned (tt, st') →
     code (w st') = Some 200 →
     ∃ ext,
       GoString.slice_from extension 1 = Some ext ∧
       header (w st') !! "Content-Type" = Some (map_index extmimes ext)) ∧
  (∀ st full result files' img,
     extension = ".gif" →
     mc st !! memcache_key ahash size extension = None →
     fs st !! sized_path cfg ahash size extension = None →
     fs st !! full_path cfg ahash extension = Some full →
     resize_worker request (fs st) = (result, files') →
     Success result = true →
     Magick result = false →
     OutputImage result = Some img →
     ∃ st',
       serve url st = Returned (tt, st') ∧
       written (w st') = written (w st) +:+ png_Encode img ∧
       header (w st') !! "Content-Type" = Some "image/gif" ∧
       (can_create env (sized_path cfg ahash size extension) = true →
          fs st' !! sized_path cfg ahash size extension =
            Some (write_at_start
                    (default "" (files' !! sized_path cfg ahash size extension))
                    (png_Encode img)))).
Proof.
  intros Hparts Hlen extension request. split; [| split].
  - repeat split.
  - intros files mcache st' Hbranch Hrun Hcode.
    eapply serve_content_type; eassumption.
  - intros st full result files' img Hgif Hmc Hsized Hfull Hworker Hs Hm Himg.
    assert (Hext : GoString.slice_from extension 1 = Some "gif").
    { rewrite Hgif. reflexivity. }
    destruct (serve_encoded Image jpeg_Encode png_Encode resize_worker
                ReadOrder env c cfg url p0 ahash size name rest Hparts Hlen
                st full result files' Hmc Hsized Hfull Hworker img "gif"
                (png_Encode img) Hs Hm Himg Hext
                (or_intror (or_introl (conj Hgif eq_refl))))
      as (st' & Hrun & Hw & Hfs & _).
    exists st'. split; [exact Hrun |]. rewrite Hw.
    cbn [served w written header].
    split; [reflexivity |]. split; [| exact Hfs].
    rewrite lookup_insert_eq. reflexivity.
Qed.

End ServeClaims.

(** The branch where the worker wrote the file itself reads [extmimes] at the
    extension with its dot, which is no key of it: the Content-Type it sends
    is empty, whatever the extension. *)
Lemma extmimes_at_extension (filename : string) :
  map_index extmimes (filepath_Ext filename) = "".
Proof.
  destruct (filepath_Ext_shape filename) as [-> | [e ->]];
    [reflexivity | apply extmimes_dotted].
Qed.

(** X13: On the branch where the worker wrote the file itself, the response
    carries an empty Content-Type. *)
Lemma ServeImageHandler_magick_content_type
    (Image : Type) (jpeg_Encode : Image → Z → string)
    (png_Encode : Image → string)
    (resize_worker : ResizeRequest → gmap string string →
                     ResizeResponse Image * gmap string string)
    (ReadOrder : Cluster → string → list NodeData)
    (env : Env) (c : Cluster) (cfg : SiteConfig)
    (url p0 ahash size name : string) (rest : list string)
    (st : State) (full : string) (result : ResizeResponse Image)
    (files' : gmap string string) :
  GoString.Split url "/" = p0 :: "image" :: ahash :: size :: name :: rest →
  GoString.len ahash = 40%nat →
  let extension := filepath_Ext (request_filename name) in
  mc st !! memcache_key ahash size extension = None →
  fs st !! sized_path cfg ahash size extension = None →
  fs st !! full_path cfg ahash extension = Some full →
  resize_worker (mkResizeRequest (full_path cfg ahash extension) extension size)
                (fs st) = (result, files') →
  Success result = true →
  Magick result = true →
  ∃ st',
    ServeImageHandler Image jpeg_Encode png_Encode resize_worker ReadOrder
                      env c cfg url st = Returned (tt, st') ∧
    header (w st') !! "Content-Type" = Some "".
Proof.
  intros Hparts Hlen extension Hmc Hsized Hfull Hworker Hs Hm.
  eexists. split.
  - eapply serve_magick; eassumption.
  - cbn [served cached w header]. rewrite lookup_insert_eq.
    unfold extension. rewrite extmimes_at_extension. reflexivity.
Qed.

Lemma ServeImageHandler_peer_fetch_writes_no_file_witness :
  ∃ st',
    sample_serve peer_has_png png_url nothing_on_disk = Returned (tt, st') ∧
    written (w st') = written (w nothing_on_disk) +:+ "PNGDATA" ∧
    fs st' = fs nothing_on_disk ∧
    fs st' !! full_path cfg_min1 abc_hash ".png" = None ∧
    fs st' !! sized_path cfg_min1 abc_hash "full" ".png" = None.
Proof.
  exact (ServeImageHandler_peer_fetch_writes_no_file
           string sample_jpeg sample_png sample_worker
           (fun _ _ => [node_a; node_b]) (sample_env peer_has_png refused)
           (mkCluster node_a [node_b]) cfg_min1
           png_url "" abc_hash "full" "image.png" [] nothing_on_disk
           "png" "PNGDATA"
           eq_refl eq_refl eq_refl eq_refl eq_refl eq_refl eq_refl).
Defined.

Lemma ServeImageHandler_content_type_witness :
  ∃ st',
    sample_serve (fun _ => refused) gif_url gif_on_disk = Returned (tt, st') ∧
    written (w st') = written (w gif_on_disk) +:+ sample_png "pixels" ∧
    header (w st') !! "Content-Type" = Some "image/gif" ∧
    (can_create (sample_env (fun _ => refused) refused)
                (sized_path cfg_min1 abc_hash "100s" ".gif") = true →
     fs st' !! sized_path cfg_min1 abc_hash "100s" ".gif" =
       Some (write_at_start
               (default "" (fs gif_on_disk
                              !! sized_path cfg_min1 abc_hash "100s" ".gif"))
               (sample_png "pixels"))).
Proof.
  exact (proj2 (proj2
           (ServeImageHandler_content_type
              string sample_jpeg sample_png sample_worker
              (fun _ _ => [node_a; node_b])
              (sample_env (fun _ => refused) refused)
              (mkCluster node_a [node_b]) cfg_min1
              gif_url "" abc_hash "100s" "image.gif" [] eq_refl eq_refl))
           gif_on_disk "GIF89a" (mkResizeResponse (Some "pixels") true false)
           (fs gif_on_disk) "pixels"
           eq_refl eq_refl eq_refl eq_refl eq_refl eq_refl eq_refl eq_refl).
Defined.

(** C6 as stated fails: [extmimes] maps gif to image/gif, and a GIF rendition,
    encoded as PNG, is served with the Content-Type image/gif, not
    image/png. *)
Lemma extmimes_gif_counterexample :
  map_index extmimes "gif" = "image/gif" ∧
  map_index extmimes "gif" ≠ "image/png" ∧
  match sample_serve (fun _ => refused) gif_url gif_on_disk with
  | Returned (_, st') =>
      code (w st') = Some 200 ∧
      written (w st') = sample_png "pixels" ∧
      header (w st') !! "Content-Type" = Some "image/gif" ∧
      header (w st') !! "Content-Type" ≠ Some "image/png"
  | Panicked _ => False
  end.
Proof.
  split; [reflexivity |]. split; [discriminate |].
  vm_compute. repeat split. discriminate.
Qed.

(** A memcached hit is answered with the Content-Type of the table also
    where the worker would say it wrote the file itself: it is not asked. *)
Example ServeImageHandler_hit_with_magick_worker :
  match
    ServeImageHandler string sample_jpeg sample_png magick_worker
                      (fun _ _ => [node_a; node_b])
                      (sample_env (fun _ => refused) refused)
                      (mkCluster node_a [node_b]) cfg_min1 jpg_url
                      (mkState (fs jpg_on_disk)
                               {[ memcache_key abc_hash "100s" ".jpg" := "JFIF100" ]}
                               fresh)
  with
  | Returned (_, st') =>
      code (w st') = Some 200 ∧
      written (w st') = "JFIF100" ∧
      header (w st') !! "Content-Type" = Some "image/jpeg"
  | Panicked _ => False
  end.
Proof. vm_compute. repeat split. Qed.

(** C10: there is a request for /image/<40 hex digits>/<size>/<filename>, the
    file name not empty and without a dot, for which the handler derives the
    empty extension, whose slice [extension[1:]] is out of bounds, and
    panics on every node that does not hold the full-size file. *)
Theorem ServeImageHandler_not_total :
  ∃ ahash size filename : string,
    GoString.len ahash = 40%nat ∧
    all_hex ahash = true ∧
    filename ≠ "" ∧
    no_dot filename = true ∧
    filepath_Ext (request_filename filename) = "" ∧
    GoString.slice_from (filepath_Ext (request_filename filename)) 1 = None ∧
    ∀ (Image : Type) (jpeg_Encode : Image → Z → string)
      (png_Encode : Image → string)
      (resize_worker : ResizeRequest → gmap string string →
                       ResizeResponse Image * gmap string string)
      (ReadOrder : Cluster → string → list NodeData)
      (env : Env) (c : Cluster) (cfg : SiteConfig) (st : State),
      fs st !! full_path cfg ahash "" = None →
      ServeImageHandler Image jpeg_Encode png_Encode resize_worker ReadOrder
                        env c cfg
                        ("/image/" +:+ ahash +:+ "/" +:+ size +:+ "/"
                           +:+ filename) st
      = Panicked "slice bounds out of range".
Proof.
  exists abc_hash, "full", "image".
  repeat (split; [first [reflexivity | discriminate] |]).
  intros Image jpeg_Encode png_Encode resize_worker ReadOrder env c cfg st
         Hfull.
  apply (serve_no_extension_panics Image jpeg_Encode png_Encode resize_worker
           ReadOrder env c cfg no_dot_url "" abc_hash "full" "image" []);
    [reflexivity | reflexivity | reflexivity | exact Hfull].
Qed.

(** Any file name without a dot does it, on any node without the
    full-size. *)
Lemma ServeImageHandler_no_dot_panics
    (Image : Type) (jpeg_Encode : Image → Z → string)
    (png_Encode : Image → string)
    (resize_worker : ResizeRequest → gmap string string →
                     ResizeResponse Image * gmap string string)
    (ReadOrder : Cluster → string → list NodeData)
    (env : Env) (c : Cluster) (cfg : SiteConfig)
    (url p0 ahash size name : string) (rest : list string) (st : State) :
  GoString.Split url "/" = p0 :: "image" :: ahash :: size :: name :: rest →
  GoString.len ahash = 40%nat →
  name ≠ "" →
  no_dot name = true →
  fs st !! full_path cfg ahash "" = None →
  ServeImageHandler Image jpeg_Encode png_Encode resize_worker ReadOrder
                    env c cfg url st
  = Panicked "slice bounds out of range".
Proof.
  intros Hparts Hlen Hname Hdot Hfull.
  assert (Hext : filepath_Ext (request_filename name) = "").
  { unfold request_filename. destruct (decide (name = "")); [contradiction |].
    apply filepath_Ext_no_dot, Hdot. }
  eapply serve_no_extension_panics; try eassumption.
  - rewrite Hext. reflexivity.
  - rewrite Hext. exact Hfull.
Qed.

Example serve_no_dot_nothing_on_disk :
  sample_serve (fun _ => refused) no_dot_url nothing_on_disk
  = Panicked "slice bounds out of range".
Proof. vm_compute. reflexivity. Qed.

Example serve_png_nothing_on_disk_no_peer :
  ∃ st',
    sample_serve (fun _ => refused) png_url nothing_on_disk
    = Returned (tt, st') ∧
    code (w st') = Some 404 ∧ fs st' = ∅.
Proof. eexists. split; [vm_compute; reflexivity |]. split; reflexivity. Qed.

(** ** The earlier version of the handlers

    What was proved of the later handlers holds of the earlier ones, which
    have no memcached in front of the files. *)

Section EarlierServe.

Variable Image : Type.
Variable jpeg_Encode : Image → Z → string.
Variable png_Encode : Image → string.
Variable resize_worker :
  ResizeRequest → gmap string string →
  ResizeResponse Image * gmap string string.
Variable ReadOrder : Cluster → string → list NodeData.
Variable env : Env.
Variables (c : Cluster) (cfg : SiteConfig).

Local Abbreviation serve :=
  (Earlier.ServeImageHandler Image jpeg_Encode png_Encode resize_worker
                             ReadOrder env c cfg).

Variables (url p0 ahash size name : string) (rest : list string).
Hypothesis Hparts :
  GoString.Split url "/" = p0 :: "image" :: ahash :: size :: name :: rest.
Hypothesis Hlen : GoString.len ahash = 40%nat.

Local Abbreviation extension := (filepath_Ext (request_filename name)).
Local Abbreviation path := (full_path cfg ahash extension).
Local Abbreviation sizedPath := (sized_path cfg ahash size extension).

Ltac serve_enter :=
  unfold Earlier.ServeImageHandler; rewrite Hparts; cbv zeta;
  destruct (decide ("image" ≠ "image")) as [?|_]; [congruence |];
  fold (request_filename name);
  destruct (decide (GoString.len ahash ≠ 40%nat)) as [?|_];
  [contradiction |];
  fold path; fold sizedPath;
  unfold mbind, Handler_bind, ReadFile.

Lemma earlier_peer_fetch_writes_no_file (st : State) (ext img : string) :
  fs st !! sizedPath = None →
  fs st !! path = None →
  GoString.slice_from extension 1 = Some ext →
  retrieveImage ReadOrder env c ahash size ext = inl img →
  serve url st = Returned (tt, served (map_index extmimes ext) img st).
Proof.
  intros Hsized Hfull Hext Himg. serve_enter. rewrite Hsized, Hfull.
  unfold slice1. rewrite Hext. unfold mret, Handler_ret.
  cbv beta iota. rewrite Himg. reflexivity.
Qed.

Lemma earlier_no_extension_panics (st : State) :
  GoString.slice_from extension 1 = None →
  fs st !! path = None →
  serve url st = Panicked "slice bounds out of range".
Proof.
  intros Hext Hfull. serve_enter. unfold slice1.
  destruct (fs st !! sizedPath) as [contents|].
  - rewrite Hext. reflexivity.
  - rewrite Hfull, Hext. reflexivity.
Qed.

Lemma earlier_gif_rendition (st : State) (full : string)
    (result : ResizeResponse Image) (files' : gmap string string)
    (img : Image) :
  extension = ".gif" →
  fs st !! sizedPath = None →
  fs st !! path = Some full →
  resize_worker (mkResizeRequest path extension size) (fs st)
  = (result, files') →
  OutputImage result = Some img →
  ∃ st',
    serve url st = Returned (tt, st') ∧
    w st' = w (served "image/gif" (png_Encode img) st).
Proof.
  intros Hgif Hsized Hfull Hworker Himg. serve_enter.
  rewrite Hsized, Hfull. unfold run_resize. rewrite Hworker.
  cbv beta iota. rewrite Himg.
  unfold OpenFile, slice1, Header_Set.
  cbn [fs mc w code header written].
  destruct (decide (extension = ".jpg")) as [Hjpg|_]; [congruence |].
  destruct (decide (extension = ".gif")) as [_|Hn]; [| contradiction].
  rewrite Hgif.
  destruct (can_create env _); eexists; split; reflexivity.
Qed.

End EarlierServe.


(** * Further properties of the code *)

(** ** Digests and their hex form *)

Lemma be_bytes_length (n : nat) (x : Z) : length (Sha1.be_bytes n x) = n.
Proof. induction n as [|n IH]; simpl; congruence. Qed.

Lemma digest_length (msg : list Z) : length (Sha1.digest msg) = 20%nat.
Proof.
  unfold Sha1.digest. cbv zeta.
  destruct (foldl Sha1.block Sha1.init _) as [[[[h0 h1] h2] h3] h4].
  rewrite !length_app, !be_bytes_length. reflexivity.
Qed.

Lemma of_bytes_len (l : list Z) : GoString.len (GoString.of_bytes l) = length l.
Proof.
  unfold GoString.len, GoString.of_bytes.
  induction l as [|b l IH]; simpl; congruence.
Qed.

Lemma to_bytes_length (s : string) :
  length (GoString.to_bytes s) = GoString.len s.
Proof.
  unfold GoString.len, GoString.to_bytes.
  induction s as [|a s IH]; simpl; congruence.
Qed.

Lemma Sum_len (s : string) : GoString.len (Sha1.Sum s) = 20%nat.
Proof. unfold Sha1.Sum. rewrite of_bytes_len. apply digest_length. Qed.

Lemma hex_of_bytes_len (bs : list Z) :
  GoString.len (hex_of_bytes bs) = (2 * length bs)%nat.
Proof.
  induction bs as [|b bs IH]; [reflexivity |].
  cbn [hex_of_bytes foldr length]. fold (hex_of_bytes bs).
  rewrite len_append, IH. unfold GoString.hex02, GoString.len. simpl. lia.
Qed.

Lemma hex_len (h : string) :
  GoString.len (GoString.hex h) = (2 * GoString.len h)%nat.
Proof.
  change (GoString.hex h) with (hex_of_bytes (GoString.to_bytes h)).
  rewrite hex_of_bytes_len, to_bytes_length. reflexivity.
Qed.

Lemma hex_all_hex (h : string) : all_hex (GoString.hex h) = true.
Proof. apply hex_of_bytes_all_hex, to_bytes_range. Qed.

Lemma hex_Sum_len (s : string) :
  GoString.len (GoString.hex (Sha1.Sum s)) = 40%nat.
Proof. rewrite hex_len, Sum_len. reflexivity. Qed.

Lemma Sum_not_empty (s : string) : Sha1.Sum s ≠ "".
Proof.
  intros H. pose proof (Sum_len s) as Hl. rewrite H in Hl. discriminate Hl.
Qed.

(** ** Splitting the URLs the code builds *)

Lemma cut_lacks_app (c : ascii) (hd tl : string) :
  lacks c hd = true →
  GoString.cut c (hd +:+ String c tl) = (hd, Some tl).
Proof.
  unfold lacks. induction hd as [|a hd IH]; intros H.
  - change ("" +:+ String c tl) with (String c tl). cbn [GoString.cut].
    destruct (decide (c = c)); [reflexivity | congruence].
  - cbn [list_ascii_of_string forallb] in H.
    apply andb_true_iff in H as [Ha Hhd].
    rewrite append_cons. cbn [GoString.cut].
    destruct (decide (a = c)) as [->|_].
    + rewrite Ascii.eqb_refl in Ha. discriminate Ha.
    + rewrite (IH Hhd). reflexivity.
Qed.

Lemma cut_lacks (c : ascii) (s : string) :
  lacks c s = true → GoString.cut c s = (s, None).
Proof.
  unfold lacks. induction s as [|a s IH]; intros H; [reflexivity |].
  cbn [list_ascii_of_string forallb] in H.
  apply andb_true_iff in H as [Ha Hs].
  cbn [GoString.cut]. destruct (decide (a = c)) as [->|_].
  - rewrite Ascii.eqb_refl in Ha. discriminate Ha.
  - rewrite (IH Hs). reflexivity.
Qed.

Lemma Split_lacks (c : ascii) (s : string) :
  lacks c s = true → GoString.Split s c = [s].
Proof.
  intros H. unfold GoString.Split.
  destruct (GoString.len s) eqn:Hl.
  - destruct s; [reflexivity | discriminate Hl].
  - cbn [GoString.Split_fuel]. rewrite (cut_lacks c s H). reflexivity.
Qed.

Lemma Split_app (c : ascii) (hd tl : string) :
  lacks c hd = true →
  GoString.Split (hd +:+ String c tl) c = hd :: GoString.Split tl c.
Proof.
  intros H. unfold GoString.Split. rewrite len_append.
  change (GoString.len (String c tl)) with (S (GoString.len tl)).
  rewrite Nat.add_succ_r. cbn [GoString.Split_fuel].
  rewrite (cut_lacks_app c hd tl H). f_equal.
  apply Split_fuel_enough; lia.
Qed.

Lemma is_hex_not_slash (a : ascii) :
  GoString.is_hex a = true → Ascii.eqb a "/"%char = false.
Proof.
  intros H. destruct (Ascii.eqb_spec a "/"%char) as [->|]; [| reflexivity].
  discriminate H.
Qed.

Lemma all_hex_lacks_slash (h : string) :
  all_hex h = true → lacks "/"%char h = true.
Proof.
  unfold all_hex, lacks. induction h as [|a h IH]; [reflexivity |].
  cbn [list_ascii_of_string forallb]. intros H.
  apply andb_true_iff in H as [Ha Hh].
  rewrite (is_hex_not_slash a Ha), (IH Hh). reflexivity.
Qed.

Lemma Split_image_path (h size filename : string) :
  lacks "/"%char h = true → lacks "/"%char size = true →
  lacks "/"%char filename = true →
  GoString.Split (image_path h size filename) "/"
  = [""; "image"; h; size; filename].
Proof.
  intros Hh Hs Hf. unfold image_path.
  change ("/image/" +:+ h +:+ "/" +:+ size +:+ "/" +:+ filename)
    with ("" +:+ String "/"%char
            ("image" +:+ String "/"%char
               (h +:+ String "/"%char (size +:+ String "/"%char filename)))).
  rewrite !Split_app by (assumption || reflexivity).
  rewrite (Split_lacks _ _ Hf). reflexivity.
Qed.

Lemma Split_retrieve_path (h size extension : string) :
  lacks "/"%char h = true → lacks "/"%char size = true →
  lacks "/"%char extension = true →
  GoString.Split (retrieve_path h size extension) "/"
  = [""; "retrieve"; h; size; extension; ""].
Proof.
  intros Hh Hs He. unfold retrieve_path.
  change ("/retrieve/" +:+ h +:+ "/" +:+ size +:+ "/" +:+ extension +:+ "/")
    with ("" +:+ String "/"%char
            ("retrieve" +:+ String "/"%char
               (h +:+ String "/"%char
                  (size +:+ String "/"%char
                     (extension +:+ String "/"%char ""))))).
  rewrite !Split_app by (assumption || reflexivity).
  reflexivity.
Qed.

(** ** Ring keys are hashes *)

(** X1: Every key [HashKeys] returns has the form of a content hash: 40
    lowercase hexadecimal digits. *)
Theorem HashKeys_are_hashes (n : NodeData) :
  Forall (fun key => GoString.len key = 40%nat ∧ all_hex key = true)
         (HashKeys n).
Proof.
  apply Forall_lookup. intros i key Hkey.
  unfold HashKeys in Hkey.
  destruct (foldl_insert_seq
              (fun i => GoString.hex
                          (Sha1.Sum (UUID n +:+ GoString.dec (Z.of_nat i))))
              (length (replicate REPLICAS "")) (replicate REPLICAS ""))
    as [Hlen Hget]; [lia |].
  assert (Hi : (i < length (replicate REPLICAS ""))%nat).
  { rewrite <- Hlen. eapply lookup_lt_Some, Hkey. }
  rewrite (Hget i Hi) in Hkey. injection Hkey as <-.
  split; [apply hex_Sum_len | apply hex_all_hex].
Qed.

(** ** Paths and hashes *)

Lemma segments2_nil_even (s : string) :
  segments2 s = [] → (GoString.len s mod 2 = 0)%nat → s = "".
Proof.
  destruct s as [|a [|b s]]; [reflexivity | discriminate | discriminate].
Qed.

Lemma remove_slashes_Join_segments2 (s : string) :
  lacks "/"%char s = true →
  (GoString.len s mod 2 = 0)%nat →
  remove_slashes (GoString.Join (segments2 s) "/") = s.
Proof.
  unfold lacks.
  induction s as [|a|a b s IH] using string_pair_ind; intros Hl He.
  - reflexivity.
  - discriminate He.
  - cbn [list_ascii_of_string forallb] in Hl.
    apply andb_true_iff in Hl as [Ha Hl].
    apply andb_true_iff in Hl as [Hb Hl].
    change (GoString.len (String a (String b s)))
      with (S (S (GoString.len s))) in He.
    replace (S (S (GoString.len s))) with (GoString.len s + 1 * 2)%nat in He
      by lia.
    rewrite Nat.Div0.mod_add in He.
    specialize (IH Hl He).
    assert (Hna : a ≠ "/"%char).
    { intros ->. discriminate Ha. }
    assert (Hnb : b ≠ "/"%char).
    { intros ->. discriminate Hb. }
    cbn [segments2].
    destruct (segments2 s) as [|x xs] eqn:Hseg.
    + rewrite (segments2_nil_even s Hseg He).
      cbn [GoString.Join remove_slashes].
      destruct (decide (a = "/"%char)); [contradiction |].
      destruct (decide (b = "/"%char)); [contradiction |]. reflexivity.
    + change (GoString.Join (String a (String b "") :: x :: xs) "/")
        with (String a (String b (String "/"%char
                                    (GoString.Join (x :: xs) "/")))).
      cbn [remove_slashes].
      destruct (decide (a = "/"%char)); [contradiction |].
      destruct (decide (b = "/"%char)); [contradiction |].
      destruct (decide ("/"%char = "/"%char)); [| congruence].
      rewrite IH. reflexivity.
Qed.

(** X2: The path of a hash can be read back: taking the separators out of
    [hashStringToPath h] gives [h], for every hex string of even length.
    Two such hashes with the same path are the same hash. *)
Theorem hashStringToPath_read_back (h h' : string) :
  all_hex h = true → (GoString.len h mod 2 = 0)%nat →
  all_hex h' = true → (GoString.len h' mod 2 = 0)%nat →
  remove_slashes (hashStringToPath h) = h ∧
  (hashStringToPath h = hashStringToPath h' → h = h').
Proof.
  intros Hh He Hh' He'.
  assert (Hback : ∀ s, all_hex s = true → (GoString.len s mod 2 = 0)%nat →
                       remove_slashes (hashStringToPath s) = s).
  { intros s Hs Hes. rewrite (hashStringToPath_segments s Hs).
    apply remove_slashes_Join_segments2;
      [apply all_hex_lacks_slash, Hs | exact Hes]. }
  split; [apply Hback; assumption |].
  intros Heq. rewrite <- (Hback h Hh He), <- (Hback h' Hh' He'), Heq.
  reflexivity.
Qed.

Lemma hashStringToPath_read_back_witness :
  remove_slashes (hashStringToPath abc_hash) = abc_hash ∧
  (hashStringToPath abc_hash = hashStringToPath abc_hash →
   abc_hash = abc_hash).
Proof.
  apply (hashStringToPath_read_back abc_hash abc_hash); reflexivity.
Defined.

Lemma segments2_odd_tail (s : string) (c : ascii) :
  (GoString.len s mod 2 = 0)%nat →
  segments2 (s +:+ String c "") = segments2 s.
Proof.
  induction s as [|a|a b s IH] using string_pair_ind; intros He.
  - reflexivity.
  - discriminate He.
  - rewrite !append_cons. cbn [segments2]. rewrite IH; [reflexivity |].
    change (GoString.len (String a (String b s)))
      with (S (S (GoString.len s))) in He.
    replace (S (S (GoString.len s))) with (GoString.len s + 1 * 2)%nat in He
      by lia.
    rewrite Nat.Div0.mod_add in He. exact He.
Qed.

(** X3: A hex string of odd length loses its last digit: its path is the path
    of the string without it. *)
Theorem hashStringToPath_odd_digit_dropped (h : string) (c : ascii) :
  all_hex h = true → GoString.is_hex c = true →
  (GoString.len h mod 2 = 0)%nat →
  hashStringToPath (h +:+ String c "") = hashStringToPath h.
Proof.
  intros Hh Hc He.
  assert (Hhc : all_hex (h +:+ String c "") = true).
  { unfold all_hex in *. clear He.
    induction h as [|a h IH].
    - change ("" +:+ String c "") with (String c "").
      cbn [list_ascii_of_string forallb]. rewrite Hc. reflexivity.
    - rewrite append_cons. cbn [list_ascii_of_string forallb] in *.
      apply andb_true_iff in Hh as [Ha Hh]. rewrite Ha, (IH Hh).
      reflexivity. }
  rewrite (hashStringToPath_segments _ Hhc), (hashStringToPath_segments _ Hh).
  rewrite segments2_odd_tail by exact He. reflexivity.
Qed.

Lemma hashStringToPath_odd_digit_dropped_witness :
  hashStringToPath ("a9" +:+ String "9"%char "") = hashStringToPath "a9".
Proof.
  apply (hashStringToPath_odd_digit_dropped "a9" "9"%char); reflexivity.
Defined.

(** X4: The two path builders name the same directory: [hashToPath] of the bytes
    of a hash is [hashStringToPath] of its hex form with one more separator
    at the end; it holds of every SHA-1 digest. *)
Theorem hashToPath_agrees_with_hashStringToPath (h d : string) :
  h ≠ "" →
  hashToPath h = hashStringToPath (GoString.hex h) +:+ "/" ∧
  hashToPath (Sha1.Sum d)
  = hashStringToPath (GoString.hex (Sha1.Sum d)) +:+ "/".
Proof.
  intros Hne. split.
  - apply hashToPath_hashStringToPath, Hne.
  - apply hashToPath_hashStringToPath, Sum_not_empty.
Qed.

Lemma hashToPath_agrees_with_hashStringToPath_witness :
  hashToPath "ab" = hashStringToPath (GoString.hex "ab") +:+ "/" ∧
  hashToPath (Sha1.Sum "abc")
  = hashStringToPath (GoString.hex (Sha1.Sum "abc")) +:+ "/".
Proof.
  apply (hashToPath_agrees_with_hashStringToPath "ab" "abc"). discriminate.
Defined.

(** ** Liveness of a peer after a call *)

(** X5: After a [Stash] made at a time later than the node's time stamps, the
    node is current exactly when the stash succeeded; a failed stash leaves
    it unwriteable, a successful one leaves [Writeable] as it was; the
    identity and the address of the node never change. *)
Theorem Stash_liveness (env : Env) (files : gmap string string)
    (n n' : NodeData) (filename : string) (ok : bool) :
  Stash env files n filename = Returned (n', ok) →
  LastSeen n ≤ time_Now env →
  LastFailed n < time_Now env →
  IsCurrent n' = ok ∧
  (ok = false → Writeable n' = false) ∧
  (ok = true → Writeable n' = Writeable n) ∧
  UUID n' = UUID n ∧ BaseUrl n' = BaseUrl n ∧
  Nickname n' = Nickname n ∧ Location n' = Location n.
Proof.
  unfold Stash, IsCurrent. intros Hrun Hseen Hfailed.
  destruct (postFile env files filename (stashUrl n)) as [[resp|err]|msg];
    [| | discriminate Hrun]; injection Hrun as <- <-; cbn.
  - repeat split; try congruence. apply Z.ltb_lt. exact Hfailed.
  - repeat split; try congruence. apply Z.ltb_ge. exact Hseen.
Qed.

Lemma Stash_liveness_witness :
  IsCurrent (mkNodeData "b" "uuid-b" "localhost:8082" "rack 2" false 0 1000)
  = false ∧
  (false = false →
   Writeable (mkNodeData "b" "uuid-b" "localhost:8082" "rack 2" false 0 1000)
   = false) ∧
  (false = true →
   Writeable (mkNodeData "b" "uuid-b" "localhost:8082" "rack 2" false 0 1000)
   = Writeable node_b) ∧
  UUID (mkNodeData "b" "uuid-b" "localhost:8082" "rack 2" false 0 1000)
  = UUID node_b ∧
  BaseUrl (mkNodeData "b" "uuid-b" "localhost:8082" "rack 2" false 0 1000)
  = BaseUrl node_b ∧
  Nickname (mkNodeData "b" "uuid-b" "localhost:8082" "rack 2" false 0 1000)
  = Nickname node_b ∧
  Location (mkNodeData "b" "uuid-b" "localhost:8082" "rack 2" false 0 1000)
  = Location node_b.
Proof.
  apply (Stash_liveness (sample_env (fun _ => refused) refused) one_file
                        node_b _ "/tmp/up/full.png" false);
    [reflexivity | cbn; lia | cbn; lia].
Defined.

(** X6: [RetrieveImage] never changes [Writeable], nor the identity and the
    address of the node: a peer that fails a retrieve stays in the write
    ring.  After a call made at a time later than the node's time stamps, the
    node is current exactly when the peer answered, whatever the status of
    the answer: a peer that answers 404 counts as seen. *)
Theorem RetrieveImage_liveness (env : Env) (n : NodeData)
    (hash size extension : string) :
  LastSeen n ≤ time_Now env →
  LastFailed n < time_Now env →
  let n' := (RetrieveImage env n hash size extension).1 in
  Writeable n' = Writeable n ∧
  UUID n' = UUID n ∧ BaseUrl n' = BaseUrl n ∧
  Nickname n' = Nickname n ∧ Location n' = Location n ∧
  (IsCurrent n' = true ↔
   ∃ resp, http_Get env (retrieveUrl n hash size extension) = inl resp).
Proof.
  intros Hseen Hfailed. cbv zeta. unfold RetrieveImage, IsCurrent.
  destruct (http_Get env (retrieveUrl n hash size extension)) as [resp|err].
  - destruct (decide (Status resp ≠ "200 OK")); cbn;
      (repeat split; try reflexivity; [eauto | intros _; apply Z.ltb_lt, Hfailed]).
  - cbn. repeat split; try reflexivity.
    + intros H. apply Z.ltb_lt in H. lia.
    + intros [resp H]. discriminate H.
Qed.

Lemma RetrieveImage_liveness_witness :
  let n' := (RetrieveImage
               (sample_env
                  (fun _ => inl (mkResponse "404 Not Found" "not found"))
                  refused)
               node_b abc_hash "full" "png").1 in
  Writeable n' = Writeable node_b ∧
  UUID n' = UUID node_b ∧ BaseUrl n' = BaseUrl node_b ∧
  Nickname n' = Nickname node_b ∧ Location n' = Location node_b ∧
  (IsCurrent n' = true ↔
   ∃ resp,
     http_Get (sample_env
                 (fun _ => inl (mkResponse "404 Not Found" "not found"))
                 refused)
              (retrieveUrl node_b abc_hash "full" "png") = inl resp).
Proof.
  apply (RetrieveImage_liveness
           (sample_env (fun _ => inl (mkResponse "404 Not Found" "not found"))
                       refused)
           node_b abc_hash "full" "png"); cbn; lia.
Defined.

(** ** More on serving images *)

Lemma encode_and_serve_exact (opened : bool)
    (sizedPath key encoded : string) (st0 : State) :
  let files1 :=
    if opened
    then <[sizedPath :=
             write_at_start (default "" (fs st0 !! sizedPath)) encoded]>
           (fs st0)
    else fs st0 in
  encode_and_serve opened sizedPath key encoded st0 =
    Returned (tt,
              mkState files1
                      (<[key := default "" (files1 !! sizedPath)]> (mc st0))
                      (mkResponseWriter (Some (default 200 (code (w st0))))
                                        (header (w st0))
                                        (written (w st0) +:+ encoded))).
Proof. destruct opened; reflexivity. Qed.

Section ServeMore.

Variable Image : Type.
Variable jpeg_Encode : Image → Z → string.
Variable png_Encode : Image → string.
Variable resize_worker :
  ResizeRequest → gmap string string →
  ResizeResponse Image * gmap string string.
Variable ReadOrder : Cluster → string → list NodeData.
Variable env : Env.
Variables (c : Cluster) (cfg : SiteConfig).

Local Abbreviation serve :=
  (ServeImageHandler Image jpeg_Encode png_Encode resize_worker ReadOrder
                     env c cfg).

(** X7: A request that is not of the form /image/<40 characters>/<size>/<file>
    is answered 404 before anything is looked up: the files and memcached are
    as before. *)
Theorem ServeImageHandler_rejects (url : string) (st : State) :
  (length (GoString.Split url "/") < 5)%nat ∨
  GoString.Split url "/" !! 1%nat ≠ Some "image" ∨
  (∃ ahash, GoString.Split url "/" !! 2%nat = Some ahash ∧
            GoString.len ahash ≠ 40%nat) →
  ∃ msg st',
    serve url st = Returned (tt, st') ∧
    (msg = "bad request" ∨ msg = "bad hash") ∧
    http_Error msg 404 st = Returned (tt, st') ∧
    code (w st') = Some (default 404 (code (w st))) ∧
    fs st' = fs st ∧ mc st' = mc st.
Proof.
  intros Hbad.
  assert (Hserve : ∃ msg, (msg = "bad request" ∨ msg = "bad hash") ∧
                          serve url st = http_Error msg 404 st).
  { unfold ServeImageHandler.
    destruct (GoString.Split url "/") as [|p0 [|p1 [|ahash [|size [|name rest]]]]];
      try (exists "bad request"; split; [left |]; reflexivity).
    destruct (decide (p1 ≠ "image")) as [|Hp1];
      [exists "bad request"; split; [left |]; reflexivity |].
    cbv zeta.
    destruct (decide (GoString.len ahash ≠ 40%nat)) as [|Hlen];
      [exists "bad hash"; split; [right |]; reflexivity |].
    exfalso. destruct Hbad as [H | [H | (a & Ha & Hn)]].
    - cbn in H. lia.
    - apply H. cbn. f_equal. apply dec_stable. exact Hp1.
    - injection Ha as <-. apply Hlen. exact Hn. }
  destruct Hserve as (msg & Hmsg & ->).
  destruct (http_Error_state msg 404 st) as (st' & Hrun & Hcode & Hfs).
  exists msg, st'. repeat split; try assumption.
  unfold http_Error, mbind, Handler_bind, Header_Set, WriteHeader, Write in Hrun.
  injection Hrun as <-. reflexivity.
Qed.

Variables (url p0 ahash size name : string) (rest : list string).
Hypothesis Hparts :
  GoString.Split url "/" = p0 :: "image" :: ahash :: size :: name :: rest.
Hypothesis Hlen : GoString.len ahash = 40%nat.

Local Abbreviation extension := (filepath_Ext (request_filename name)).
Local Abbreviation key := (memcache_key ahash size extension).
Local Abbreviation path := (full_path cfg ahash extension).
Local Abbreviation sizedPath := (sized_path cfg ahash size extension).

Ltac serve_enter :=
  unfold ServeImageHandler; rewrite Hparts; cbv zeta;
  destruct (decide ("image" ≠ "image")) as [?|_]; [congruence |];
  fold (request_filename name);
  destruct (decide (GoString.len ahash ≠ 40%nat)) as [?|_];
  [contradiction |];
  fold key; fold path; fold sizedPath;
  unfold mbind, Handler_bind, MC_Get, ReadFile.

(** X8: The handler writes a file only when it resizes: when the item is in
    memcached, or the rendition is on disk, or the full-size is not, a call
    that returns leaves every file as it was. *)
Theorem ServeImageHandler_writes_only_when_resizing (st st' : State) :
  is_Some (mc st !! key) ∨ is_Some (fs st !! sizedPath) ∨ fs st !! path = None →
  serve url st = Returned (tt, st') →
  fs st' = fs st.
Proof.
  intros Hcase. serve_enter.
  unfold slice1, MC_Set, Header_Set, Write, mret, Handler_ret, panic.
  destruct (mc st !! key) as [value|] eqn:Hmc.
  { destruct (GoString.slice_from extension 1); [| discriminate].
    intros [= <-]. reflexivity. }
  destruct (fs st !! sizedPath) as [contents|] eqn:Hsized.
  { cbv beta iota.
    destruct (GoString.slice_from extension 1); [| discriminate].
    intros [= <-]. reflexivity. }
  destruct Hcase as [[? H] | [[? H] | Hfull]]; try discriminate H.
  rewrite Hfull.
  destruct (GoString.slice_from extension 1) as [ext|]; [| discriminate].
  destruct (retrieveImage ReadOrder env c ahash size ext) as [img|err].
  - cbv beta iota. intros [= <-]. reflexivity.
  - intros Hrun.
    destruct (http_Error_state "not found" 404 st) as (st1 & Hrun1 & _ & Hfs).
    rewrite Hrun1 in Hrun. injection Hrun as <-. exact Hfs.
Qed.

End ServeMore.

Lemma write_at_start_empty (data : string) : write_at_start "" data = data.
Proof.
  unfold write_at_start. destruct (GoString.len data); apply append_nil_r.
Qed.

Section ServeResize.

Variable Image : Type.
Variable jpeg_Encode : Image → Z → string.
Variable png_Encode : Image → string.
Variable resize_worker :
  ResizeRequest → gmap string string →
  ResizeResponse Image * gmap string string.
Variable ReadOrder : Cluster → string → list NodeData.
Variable env : Env.
Variables (c : Cluster) (cfg : SiteConfig).

Local Abbreviation serve :=
  (ServeImageHandler Image jpeg_Encode png_Encode resize_worker ReadOrder
                     env c cfg).

Variables (url p0 ahash size name : string) (rest : list string).
Hypothesis Hparts :
  GoString.Split url "/" = p0 :: "image" :: ahash :: size :: name :: rest.
Hypothesis Hlen : GoString.len ahash = 40%nat.

Local Abbreviation extension := (filepath_Ext (request_filename name)).
Local Abbreviation key := (memcache_key ahash size extension).
Local Abbreviation path := (full_path cfg ahash extension).
Local Abbreviation sizedPath := (sized_path cfg ahash size extension).

Variables (st : State) (full : string).
Variables (result : ResizeResponse Image) (files' : gmap string string).
Variables (img : Image) (ext : string).
Hypothesis Hmc : mc st !! key = None.
Hypothesis Hsized : fs st !! sizedPath = None.
Hypothesis Hfull : fs st !! path = Some full.
Hypothesis Hworker :
  resize_worker (mkResizeRequest path extension size) (fs st)
  = (result, files').
Hypothesis Hs : Success result = true.
Hypothesis Hm : Magick result = false.
Hypothesis Himg : OutputImage result = Some img.
Hypothesis Hext : GoString.slice_from extension 1 = Some ext.

Local Abbreviation opened :=
  (opened_state env sizedPath (map_index extmimes ext) files' st).

Ltac resize_enter :=
  unfold ServeImageHandler; rewrite Hparts; cbv zeta;
  destruct (decide ("image" ≠ "image")) as [?|_]; [congruence |];
  fold (request_filename name);
  destruct (decide (GoString.len ahash ≠ 40%nat)) as [?|_];
  [contradiction |];
  fold key; fold path; fold sizedPath;
  unfold mbind, Handler_bind, MC_Get, ReadFile;
  rewrite Hmc, Hsized, Hfull;
  unfold run_resize; rewrite Hworker; cbv beta iota;
  rewrite Hs, Hm, Himg; cbv beta iota; unfold negb;
  unfold OpenFile, slice1, Header_Set;
  cbn [fs mc w code header written]; rewrite Hext;
  unfold mret, Handler_ret.

Lemma serve_encoded_exact (bytes : string) :
  (extension = ".jpg" ∧ bytes = jpeg_Encode img jpeg_options_Quality) ∨
  (extension = ".gif" ∧ bytes = png_Encode img) ∨
  (extension = ".png" ∧ bytes = png_Encode img) →
  serve url st =
    encode_and_serve (can_create env sizedPath) sizedPath key bytes opened.
Proof.
  intros Hcase. resize_enter. unfold opened_state.
  destruct Hcase as [[He Hb]|[[He Hb]|[He Hb]]]; subst bytes;
    destruct (decide (extension = ".jpg")) as [H1|H1];
    destruct (decide (extension = ".gif")) as [H2|H2];
    destruct (decide (extension = ".png")) as [H3|H3];
    try (exfalso; congruence);
    destruct (can_create env sizedPath); reflexivity.
Qed.

Lemma serve_not_encoded_exact :
  extension ≠ ".jpg" → extension ≠ ".gif" → extension ≠ ".png" →
  serve url st = Returned (tt, opened).
Proof.
  intros H1 H2 H3. resize_enter. unfold opened_state.
  destruct (decide (extension = ".jpg")); [contradiction |].
  destruct (decide (extension = ".gif")); [contradiction |].
  destruct (decide (extension = ".png")); [contradiction |].
  destruct (can_create env sizedPath); reflexivity.
Qed.

End ServeResize.

Section ServeTwice.

(** The first request. *)
Variable Image : Type.
Variable jpeg_Encode : Image → Z → string.
Variable png_Encode : Image → string.
Variable resize_worker :
  ResizeRequest → gmap string string →
  ResizeResponse Image * gmap string string.
Variable ReadOrder : Cluster → string → list NodeData.
Variable env : Env.
Variable c : Cluster.

(** A later request, for which the codec, the worker, the peers and the
    cluster may be others. *)
Variable Image' : Type.
Variable jpeg_Encode' : Image' → Z → string.
Variable png_Encode' : Image' → string.
Variable resize_worker' :
  ResizeRequest → gmap string string →
  ResizeResponse Image' * gmap string string.
Variable ReadOrder' : Cluster → string → list NodeData.
Variable env' : Env.
Variable c' : Cluster.

Variable cfg : SiteConfig.

Local Abbreviation serve :=
  (ServeImageHandler Image jpeg_Encode png_Encode resize_worker ReadOrder
                     env c cfg).
Local Abbreviation serve' :=
  (ServeImageHandler Image' jpeg_Encode' png_Encode' resize_worker'
                     ReadOrder' env' c' cfg).

Variables (url p0 ahash size name : string) (rest : list string).
Hypothesis Hparts :
  GoString.Split url "/" = p0 :: "image" :: ahash :: size :: name :: rest.
Hypothesis Hlen : GoString.len ahash = 40%nat.

Local Abbreviation extension := (filepath_Ext (request_filename name)).
Local Abbreviation key := (memcache_key ahash size extension).
Local Abbreviation path := (full_path cfg ahash extension).
Local Abbreviation sizedPath := (sized_path cfg ahash size extension).

Variable ext : string.
Hypothesis Hext : GoString.slice_from extension 1 = Some ext.

(** An image to be had from the rendition file or from a peer is sent as it
    is, whether memcached misses or returns those bytes; the files are not
    touched, and memcached is left with nothing or with those bytes under
    the key. *)
Lemma serve_same_bytes (st : State) (body : string) :
  mc st !! key = None ∨ mc st !! key = Some body →
  fs st !! sizedPath = Some body ∨
  (fs st !! sizedPath = None ∧ fs st !! path = None ∧
   retrieveImage ReadOrder env c ahash size ext = inl body) →
  ∃ st1,
    serve url st = Returned (tt, st1) ∧
    w st1 = w (served (map_index extmimes ext) body st) ∧
    fs st1 = fs st ∧
    (mc st1 !! key = None ∨ mc st1 !! key = Some body).
Proof.
  intros [Hmc | Hmc] Hcase.
  - assert (Hrun : serve url st =
              Returned (tt, served (map_index extmimes ext) body
                                   (cached key body st))).
    { destruct Hcase as [Hsized | (Hsized & Hfull & Himg)].
      - eapply serve_sized_hit; eassumption.
      - eapply serve_peer_hit; eassumption. }
    eexists. split; [exact Hrun |].
    cbn [served cached fs mc w]. repeat split.
    right. apply lookup_insert_eq.
  - eexists. split; [eapply serve_mc_hit; eassumption |].
    cbn [served fs mc w]. repeat split. right. exact Hmc.
Qed.

(** X9: While an image is to be had from the rendition file or from a peer, and
    memcached returns for its key nothing or those bytes, the handler sends
    those bytes with the Content-Type of the extension and leaves this so:
    no file is touched and memcached holds nothing or those bytes for the
    key.  A later request gets the same bytes, whether memcached has kept
    the item or not. *)
Theorem ServeImageHandler_serves_same_bytes_again (st : State)
    (body : string) :
  mc st !! key = None ∨ mc st !! key = Some body →
  fs st !! sizedPath = Some body ∨
  (fs st !! sizedPath = None ∧ fs st !! path = None ∧
   retrieveImage ReadOrder env c ahash size ext = inl body) →
  ∃ st1,
    serve url st = Returned (tt, st1) ∧
    w st1 = w (served (map_index extmimes ext) body st) ∧
    fs st1 = fs st ∧
    (mc st1 !! key = None ∨ mc st1 !! key = Some body) ∧
    ∀ mc2 w2,
      mc2 !! key = None ∨ mc2 !! key = Some body →
      ∃ st2,
        serve url (mkState (fs st1) mc2 w2) = Returned (tt, st2) ∧
        w st2 = w (served (map_index extmimes ext) body
                          (mkState (fs st1) mc2 w2)) ∧
        fs st2 = fs st1.
Proof.
  intros Hmc Hcase.
  destruct (serve_same_bytes st body Hmc Hcase) as (st1 & Hrun & Hw & Hfs & Hmc1).
  exists st1. repeat split; try assumption.
  intros mc2 w2 Hmc2.
  destruct (serve_same_bytes (mkState (fs st1) mc2 w2) body Hmc2)
    as (st2 & Hrun2 & Hw2 & Hfs2 & _).
  { cbn [fs]. rewrite Hfs. exact Hcase. }
  exists st2. repeat split; assumption.
Qed.

Section Resized.

Variables (st : State) (full : string).
Variables (result : ResizeResponse Image) (files' : gmap string string).
Variables (img : Image) (bytes : string).
Hypothesis Hmc : mc st !! key = None.
Hypothesis Hsized : fs st !! sizedPath = None.
Hypothesis Hfull : fs st !! path = Some full.
Hypothesis Hworker :
  resize_worker (mkResizeRequest path extension size) (fs st)
  = (result, files').
Hypothesis Hs : Success result = true.
Hypothesis Hm : Magick result = false.
Hypothesis Himg : OutputImage result = Some img.
Hypothesis Hnew : files' !! sizedPath = None.




End Resized.

End ServeTwice.

Lemma ServeImageHandler_rejects_witness :
  ∃ msg st',
    sample_serve (fun _ => refused) "/image/abc/full/image.png" nothing_on_disk
    = Returned (tt, st') ∧
    (msg = "bad request" ∨ msg = "bad hash") ∧
    http_Error msg 404 nothing_on_disk = Returned (tt, st') ∧
    code (w st') = Some (default 404 (code (w nothing_on_disk))) ∧
    fs st' = fs nothing_on_disk ∧ mc st' = mc nothing_on_disk.
Proof.
  apply (ServeImageHandler_rejects string sample_jpeg sample_png sample_worker
           (fun _ _ => [node_a; node_b])
           (sample_env (fun _ => refused) refused)
           (mkCluster node_a [node_b]) cfg_min1
           "/image/abc/full/image.png" nothing_on_disk).
  right. right. exists "abc". split; [reflexivity | cbn; lia].
Defined.

Lemma ServeImageHandler_writes_only_when_resizing_witness :
  ∃ st',
    sample_serve peer_has_png png_url nothing_on_disk = Returned (tt, st') ∧
    fs st' = fs nothing_on_disk.
Proof.
  destruct (sample_serve peer_has_png png_url nothing_on_disk)
    as [[[] st']|msg] eqn:Hrun.
  - exists st'. split; [reflexivity |].
    apply (ServeImageHandler_writes_only_when_resizing
             string sample_jpeg sample_png sample_worker
             (fun _ _ => [node_a; node_b]) (sample_env peer_has_png refused)
             (mkCluster node_a [node_b]) cfg_min1
             png_url "" abc_hash "full" "image.png" [] eq_refl eq_refl
             nothing_on_disk st');
      [right; right; reflexivity | exact Hrun].
  - vm_compute in Hrun. discriminate Hrun.
Defined.

Lemma ServeImageHandler_serves_same_bytes_again_witness :
  ∃ st1,
    sample_serve peer_has_png png_url nothing_on_disk = Returned (tt, st1) ∧
    w st1 = w (served "image/png" "PNGDATA" nothing_on_disk) ∧
    fs st1 = fs nothing_on_disk ∧
    ∃ st2,
      sample_serve peer_has_png png_url (mkState (fs st1) ∅ fresh)
      = Returned (tt, st2) ∧
      w st2 = w (served "image/png" "PNGDATA" (mkState (fs st1) ∅ fresh)) ∧
      fs st2 = fs st1.
Proof.
  destruct (ServeImageHandler_serves_same_bytes_again
              string sample_jpeg sample_png sample_worker
              (fun _ _ => [node_a; node_b]) (sample_env peer_has_png refused)
              (mkCluster node_a [node_b]) cfg_min1
              png_url "" abc_hash "full" "image.png" [] eq_refl eq_refl
              "png" eq_refl nothing_on_disk "PNGDATA" (or_introl eq_refl)
              (or_intror (conj eq_refl (conj eq_refl eq_refl))))
    as (st1 & Hrun & Hw & Hfs & _ & Hnext).
  exists st1. split; [exact Hrun |]. split; [exact Hw |].
  split; [exact Hfs |].
  exact (Hnext ∅ fresh (or_introl eq_refl)).
Defined.




Lemma ServeImageHandler_magick_content_type_witness :
  ∃ st',
    ServeImageHandler string sample_jpeg sample_png magick_worker
                      (fun _ _ => [node_a; node_b])
                      (sample_env (fun _ => refused) refused)
                      (mkCluster node_a [node_b]) cfg_min1 jpg_url jpg_on_disk
    = Returned (tt, st') ∧
    header (w st') !! "Content-Type" = Some "".
Proof.
  exact (ServeImageHandler_magick_content_type
           string sample_jpeg sample_png magick_worker
           (fun _ _ => [node_a; node_b])
           (sample_env (fun _ => refused) refused)
           (mkCluster node_a [node_b]) cfg_min1
           jpg_url "" abc_hash "100s" "image.jpg" [] jpg_on_disk "JFIF"
           (mkResizeResponse None true true) (fs jpg_on_disk)
           eq_refl eq_refl eq_refl eq_refl eq_refl eq_refl eq_refl eq_refl).
Defined.

(** X14: A request without a file name, /image/<hash>/<size>/, is served as the
    request for image.jpg. *)
Theorem ServeImageHandler_default_filename
    (Image : Type) (jpeg_Encode : Image → Z → string)
    (png_Encode : Image → string)
    (resize_worker : ResizeRequest → gmap string string →
                     ResizeResponse Image * gmap string string)
    (ReadOrder : Cluster → string → list NodeData)
    (env : Env) (c : Cluster) (cfg : SiteConfig)
    (hash size : string) (st : State) :
  lacks "/"%char hash = true → lacks "/"%char size = true →
  ServeImageHandler Image jpeg_Encode png_Encode resize_worker ReadOrder
                    env c cfg (image_path hash size "") st
  = ServeImageHandler Image jpeg_Encode png_Encode resize_worker ReadOrder
                      env c cfg (image_path hash size "image.jpg") st.
Proof.
  intros Hh Hs. unfold ServeImageHandler.
  rewrite !Split_image_path by (assumption || reflexivity).
  reflexivity.
Qed.

Lemma ServeImageHandler_default_filename_witness :
  sample_serve (fun _ => refused) (image_path abc_hash "100s" "") jpg_on_disk
  = sample_serve (fun _ => refused) (image_path abc_hash "100s" "image.jpg")
                 jpg_on_disk.
Proof.
  apply (ServeImageHandler_default_filename
           string sample_jpeg sample_png sample_worker
           (fun _ _ => [node_a; node_b])
           (sample_env (fun _ => refused) refused)
           (mkCluster node_a [node_b]) cfg_min1 abc_hash "100s" jpg_on_disk);
    reflexivity.
Defined.

(** ** Uploads and what can be read back *)

Lemma mimeexts_values (mimetype : string) :
  map_index mimeexts mimetype = "jpg" ∨ map_index mimeexts mimetype = "gif" ∨
  map_index mimeexts mimetype = "png" ∨ map_index mimeexts mimetype = "".
Proof.
  unfold map_index, mimeexts.
  rewrite !lookup_insert, lookup_empty.
  repeat case_decide; cbn; auto.
Qed.

(** The file [AddHandler] and [StashHandler] write, whose name they build
    with [hashToPath], is the file [ServeImageHandler], [RetrieveHandler] and
    [RetrieveInfoHandler] look for under the name they build with
    [hashStringToPath]. *)
Lemma upload_path_is_full_path (cfg : SiteConfig) (body ext : string) :
  (UploadDirectory cfg +:+ hashToPath (Sha1.Sum body)) +:+ "full." +:+ ext
  = full_path cfg (GoString.hex (Sha1.Sum body)) ("." +:+ ext).
Proof.
  unfold full_path.
  rewrite (hashToPath_hashStringToPath _ (Sum_not_empty body)).
  rewrite !append_assoc. reflexivity.
Qed.

Lemma full_is_a_size (cfg : SiteConfig) (hash extension : string) :
  sized_path cfg hash "full" extension = full_path cfg hash extension.
Proof. reflexivity. Qed.

Section Upload.

Variable Cluster_Stash :
  Cluster → gmap string string → string → string → Z → Z →
  outcome (list string).
Variable env : Env.
Variables (c : Cluster) (cfg : SiteConfig).
Variables (r : AddRequest) (files files' : gmap string string).
Variable id : ImageData.
Hypothesis Hrun :
  AddHandler Cluster_Stash env c cfg r files = Returned (AddJson id, files').

(** What the JSON document of an upload says, and what the upload did to
    the files. *)
Lemma AddHandler_returns :
  ∃ body mimetype content_types,
    FormFile_image r = Some (body, mimetype :: content_types) ∧
    Hash id = GoString.hex (Sha1.Sum body) ∧
    Extension id = map_index mimeexts mimetype ∧
    FullUrl id = image_path (Hash id) "full" ("image." +:+ Extension id) ∧
    files' =
      if can_create env (full_path cfg (Hash id) ("." +:+ Extension id))
      then <[full_path cfg (Hash id) ("." +:+ Extension id) :=
               write_at_start
                 (default ""
                    (files !! full_path cfg (Hash id)
                                         ("." +:+ Extension id)))
                 body]> files
      else files.
Proof.
  unfold AddHandler in Hrun.
  destruct (decide (Method r = "POST")); [| discriminate].
  destruct (KeyRequired cfg && negb (ValidKey cfg (FormValue_key r)));
    [discriminate |].
  destruct (FormFile_image r) as [[body content_types]|]; [| discriminate].
  destruct content_types as [|mimetype content_types]; [discriminate |].
  cbv zeta in Hrun. rewrite upload_path_is_full_path in Hrun.
  match type of Hrun with
  | context [Cluster_Stash c ?fs ?h ?p ?a ?b] =>
      destruct (Cluster_Stash c fs h p a b) as [nodes|msg]; [| discriminate]
  end.
  injection Hrun as <- <-. cbn [Hash Extension FullUrl].
  exists body, mimetype, content_types. repeat split.
Qed.

(** X15: The hash in the JSON document of an upload is the SHA-1 of the bytes
    sent, in 40 hex digits; the upload changes no file but the full-size of
    that hash; and the URL of the document, asked of the same node, returns
    the bytes the upload stored there, with the Content-Type the table gives
    for the extension: unless memcached holds another item for it, the
    answer is read from the file. *)
Theorem AddHandler_then_ServeImageHandler
    (Image : Type) (jpeg_Encode : Image → Z → string)
    (png_Encode : Image → string)
    (resize_worker : ResizeRequest → gmap string string →
                     ResizeResponse Image * gmap string string)
    (ReadOrder : Cluster → string → list NodeData)
    (env' : Env) (c' : Cluster) :
  can_create env (full_path cfg (Hash id) ("." +:+ Extension id)) = true →
  ∃ body content_types stored,
    FormFile_image r = Some (body, content_types) ∧
    Hash id = GoString.hex (Sha1.Sum body) ∧
    GoString.len (Hash id) = 40%nat ∧
    all_hex (Hash id) = true ∧
    stored =
      write_at_start
        (default "" (files !! full_path cfg (Hash id) ("." +:+ Extension id)))
        body ∧
    (files !! full_path cfg (Hash id) ("." +:+ Extension id) = None →
     stored = body) ∧
    (∀ p, p ≠ full_path cfg (Hash id) ("." +:+ Extension id) →
          files' !! p = files !! p) ∧
    ∀ mc2 w2,
      mc2 !! memcache_key (Hash id) "full" ("." +:+ Extension id) = None →
      ServeImageHandler Image jpeg_Encode png_Encode resize_worker ReadOrder
                        env' c' cfg (FullUrl id) (mkState files' mc2 w2)
      = Returned
          (tt, served (map_index extmimes (Extension id)) stored
                      (cached (memcache_key (Hash id) "full"
                                            ("." +:+ Extension id))
                              stored (mkState files' mc2 w2))).
Proof.
  intros Hcreate.
  destruct AddHandler_returns
    as (body & mimetype & content_types & Hfile & Hhash & Hext & Hurl & Hfiles).
  rewrite Hcreate in Hfiles.
  exists body, (mimetype :: content_types),
    (write_at_start
       (default "" (files !! full_path cfg (Hash id) ("." +:+ Extension id)))
       body).
  split; [exact Hfile |].
  split; [exact Hhash |].
  split; [rewrite Hhash; apply hex_Sum_len |].
  split; [rewrite Hhash; apply hex_all_hex |].
  split; [reflexivity |].
  split; [intros ->; apply write_at_start_empty |].
  split; [intros p Hp; rewrite Hfiles; apply lookup_insert_ne; congruence |].
  intros mc2 w2 Hmiss.
  assert (Hlacks : lacks "/"%char (Hash id) = true).
  { rewrite Hhash. apply all_hex_lacks_slash, hex_all_hex. }
  assert (Hlen : GoString.len (Hash id) = 40%nat).
  { rewrite Hhash. apply hex_Sum_len. }
  assert (Hname :
    lacks "/"%char ("image." +:+ Extension id) = true ∧
    filepath_Ext (request_filename ("image." +:+ Extension id))
    = "." +:+ Extension id).
  { rewrite Hext.
    destruct (mimeexts_values mimetype) as [-> | [-> | [-> | ->]]];
      split; reflexivity. }
  destruct Hname as [Hname Hfext].
  assert (Hsplit :
    GoString.Split (FullUrl id) "/"
    = "" :: "image" :: Hash id :: "full" :: ("image." +:+ Extension id) :: []).
  { rewrite Hurl. apply Split_image_path; [assumption | reflexivity | assumption]. }
  rewrite <- Hfext in Hmiss |- *.
  apply (serve_sized_hit Image jpeg_Encode png_Encode resize_worker ReadOrder
           env' c' cfg (FullUrl id) "" (Hash id) "full"
           ("image." +:+ Extension id) [] Hsplit Hlen).
  - exact Hmiss.
  - rewrite Hfext, full_is_a_size, Hfiles. apply lookup_insert_eq.
  - rewrite Hfext. apply slice_from_cons.
Qed.

End Upload.

Lemma AddHandler_then_ServeImageHandler_witness :
  ∃ id files' st',
    AddHandler (fun _ _ _ _ _ _ => Returned [])
               (sample_env (fun _ => refused) refused)
               single_node cfg_min1 upload_png ∅
    = Returned (AddJson id, files') ∧
    sample_serve (fun _ => refused) (FullUrl id) (mkState files' ∅ fresh)
    = Returned (tt, st') ∧
    written (w st') = "PNG" ∧
    header (w st') !! "Content-Type" = Some "image/png".
Proof.
  eexists. eexists. eexists.
  split; [reflexivity |].
  match goal with
  | |- sample_serve _ (FullUrl ?id) (mkState ?files' _ _) = _ ∧ _ =>
      destruct (AddHandler_then_ServeImageHandler
                  (fun _ _ _ _ _ _ => Returned [])
                  (sample_env (fun _ => refused) refused)
                  single_node cfg_min1 upload_png ∅ files' id eq_refl
                  string sample_jpeg sample_png sample_worker
                  (fun _ _ => [node_a; node_b])
                  (sample_env (fun _ => refused) refused)
                  (mkCluster node_a [node_b]) eq_refl)
        as (body & content_types & stored & Hfile & _ & _ & _ & _ & Hfresh
            & _ & Hserve)
  end.
  injection Hfile as <- _.
  rewrite (Hfresh (lookup_empty _)) in Hserve.
  split; [apply Hserve; apply lookup_empty |].
  cbn [served cached w written header]. split; [reflexivity |].
  rewrite lookup_insert_eq. reflexivity.
Defined.

(** ** The handlers the peers call *)

Lemma Split_retrieve_info_path (h size extension : string) :
  lacks "/"%char h = true → lacks "/"%char size = true →
  lacks "/"%char extension = true →
  GoString.Split (retrieve_info_path h size extension) "/"
  = [""; "retrieve_info"; h; size; extension; ""].
Proof.
  intros Hh Hs He. unfold retrieve_info_path.
  change ("/retrieve_info/" +:+ h +:+ "/" +:+ size +:+ "/" +:+ extension
            +:+ "/")
    with ("" +:+ String "/"%char
            ("retrieve_info" +:+ String "/"%char
               (h +:+ String "/"%char
                  (size +:+ String "/"%char
                     (extension +:+ String "/"%char ""))))).
  rewrite !Split_app by (assumption || reflexivity).
  reflexivity.
Qed.

Lemma stash_path_is_full_path (cfg : SiteConfig) (body ext : string) :
  (UploadDirectory cfg +:+ hashToPath (Sha1.Sum body)) +:+ "full" +:+ ext
  = full_path cfg (GoString.hex (Sha1.Sum body)) ext.
Proof.
  unfold full_path.
  rewrite (hashToPath_hashStringToPath _ (Sum_not_empty body)).
  rewrite !append_assoc. reflexivity.
Qed.

Section Peers.

Variable Image : Type.
Variable jpeg_Encode : Image → Z → string.
Variable png_Encode : Image → string.
Variable resize_worker :
  ResizeRequest → gmap string string →
  ResizeResponse Image * gmap string string.
Variable env : Env.
Variable json_Marshal_info : ImageInfoResponse → string.
Variables (c : Cluster) (cfg : SiteConfig).

(** X16: [StashHandler] refuses a request that is not a POST, a node that is not
    writeable and a form without the file [image] with status 400, and
    leaves the files as they were. *)
Theorem StashHandler_rejects (r : StashRequest) (st : State) :
  StashMethod r ≠ "POST" ∨ Writeable (Myself c) = false ∨ StashFile r = None →
  ∃ msg st',
    StashHandler env c cfg r st = Returned (tt, st') ∧
    http_Error msg 400 st = Returned (tt, st') ∧
    code (w st') = Some (default 400 (code (w st))) ∧
    fs st' = fs st ∧ mc st' = mc st.
Proof.
  intros Hbad.
  assert (Hrun : ∃ msg, StashHandler env c cfg r st = http_Error msg 400 st).
  { unfold StashHandler. cbv zeta.
    destruct (decide (StashMethod r ≠ "POST")) as [|Hpost]; [eauto |].
    destruct (Writeable (Myself c)) eqn:Hw; [| cbn; eauto].
    cbn [negb].
    destruct (StashFile r) as [[i filename]|] eqn:Hfile; [| eauto].
    exfalso. destruct Hbad as [H | [H | H]];
      [apply H; apply dec_stable; exact Hpost | discriminate H | discriminate H]. }
  destruct Hrun as [msg ->].
  destruct (http_Error_state msg 400 st) as (st' & Hrun & Hcode & Hfs).
  exists msg, st'. repeat split; try assumption.
  unfold http_Error, mbind, Handler_bind, Header_Set, WriteHeader, Write in Hrun.
  injection Hrun as <-. reflexivity.
Qed.

Lemma stash_stores (r : StashRequest) (st : State)
    (body filename : string) :
  StashMethod r = "POST" →
  Writeable (Myself c) = true →
  StashFile r = Some (body, filename) →
  let p := full_path cfg (GoString.hex (Sha1.Sum body))
                     (filepath_Ext filename) in
  ∃ st',
    StashHandler env c cfg r st = Returned (tt, st') ∧
    written (w st') = written (w st) +:+ "ok" ∧
    code (w st') = Some (default 200 (code (w st))) ∧
    mc st' = mc st ∧
    (∀ q, q ≠ p → fs st' !! q = fs st !! q) ∧
    (can_create env p = true →
     fs st' !! p = Some (write_at_start (default "" (fs st !! p)) body)) ∧
    (can_create env p = false → fs st' = fs st).
Proof.
  intros Hpost Hw Hfile p. unfold StashHandler. cbv zeta.
  destruct (decide (StashMethod r ≠ "POST")); [contradiction |].
  rewrite Hw, Hfile. cbn [negb].
  rewrite stash_path_is_full_path. fold p.
  unfold mbind, Handler_bind, OpenFile, File_Write, Write.
  destruct (can_create env p); cbv beta iota;
    cbn [fs mc w code header written];
    (eexists; split; [reflexivity |]);
    cbn [fs mc w code header written]; repeat split; try discriminate.
  - intros q Hq. rewrite !lookup_insert_ne by congruence. reflexivity.
  - intros _. rewrite !lookup_insert_eq. reflexivity.
Qed.

(** X17: A stash that is accepted writes the bytes to the full-size file of their
    SHA-1, with the extension of the file name sent, changes no other file,
    and answers "ok"; it answers "ok" as well when the file could not be
    created and nothing was written. *)
Theorem StashHandler_stores (r : StashRequest) (st : State)
    (body filename : string) :
  StashMethod r = "POST" →
  Writeable (Myself c) = true →
  StashFile r = Some (body, filename) →
  let p := full_path cfg (GoString.hex (Sha1.Sum body))
                     (filepath_Ext filename) in
  ∃ st',
    StashHandler env c cfg r st = Returned (tt, st') ∧
    written (w st') = written (w st) +:+ "ok" ∧
    code (w st') = Some (default 200 (code (w st))) ∧
    mc st' = mc st ∧
    (∀ q, q ≠ p → fs st' !! q = fs st !! q) ∧
    (can_create env p = true →
     fs st' !! p = Some (write_at_start (default "" (fs st !! p)) body)) ∧
    (can_create env p = false → fs st' = fs st).
Proof. exact (stash_stores r st body filename). Qed.

Variables (hash size extension : string).
Hypothesis Hhash : lacks "/"%char hash = true.
Hypothesis Hsize : lacks "/"%char size = true.
Hypothesis Hextension : lacks "/"%char extension = true.
Hypothesis Hlen : GoString.len hash = 40%nat.

Lemma retrieve_info_reports (st : State) :
  RetrieveInfoHandler json_Marshal_info cfg
                      (retrieve_info_path hash size extension) st
  = Returned
      (tt,
       served "application/json"
              (json_Marshal_info
                 (mkImageInfoResponse
                    hash extension
                    (bool_decide
                       (is_Some (fs st !! full_path cfg hash
                                            ("." +:+ extension))))))
              st).
Proof.
  unfold RetrieveInfoHandler.
  rewrite (Split_retrieve_info_path hash size extension Hhash Hsize Hextension).
  destruct (decide ("retrieve_info" ≠ "retrieve_info")); [congruence |].
  destruct (decide (GoString.len hash ≠ 40%nat)); [contradiction |].
  cbv zeta. fold (full_path cfg hash ("." +:+ extension)).
  unfold mbind, Handler_bind, ReadFile, Header_Set, Write, served.
  destruct (fs st !! full_path cfg hash ("." +:+ extension)) as [x|] eqn:Hf;
    cbv beta iota; cbn [fs mc w code header written].
  - rewrite bool_decide_eq_true_2 by eauto. reflexivity.
  - rewrite bool_decide_eq_false_2 by (intros [? ?]; discriminate).
    reflexivity.
Qed.

(** X18: A probe answers whether the full-size file of the hash and extension is
    on disk, whatever the size segment of its URL, and changes nothing but
    the response. *)
Theorem RetrieveInfoHandler_reports_local (st : State) :
  RetrieveInfoHandler json_Marshal_info cfg
                      (retrieve_info_path hash size extension) st
  = Returned
      (tt,
       served "application/json"
              (json_Marshal_info
                 (mkImageInfoResponse
                    hash extension
                    (bool_decide
                       (is_Some (fs st !! full_path cfg hash
                                            ("." +:+ extension))))))
              st).
Proof. exact (retrieve_info_reports st). Qed.

(** The rendition is on disk: [RetrieveHandler] sends it with the
    Content-Type of the extension. *)
Lemma retrieve_sized_hit (st : State) (contents : string) :
  fs st !! sized_path cfg hash size ("." +:+ extension) = Some contents →
  RetrieveHandler Image jpeg_Encode png_Encode resize_worker env cfg
                  (retrieve_path hash size extension) st
  = Returned (tt, served (map_index extmimes extension) contents st).
Proof.
  intros Hsized. unfold RetrieveHandler.
  rewrite (Split_retrieve_path hash size extension Hhash Hsize Hextension).
  destruct (decide ("retrieve" ≠ "retrieve")); [congruence |].
  destruct (decide (GoString.len hash ≠ 40%nat)); [contradiction |].
  cbv zeta. fold (sized_path cfg hash size ("." +:+ extension)).
  unfold mbind, Handler_bind, ReadFile. rewrite Hsized. reflexivity.
Qed.

(** Neither the rendition nor the full-size is on disk: [RetrieveHandler]
    answers 404, and asks no one else. *)
Lemma retrieve_miss (st : State) :
  fs st !! sized_path cfg hash size ("." +:+ extension) = None →
  fs st !! full_path cfg hash ("." +:+ extension) = None →
  RetrieveHandler Image jpeg_Encode png_Encode resize_worker env cfg
                  (retrieve_path hash size extension) st
  = http_Error "not found" 404 st.
Proof.
  intros Hsized Hfull. unfold RetrieveHandler.
  rewrite (Split_retrieve_path hash size extension Hhash Hsize Hextension).
  destruct (decide ("retrieve" ≠ "retrieve")); [congruence |].
  destruct (decide (GoString.len hash ≠ 40%nat)); [contradiction |].
  cbv zeta. fold (sized_path cfg hash size ("." +:+ extension)).
  fold (full_path cfg hash ("." +:+ extension)).
  unfold mbind, Handler_bind, ReadFile. rewrite Hsized, Hfull. reflexivity.
Qed.

End Peers.

Lemma StashHandler_rejects_witness :
  ∃ msg st',
    StashHandler (sample_env (fun _ => refused) refused)
                 (mkCluster (set_Writeable false node_a) []) cfg_min1
                 stash_png nothing_on_disk = Returned (tt, st') ∧
    http_Error msg 400 nothing_on_disk = Returned (tt, st') ∧
    code (w st') = Some (default 400 (code (w nothing_on_disk))) ∧
    fs st' = fs nothing_on_disk ∧ mc st' = mc nothing_on_disk.
Proof.
  apply (StashHandler_rejects (sample_env (fun _ => refused) refused)
           (mkCluster (set_Writeable false node_a) []) cfg_min1
           stash_png nothing_on_disk).
  right. left. reflexivity.
Defined.

Lemma StashHandler_stores_witness :
  ∃ st',
    StashHandler (sample_env (fun _ => refused) refused) single_node cfg_min1
                 stash_png nothing_on_disk = Returned (tt, st') ∧
    written (w st') = written (w nothing_on_disk) +:+ "ok" ∧
    fs st' !! full_path cfg_min1 (GoString.hex (Sha1.Sum "PNG")) ".png"
    = Some "PNG".
Proof.
  destruct (StashHandler_stores (sample_env (fun _ => refused) refused)
              single_node cfg_min1 stash_png nothing_on_disk
              "PNG" "/tmp/up/full.png" eq_refl eq_refl eq_refl)
    as (st' & Hrun & Hbody & _ & _ & _ & Hfile & _).
  exists st'. split; [exact Hrun |]. split; [exact Hbody |].
  exact (Hfile eq_refl).
Defined.

Lemma RetrieveInfoHandler_reports_local_witness :
  RetrieveInfoHandler sample_marshal cfg_min1
                      (retrieve_info_path abc_hash "x" "gif") gif_on_disk
  = Returned
      (tt,
       served "application/json"
              (sample_marshal
                 (mkImageInfoResponse
                    abc_hash "gif"
                    (bool_decide
                       (is_Some (fs gif_on_disk
                                   !! full_path cfg_min1 abc_hash
                                        ("." +:+ "gif"))))))
              gif_on_disk).
Proof.
  apply (RetrieveInfoHandler_reports_local sample_marshal cfg_min1
           abc_hash "x" "gif"); reflexivity.
Defined.

Section PeerRoundTrip.

Variable Image : Type.
Variable jpeg_Encode : Image → Z → string.
Variable png_Encode : Image → string.
Variable resize_worker :
  ResizeRequest → gmap string string →
  ResizeResponse Image * gmap string string.
Variable json_Marshal_info : ImageInfoResponse → string.
Variables (env env' : Env).
Variables (c : Cluster) (cfg : SiteConfig).

(** X19: What a peer accepted through [StashHandler] it gives back through
    [RetrieveHandler] and reports through [RetrieveInfoHandler]: asked for
    the size "full" of the SHA-1 of the bytes, with the extension of the
    file name they came under, it answers with the bytes stored; and the URL
    [retrieveUrl] builds for a node is that request at the node's
    address. *)
Theorem StashHandler_then_RetrieveHandler (r : StashRequest) (st : State)
    (body filename e : string) (n : NodeData) :
  StashMethod r = "POST" →
  Writeable (Myself c) = true →
  StashFile r = Some (body, filename) →
  filepath_Ext filename = "." +:+ e →
  lacks "/"%char e = true →
  let hash := GoString.hex (Sha1.Sum body) in
  can_create env (full_path cfg hash ("." +:+ e)) = true →
  ∃ st1 stored,
    StashHandler env c cfg r st = Returned (tt, st1) ∧
    stored =
      write_at_start (default "" (fs st !! full_path cfg hash ("." +:+ e)))
                     body ∧
    (fs st !! full_path cfg hash ("." +:+ e) = None → stored = body) ∧
    retrieveUrl n hash "full" e
    = "http://" +:+ BaseUrl n +:+ retrieve_path hash "full" e ∧
    ∀ mc2 w2,
      RetrieveHandler Image jpeg_Encode png_Encode resize_worker env' cfg
                      (retrieve_path hash "full" e) (mkState (fs st1) mc2 w2)
      = Returned (tt, served (map_index extmimes e) stored
                             (mkState (fs st1) mc2 w2)) ∧
      RetrieveInfoHandler json_Marshal_info cfg
                          (retrieve_info_path hash "x" e)
                          (mkState (fs st1) mc2 w2)
      = Returned (tt, served "application/json"
                             (json_Marshal_info
                                (mkImageInfoResponse hash e true))
                             (mkState (fs st1) mc2 w2)).
Proof.
  intros Hpost Hw Hfile Hext He hash Hcreate.
  destruct (stash_stores env c cfg r st body filename Hpost Hw Hfile)
    as (st1 & Hrun & _ & _ & _ & _ & Hstored & _).
  fold hash in Hstored. rewrite Hext in Hstored.
  specialize (Hstored Hcreate).
  assert (Hh : lacks "/"%char hash = true)
    by apply all_hex_lacks_slash, hex_all_hex.
  assert (Hl : GoString.len hash = 40%nat) by apply hex_Sum_len.
  exists st1. eexists. split; [exact Hrun |]. split; [reflexivity |].
  split; [intros ->; apply write_at_start_empty |].
  split; [reflexivity |].
  intros mc2 w2. split.
  - apply retrieve_sized_hit; try assumption; reflexivity.
  - rewrite retrieve_info_reports by (try assumption; reflexivity).
    cbn [fs]. rewrite Hstored.
    rewrite bool_decide_eq_true_2 by eauto. reflexivity.
Qed.

(** X20: A peer answers a retrieve with what it would send its own client: when
    the rendition is on disk, [RetrieveHandler] for hash, size and extension
    and [ServeImageHandler] for a file name of that extension write the same
    response, and neither changes a file. *)
Theorem RetrieveHandler_agrees_with_ServeImageHandler
    (ReadOrder : Cluster → string → list NodeData)
    (hash size e name contents : string) (st : State) :
  lacks "/"%char hash = true → lacks "/"%char size = true →
  lacks "/"%char e = true → lacks "/"%char name = true →
  GoString.len hash = 40%nat →
  filepath_Ext (request_filename name) = "." +:+ e →
  mc st !! memcache_key hash size ("." +:+ e) = None →
  fs st !! sized_path cfg hash size ("." +:+ e) = Some contents →
  ∃ st1 st2,
    RetrieveHandler Image jpeg_Encode png_Encode resize_worker env cfg
                    (retrieve_path hash size e) st = Returned (tt, st1) ∧
    ServeImageHandler Image jpeg_Encode png_Encode resize_worker ReadOrder
                      env c cfg (image_path hash size name) st
    = Returned (tt, st2) ∧
    w st1 = w st2 ∧
    written (w st1) = written (w st) +:+ contents ∧
    fs st1 = fs st ∧ fs st2 = fs st.
Proof.
  intros Hh Hs He Hn Hl Hext Hmc Hsized.
  eexists. eexists. split.
  - apply retrieve_sized_hit; eassumption.
  - split.
    + apply (serve_sized_hit Image jpeg_Encode png_Encode resize_worker
               ReadOrder env c cfg (image_path hash size name) "" hash size
               name [] (Split_image_path hash size name Hh Hs Hn) Hl
               st contents e).
      * rewrite Hext. exact Hmc.
      * rewrite Hext. exact Hsized.
      * rewrite Hext. apply slice_from_cons.
    + repeat split.
Qed.

End PeerRoundTrip.

Lemma StashHandler_then_RetrieveHandler_witness :
  ∃ st1,
    StashHandler (sample_env (fun _ => refused) refused) single_node cfg_min1
                 stash_png nothing_on_disk = Returned (tt, st1) ∧
    RetrieveHandler string sample_jpeg sample_png sample_worker
                    (sample_env (fun _ => refused) refused) cfg_min1
                    (retrieve_path (GoString.hex (Sha1.Sum "PNG")) "full" "png")
                    (mkState (fs st1) ∅ fresh)
    = Returned (tt, served "image/png" "PNG" (mkState (fs st1) ∅ fresh)).
Proof.
  destruct (StashHandler_then_RetrieveHandler
              string sample_jpeg sample_png sample_worker sample_marshal
              (sample_env (fun _ => refused) refused)
              (sample_env (fun _ => refused) refused)
              single_node cfg_min1 stash_png nothing_on_disk
              "PNG" "/tmp/up/full.png" "png" node_b
              eq_refl eq_refl eq_refl eq_refl eq_refl eq_refl)
    as (st1 & stored & Hrun & _ & Hfresh & _ & Hnext).
  rewrite (Hfresh (lookup_empty _)) in Hnext.
  exists st1. split; [exact Hrun |].
  exact (proj1 (Hnext ∅ fresh)).
Defined.

Lemma RetrieveHandler_agrees_with_ServeImageHandler_witness :
  ∃ st1 st2,
    RetrieveHandler string sample_jpeg sample_png sample_worker
                    (sample_env (fun _ => refused) refused) cfg_min1
                    (retrieve_path abc_hash "full" "gif") gif_on_disk
    = Returned (tt, st1) ∧
    sample_serve (fun _ => refused) (image_path abc_hash "full" "image.gif")
                 gif_on_disk = Returned (tt, st2) ∧
    w st1 = w st2 ∧
    written (w st1) = written (w gif_on_disk) +:+ "GIF89a" ∧
    fs st1 = fs gif_on_disk ∧ fs st2 = fs gif_on_disk.
Proof.
  apply (RetrieveHandler_agrees_with_ServeImageHandler
           string sample_jpeg sample_png sample_worker
           (sample_env (fun _ => refused) refused)
           (mkCluster node_a [node_b]) cfg_min1
           (fun _ _ => [node_a; node_b])
           abc_hash "full" "gif" "image.gif" "GIF89a" gif_on_disk);
    reflexivity.
Defined.

(** ** Announces *)

Section Announce.

Variable env : Env.
Variable FindNeighborByUUID : Cluster → string → option NodeData.
Variable UpdateNeighbor : Cluster → NodeData → Cluster.
Variable AddNeighbor : Cluster → NodeData → Cluster.
Variable GetNeighbors : Cluster → list NodeData.

Local Abbreviation announce :=
  (AnnounceHandler env FindNeighborByUUID UpdateNeighbor AddNeighbor
                   GetNeighbors).

Lemma announce_known_fields (r : AnnounceRequest) (now : Z) (n : NodeData) :
  let n' := announce_known r now n in
  UUID n' = UUID n ∧
  LastFailed n' = LastFailed n ∧
  LastSeen n' = now ∧
  Nickname n' = (if decide (Form_nickname r ≠ "") then Form_nickname r
                 else Nickname n) ∧
  Location n' = (if decide (Form_location r ≠ "") then Form_location r
                 else Location n) ∧
  BaseUrl n' = (if decide (Form_base_url r ≠ "") then Form_base_url r
                else BaseUrl n) ∧
  Writeable n' = (if decide (Form_writeable r ≠ "")
                  then bool_decide (Form_writeable r = "true")
                  else Writeable n).
Proof.
  unfold announce_known. cbv zeta.
  destruct (decide (Form_nickname r ≠ ""));
    destruct (decide (Form_location r ≠ ""));
    destruct (decide (Form_base_url r ≠ ""));
    destruct (decide (Form_writeable r ≠ ""));
    repeat split.
Qed.

(** X22: The announce of a neighbor the cluster knows updates its record and
    never its uuid nor its [LastFailed]: the record handed to
    [UpdateNeighbor] has [LastSeen] at the current time, takes each of
    nickname, location and address from the form when the form gives it and
    keeps it otherwise, and is writeable as the form says (exactly the value
    "true" means writeable) or as before when the form is silent.  Made later
    than the last failure, it makes the neighbor current. *)
Theorem AnnounceHandler_updates_known (c : Cluster) (r : AnnounceRequest)
    (n : NodeData) :
  AnnounceMethod r = "POST" →
  FindNeighborByUUID c (Form_uuid r) = Some n →
  ∃ n',
    (announce c r).1 = UpdateNeighbor c n' ∧
    UUID n' = UUID n ∧
    LastFailed n' = LastFailed n ∧
    LastSeen n' = time_Now env ∧
    Nickname n' = (if decide (Form_nickname r = "") then Nickname n
                   else Form_nickname r) ∧
    Location n' = (if decide (Form_location r = "") then Location n
                   else Form_location r) ∧
    BaseUrl n' = (if decide (Form_base_url r = "") then BaseUrl n
                  else Form_base_url r) ∧
    Writeable n' = (if decide (Form_writeable r = "") then Writeable n
                    else bool_decide (Form_writeable r = "true")) ∧
    (LastFailed n < time_Now env → IsCurrent n' = true).
Proof.
  intros Hpost Hfind. unfold AnnounceHandler. cbn [fst].
  destruct (decide (AnnounceMethod r = "POST")); [| contradiction].
  rewrite Hfind.
  exists (announce_known r (time_Now env) n).
  destruct (announce_known_fields r (time_Now env) n)
    as (Hu & Hf & Hs & Hn & Hl & Hb & Hw).
  split; [reflexivity |]. split; [exact Hu |]. split; [exact Hf |].
  split; [exact Hs |].
  split; [rewrite Hn; repeat case_decide; congruence |].
  split; [rewrite Hl; repeat case_decide; congruence |].
  split; [rewrite Hb; repeat case_decide; congruence |].
  split; [rewrite Hw; repeat case_decide; congruence |].
  intros Hlater. unfold IsCurrent. rewrite Hf, Hs. apply Z.ltb_lt, Hlater.
Qed.

(** X23: The announce of an unknown uuid adds a record with the form's values:
    it is writeable exactly when the form value is "true", its [LastSeen] is
    the current time and it has never failed, so that it is current. *)
Theorem AnnounceHandler_adds_unknown (c : Cluster) (r : AnnounceRequest) :
  AnnounceMethod r = "POST" →
  FindNeighborByUUID c (Form_uuid r) = None →
  time_zero < time_Now env →
  ∃ nd,
    (announce c r).1 = AddNeighbor c nd ∧
    UUID nd = Form_uuid r ∧ Nickname nd = Form_nickname r ∧
    BaseUrl nd = Form_base_url r ∧ Location nd = Form_location r ∧
    (Writeable nd = true ↔ Form_writeable r = "true") ∧
    LastSeen nd = time_Now env ∧
    LastFailed nd = time_zero ∧
    IsCurrent nd = true.
Proof.
  intros Hpost Hfind Hnow. unfold AnnounceHandler. cbn [fst].
  destruct (decide (AnnounceMethod r = "POST")); [| contradiction].
  rewrite Hfind. eexists. split; [reflexivity |].
  unfold announce_new, IsCurrent. cbv zeta.
  destruct (decide (Form_writeable r = "true")) as [Ht|Ht]; cbn;
    repeat split; try congruence; try (apply Z.ltb_lt, Hnow).
Qed.

(** X24: A peer that a failed stash took out of the write ring comes back with
    its next announce: if the record the cluster finds is the one [Stash]
    left after an error, an announce with writeable=true, made after the
    failure, hands [UpdateNeighbor] a record that is writeable and current,
    with the uuid of before. *)
Theorem Stash_failure_then_announce (env0 : Env)
    (files : gmap string string) (n n0 : NodeData) (filename : string)
    (c : Cluster) (r : AnnounceRequest) :
  Stash env0 files n filename = Returned (n0, false) →
  time_Now env0 < time_Now env →
  AnnounceMethod r = "POST" →
  Form_writeable r = "true" →
  FindNeighborByUUID c (Form_uuid r) = Some n0 →
  Writeable n0 = false ∧
  ∃ n',
    (announce c r).1 = UpdateNeighbor c n' ∧
    UUID n' = UUID n ∧ Writeable n' = true ∧ IsCurrent n' = true.
Proof.
  intros Hstash Hlater Hpost Hw Hfind.
  assert (Hn0 : n0 = set_Writeable false (set_LastFailed (time_Now env0) n)).
  { unfold Stash in Hstash.
    destruct (postFile env0 files filename (stashUrl n)) as [[resp|err]|msg];
      [discriminate | | discriminate].
    injection Hstash as <-. reflexivity. }
  split; [rewrite Hn0; reflexivity |].
  unfold AnnounceHandler. cbn [fst].
  destruct (decide (AnnounceMethod r = "POST")); [| contradiction].
  rewrite Hfind.
  exists (announce_known r (time_Now env) n0).
  destruct (announce_known_fields r (time_Now env) n0)
    as (Hu & Hf & Hs & _ & _ & _ & Hwr).
  split; [reflexivity |].
  split; [rewrite Hu, Hn0; reflexivity |].
  split.
  - rewrite Hwr, Hw. reflexivity.
  - unfold IsCurrent. rewrite Hf, Hs, Hn0. cbn. apply Z.ltb_lt, Hlater.
Qed.

End Announce.

Lemma AnnounceHandler_updates_known_witness :
  ∃ n',
    (AnnounceHandler (sample_env (fun _ => refused) refused)
                     sample_find sample_update sample_add Neighbors
                     (mkCluster node_a [node_b]) announce_b).1
    = sample_update (mkCluster node_a [node_b]) n' ∧
    UUID n' = "uuid-b" ∧ BaseUrl n' = "localhost:9000" ∧
    Nickname n' = "b" ∧ LastSeen n' = 1000.
Proof.
  destruct (AnnounceHandler_updates_known
              (sample_env (fun _ => refused) refused)
              sample_find sample_update sample_add Neighbors
              (mkCluster node_a [node_b]) announce_b node_b
              eq_refl eq_refl)
    as (n' & Hrun & Hu & _ & Hs & Hn & _ & Hb & _).
  exists n'. repeat split; assumption.
Defined.

Lemma AnnounceHandler_adds_unknown_witness :
  ∃ nd,
    (AnnounceHandler (sample_env (fun _ => refused) refused)
                     sample_find sample_update sample_add Neighbors
                     single_node announce_b).1
    = sample_add single_node nd ∧
    UUID nd = "uuid-b" ∧ Writeable nd = true ∧ IsCurrent nd = true.
Proof.
  destruct (AnnounceHandler_adds_unknown
              (sample_env (fun _ => refused) refused)
              sample_find sample_update sample_add Neighbors
              single_node announce_b eq_refl eq_refl eq_refl)
    as (nd & Hrun & Hu & _ & _ & _ & Hw & _ & _ & Hc).
  exists nd. repeat split; try assumption. apply Hw. reflexivity.
Defined.

Lemma Stash_failure_then_announce_witness :
  Writeable (mkNodeData "b" "uuid-b" "localhost:8082" "rack 2" false 0 900)
  = false ∧
  ∃ n',
    (AnnounceHandler
       (sample_env (fun _ => refused) refused)
       sample_find sample_update sample_add Neighbors
       (mkCluster node_a
          [mkNodeData "b" "uuid-b" "localhost:8082" "rack 2" false 0 900])
       announce_b).1
    = sample_update
        (mkCluster node_a
           [mkNodeData "b" "uuid-b" "localhost:8082" "rack 2" false 0 900])
        n' ∧
    UUID n' = UUID node_b ∧ Writeable n' = true ∧ IsCurrent n' = true.
Proof.
  apply (Stash_failure_then_announce
           (sample_env (fun _ => refused) refused)
           sample_find sample_update sample_add Neighbors
           (mkEnv 900 (fun _ => refused) (fun _ _ _ => refused)
                  (fun _ contents => ("multipart/form-data", contents))
                  (fun _ => true))
           one_file node_b _ "/tmp/up/full.png"
           (mkCluster node_a
              [mkNodeData "b" "uuid-b" "localhost:8082" "rack 2" false 0 900])
           announce_b);
    reflexivity.
Defined.

(** ** What a retrieve answers *)

Section RetrieveAnswers.

Variable Image : Type.
Variable jpeg_Encode : Image → Z → string.
Variable png_Encode : Image → string.
Variable resize_worker :
  ResizeRequest → gmap string string →
  ResizeResponse Image * gmap string string.
Variable env : Env.
Variable cfg : SiteConfig.

Variables (hash size extension : string).
Hypothesis Hhash : lacks "/"%char hash = true.
Hypothesis Hsize : lacks "/"%char size = true.
Hypothesis Hextension : lacks "/"%char extension = true.
Hypothesis Hlen : GoString.len hash = 40%nat.

Local Abbreviation retrieve :=
  (RetrieveHandler Image jpeg_Encode png_Encode resize_worker env cfg
                   (retrieve_path hash size extension)).

Ltac retrieve_enter :=
  unfold RetrieveHandler;
  rewrite (Split_retrieve_path hash size extension Hhash Hsize Hextension);
  destruct (decide ("retrieve" ≠ "retrieve")); [congruence |];
  destruct (decide (GoString.len hash ≠ 40%nat)); [contradiction |];
  cbv zeta;
  fold (sized_path cfg hash size ("." +:+ extension));
  fold (full_path cfg hash ("." +:+ extension));
  unfold mbind, Handler_bind, ReadFile, run_resize, OpenFile, Header_Set,
    encode_to_both, File_Write, Write, mret, Handler_ret, panic.

(** X21: Every answer of [RetrieveHandler] with status 200 carries the
    Content-Type of [extmimes] at the extension of the URL, on the branch
    where the worker wrote the file itself as on the others; and a call that
    finds the full-size missing changes no file. *)
Theorem RetrieveHandler_content_type (st st' : State) :
  code (w st) = None →
  retrieve st = Returned (tt, st') →
  (code (w st') = Some 200 →
   header (w st') !! "Content-Type" = Some (map_index extmimes extension)) ∧
  (fs st !! full_path cfg hash ("." +:+ extension) = None → fs st' = fs st).
Proof.
  intros Hnone. retrieve_enter.
  destruct (fs st !! sized_path cfg hash size ("." +:+ extension))
    as [contents|].
  { intros [= <-]. cbn. split; [intros _; apply lookup_insert_eq | reflexivity]. }
  destruct (fs st !! full_path cfg hash ("." +:+ extension)) as [full|].
  - destruct (resize_worker _ (fs st)) as [result files'].
    cbv beta iota.
    destruct (Success result); cbn [negb].
    + destruct (Magick result).
      * intros [= <-]. cbn.
        split; [intros _; apply lookup_insert_eq | discriminate].
      * destruct (OutputImage result) as [img|]; [| discriminate].
        destruct (can_create env _); cbv beta iota;
          cbn [fs mc w code header written];
          destruct (decide (extension = "jpg"));
          [| destruct (decide (extension = "gif"));
             [| destruct (decide (extension = "png"))] |
           | destruct (decide (extension = "gif"));
             [| destruct (decide (extension = "png"))]];
          intros [= <-]; cbn; rewrite ?Hnone;
          (split; [first [intros _; apply lookup_insert_eq | discriminate]
                  | discriminate]).
    + unfold http_Error, mbind, Handler_bind, Header_Set, WriteHeader, Write.
      intros [= <-]. cbn. rewrite Hnone.
      split; discriminate.
  - unfold http_Error, mbind, Handler_bind, Header_Set, WriteHeader, Write.
    intros [= <-]. cbn. rewrite Hnone. split; [discriminate | reflexivity].
Qed.

End RetrieveAnswers.

Lemma RetrieveHandler_content_type_witness :
  (code (w (served "image/gif" "GIF89a" gif_on_disk)) = Some 200 →
   header (w (served "image/gif" "GIF89a" gif_on_disk)) !! "Content-Type"
   = Some (map_index extmimes "gif")) ∧
  (fs gif_on_disk !! full_path cfg_min1 abc_hash ("." +:+ "gif") = None →
   fs (served "image/gif" "GIF89a" gif_on_disk) = fs gif_on_disk).
Proof.
  apply (RetrieveHandler_content_type
           string sample_jpeg sample_png sample_worker
           (sample_env (fun _ => refused) refused) cfg_min1
           abc_hash "full" "gif" eq_refl eq_refl eq_refl eq_refl
           gif_on_disk (served "image/gif" "GIF89a" gif_on_disk));
    reflexivity.
Defined.

